(** * DCO calibration for the MSP430 (main.c): model and verified properties

    The program calibrates the digitally controlled oscillator of an
    MSP430G2553 against the 32768 Hz crystal.  The target is a 16-bit
    machine: [int] and [unsigned int] are 16 bits wide, [long] is 32 bits
    wide and [char] is 8 bits wide.  Every C integer is modelled as a [Z]
    with its wrap-around written out. *)

From Stdlib Require Import ZArith List Bool Lia.
Import ListNotations.
Local Open Scope Z_scope.

(** ** Machine arithmetic *)

(** Conversion to [unsigned int] (16 bits). *)
Definition to_uint16 (x : Z) : Z := x mod 65536.

(** Conversion to [int] (16 bits, two's complement). *)
Definition to_int16 (x : Z) : Z := (x + 32768) mod 65536 - 32768.

(** Conversion to [unsigned long] (32 bits). *)
Definition to_uint32 (x : Z) : Z := x mod 4294967296.

(** Conversion to [long] (32 bits, two's complement). *)
Definition to_int32 (x : Z) : Z := (x + 2147483648) mod 4294967296 - 2147483648.

(** Conversion to [unsigned char]. *)
Definition to_uint8 (x : Z) : Z := x mod 256.

(** Conversion to [char].  The program stores a signed percentage in a
    plain [char] and compares it with [-MAX_ERROR], so plain [char] is
    taken as signed, as the legacy mspgcc tool chain of the sources has it. *)
Definition to_int8 (x : Z) : Z := (x + 128) mod 256 - 128.

(** [a - b] on two [unsigned int] operands. *)
Definition sub16 (a b : Z) : Z := to_uint16 (a - b).

(** [a + b] where [a] is [unsigned long]. *)
Definition add32 (a b : Z) : Z := to_uint32 (a + b).

(** ** Constants of the program *)

Definition MAX_ERROR : Z := 5.
Definition MAX_CYCLES : Z := 10.
Definition NCAP : Z := 50.
Definition NFREQ : nat := 9.

(** Goal counter values for each frequency (freq(Hz)/512). *)
Definition GoalN : list Z :=
  [977; 1953; 3906; 7813; 11719; 15625; 19531; 23438; 31250].

(** Addresses of NewDCOCal.h, in the order of [CalPos] in main.c. *)
Definition NCALDCO_500kHZ_ : Z := 0x10AE.
Definition NCALDCO_16MHZ_ : Z := 0x10B0.
Definition NCALDCO_12MHZ_ : Z := 0x10B2.
Definition NCALDCO_10MHZ_ : Z := 0x10B4.
Definition NCALDCO_8MHZ_ : Z := 0x10B6.
Definition NCALDCO_6MHZ_ : Z := 0x10B8.
Definition NCALDCO_4MHZ_ : Z := 0x10BA.
Definition NCALDCO_2MHZ_ : Z := 0x10BC.
Definition NCALDCO_1MHZ_ : Z := 0x10BE.

Definition CalPos : list Z :=
  [NCALDCO_500kHZ_; NCALDCO_1MHZ_; NCALDCO_2MHZ_; NCALDCO_4MHZ_;
   NCALDCO_6MHZ_; NCALDCO_8MHZ_; NCALDCO_10MHZ_; NCALDCO_12MHZ_;
   NCALDCO_16MHZ_].

(** Bits and addresses of the device header msp430g2553.h, which main.c
    includes and which is not part of the repository. *)
Definition XT2OFF : Z := 0x80.
Definition DCO0 : Z := 0x20.
Definition FWKEY : Z := 0xA500.
Definition LOCK : Z := 0x0010.
Definition WRT : Z := 0x0040.
Definition ERASE : Z := 0x0002.
Definition FSSEL_1 : Z := 0x0040.
Definition FN1 : Z := 0x0002.
Definition CALDCO_1MHZ_ : Z := 0x10FE.
Definition CALBC1_1MHZ_ : Z := 0x10FF.

(** ** The environment

    The hardware the program observes: the value latched in the capture
    register TACCR0 at the n-th capture event that is served while the
    program waits in [setDCO], the oscillator-fault flag LFXT1OF of
    BCSCTL3 as read after n such events, and the same flag as the n-th
    test of [startClk32] finds it, before any capture is served.
    Nothing is assumed about them, so every behaviour of the oscillator
    and of the crystal is covered.  Captures served outside a wait are
    not counted: they move only [LastCapture], [LastDifference] and the
    saturating [ncap], and a session discards its first five captures. *)
Record Env : Type := {
  TACCR0_at : nat -> Z;
  LFXT1OF_at : nat -> bool;
  LFXT1OF_start : nat -> bool
}.

(** ** The machine state

    The peripheral registers the program writes, the information memory,
    the global variables of main.c and the number of capture events that
    have been served so far. *)
Record State : Type := {
  BCSCTL1 : Z;
  DCOCTL : Z;
  FCTL1 : Z;
  FCTL2 : Z;
  FCTL3 : Z;
  GIE : bool;
  flash : Z -> Z;
  CalDCO : list Z;
  CalBC1 : list Z;
  LastCapture : Z;
  LastDifference : Z;
  AveragedDifference : Z;
  Mean : Z;
  ncap : Z;
  rsel : Z;
  dco : Z;
  mod_ : Z;
  tick : nat
}.

Definition set_BCSCTL1 (v : Z) (s : State) : State :=
  {| BCSCTL1 := v; DCOCTL := DCOCTL s; FCTL1 := FCTL1 s; FCTL2 := FCTL2 s;
     FCTL3 := FCTL3 s; GIE := GIE s; flash := flash s; CalDCO := CalDCO s;
     CalBC1 := CalBC1 s; LastCapture := LastCapture s;
     LastDifference := LastDifference s;
     AveragedDifference := AveragedDifference s; Mean := Mean s;
     ncap := ncap s; rsel := rsel s; dco := dco s; mod_ := mod_ s;
     tick := tick s |}.

Definition set_DCOCTL (v : Z) (s : State) : State :=
  {| BCSCTL1 := BCSCTL1 s; DCOCTL := v; FCTL1 := FCTL1 s; FCTL2 := FCTL2 s;
     FCTL3 := FCTL3 s; GIE := GIE s; flash := flash s; CalDCO := CalDCO s;
     CalBC1 := CalBC1 s; LastCapture := LastCapture s;
     LastDifference := LastDifference s;
     AveragedDifference := AveragedDifference s; Mean := Mean s;
     ncap := ncap s; rsel := rsel s; dco := dco s; mod_ := mod_ s;
     tick := tick s |}.

Definition set_FCTL1 (v : Z) (s : State) : State :=
  {| BCSCTL1 := BCSCTL1 s; DCOCTL := DCOCTL s; FCTL1 := v; FCTL2 := FCTL2 s;
     FCTL3 := FCTL3 s; GIE := GIE s; flash := flash s; CalDCO := CalDCO s;
     CalBC1 := CalBC1 s; LastCapture := LastCapture s;
     LastDifference := LastDifference s;
     AveragedDifference := AveragedDifference s; Mean := Mean s;
     ncap := ncap s; rsel := rsel s; dco := dco s; mod_ := mod_ s;
     tick := tick s |}.

Definition set_FCTL2 (v : Z) (s : State) : State :=
  {| BCSCTL1 := BCSCTL1 s; DCOCTL := DCOCTL s; FCTL1 := FCTL1 s; FCTL2 := v;
     FCTL3 := FCTL3 s; GIE := GIE s; flash := flash s; CalDCO := CalDCO s;
     CalBC1 := CalBC1 s; LastCapture := LastCapture s;
     LastDifference := LastDifference s;
     AveragedDifference := AveragedDifference s; Mean := Mean s;
     ncap := ncap s; rsel := rsel s; dco := dco s; mod_ := mod_ s;
     tick := tick s |}.

Definition set_FCTL3 (v : Z) (s : State) : State :=
  {| BCSCTL1 := BCSCTL1 s; DCOCTL := DCOCTL s; FCTL1 := FCTL1 s;
     FCTL2 := FCTL2 s; FCTL3 := v; GIE := GIE s; flash := flash s;
     CalDCO := CalDCO s; CalBC1 := CalBC1 s; LastCapture := LastCapture s;
     LastDifference := LastDifference s;
     AveragedDifference := AveragedDifference s; Mean := Mean s;
     ncap := ncap s; rsel := rsel s; dco := dco s; mod_ := mod_ s;
     tick := tick s |}.

Definition set_GIE (v : bool) (s : State) : State :=
  {| BCSCTL1 := BCSCTL1 s; DCOCTL := DCOCTL s; FCTL1 := FCTL1 s;
     FCTL2 := FCTL2 s; FCTL3 := FCTL3 s; GIE := v; flash := flash s;
     CalDCO := CalDCO s; CalBC1 := CalBC1 s; LastCapture := LastCapture s;
     LastDifference := LastDifference s;
     AveragedDifference := AveragedDifference s; Mean := Mean s;
     ncap := ncap s; rsel := rsel s; dco := dco s; mod_ := mod_ s;
     tick := tick s |}.

Definition set_flash (v : Z -> Z) (s : State) : State :=
  {| BCSCTL1 := BCSCTL1 s; DCOCTL := DCOCTL s; FCTL1 := FCTL1 s;
     FCTL2 := FCTL2 s; FCTL3 := FCTL3 s; GIE := GIE s; flash := v;
     CalDCO := CalDCO s; CalBC1 := CalBC1 s; LastCapture := LastCapture s;
     LastDifference := LastDifference s;
     AveragedDifference := AveragedDifference s; Mean := Mean s;
     ncap := ncap s; rsel := rsel s; dco := dco s; mod_ := mod_ s;
     tick := tick s |}.

Definition set_CalDCO (v : list Z) (s : State) : State :=
  {| BCSCTL1 := BCSCTL1 s; DCOCTL := DCOCTL s; FCTL1 := FCTL1 s;
     FCTL2 := FCTL2 s; FCTL3 := FCTL3 s; GIE := GIE s; flash := flash s;
     CalDCO := v; CalBC1 := CalBC1 s; LastCapture := LastCapture s;
     LastDifference := LastDifference s;
     AveragedDifference := AveragedDifference s; Mean := Mean s;
     ncap := ncap s; rsel := rsel s; dco := dco s; mod_ := mod_ s;
     tick := tick s |}.

Definition set_CalBC1 (v : list Z) (s : State) : State :=
  {| BCSCTL1 := BCSCTL1 s; DCOCTL := DCOCTL s; FCTL1 := FCTL1 s;
     FCTL2 := FCTL2 s; FCTL3 := FCTL3 s; GIE := GIE s; flash := flash s;
     CalDCO := CalDCO s; CalBC1 := v; LastCapture := LastCapture s;
     LastDifference := LastDifference s;
     AveragedDifference := AveragedDifference s; Mean := Mean s;
     ncap := ncap s; rsel := rsel s; dco := dco s; mod_ := mod_ s;
     tick := tick s |}.

Definition set_LastCapture (v : Z) (s : State) : State :=
  {| BCSCTL1 := BCSCTL1 s; DCOCTL := DCOCTL s; FCTL1 := FCTL1 s;
     FCTL2 := FCTL2 s; FCTL3 := FCTL3 s; GIE := GIE s; flash := flash s;
     CalDCO := CalDCO s; CalBC1 := CalBC1 s; LastCapture := v;
     LastDifference := LastDifference s;
     AveragedDifference := AveragedDifference s; Mean := Mean s;
     ncap := ncap s; rsel := rsel s; dco := dco s; mod_ := mod_ s;
     tick := tick s |}.

Definition set_LastDifference (v : Z) (s : State) : State :=
  {| BCSCTL1 := BCSCTL1 s; DCOCTL := DCOCTL s; FCTL1 := FCTL1 s;
     FCTL2 := FCTL2 s; FCTL3 := FCTL3 s; GIE := GIE s; flash := flash s;
     CalDCO := CalDCO s; CalBC1 := CalBC1 s; LastCapture := LastCapture s;
     LastDifference := v;
     AveragedDifference := AveragedDifference s; Mean := Mean s;
     ncap := ncap s; rsel := rsel s; dco := dco s; mod_ := mod_ s;
     tick := tick s |}.

Definition set_AveragedDifference (v : Z) (s : State) : State :=
  {| BCSCTL1 := BCSCTL1 s; DCOCTL := DCOCTL s; FCTL1 := FCTL1 s;
     FCTL2 := FCTL2 s; FCTL3 := FCTL3 s; GIE := GIE s; flash := flash s;
     CalDCO := CalDCO s; CalBC1 := CalBC1 s; LastCapture := LastCapture s;
     LastDifference := LastDifference s;
     AveragedDifference := v; Mean := Mean s;
     ncap := ncap s; rsel := rsel s; dco := dco s; mod_ := mod_ s;
     tick := tick s |}.

Definition set_Mean (v : Z) (s : State) : State :=
  {| BCSCTL1 := BCSCTL1 s; DCOCTL := DCOCTL s; FCTL1 := FCTL1 s;
     FCTL2 := FCTL2 s; FCTL3 := FCTL3 s; GIE := GIE s; flash := flash s;
     CalDCO := CalDCO s; CalBC1 := CalBC1 s; LastCapture := LastCapture s;
     LastDifference := LastDifference s;
     AveragedDifference := AveragedDifference s; Mean := v;
     ncap := ncap s; rsel := rsel s; dco := dco s; mod_ := mod_ s;
     tick := tick s |}.

Definition set_ncap (v : Z) (s : State) : State :=
  {| BCSCTL1 := BCSCTL1 s; DCOCTL := DCOCTL s; FCTL1 := FCTL1 s;
     FCTL2 := FCTL2 s; FCTL3 := FCTL3 s; GIE := GIE s; flash := flash s;
     CalDCO := CalDCO s; CalBC1 := CalBC1 s; LastCapture := LastCapture s;
     LastDifference := LastDifference s;
     AveragedDifference := AveragedDifference s; Mean := Mean s;
     ncap := v; rsel := rsel s; dco := dco s; mod_ := mod_ s;
     tick := tick s |}.

Definition set_rsel (v : Z) (s : State) : State :=
  {| BCSCTL1 := BCSCTL1 s; DCOCTL := DCOCTL s; FCTL1 := FCTL1 s;
     FCTL2 := FCTL2 s; FCTL3 := FCTL3 s; GIE := GIE s; flash := flash s;
     CalDCO := CalDCO s; CalBC1 := CalBC1 s; LastCapture := LastCapture s;
     LastDifference := LastDifference s;
     AveragedDifference := AveragedDifference s; Mean := Mean s;
     ncap := ncap s; rsel := v; dco := dco s; mod_ := mod_ s;
     tick := tick s |}.

Definition set_dco (v : Z) (s : State) : State :=
  {| BCSCTL1 := BCSCTL1 s; DCOCTL := DCOCTL s; FCTL1 := FCTL1 s;
     FCTL2 := FCTL2 s; FCTL3 := FCTL3 s; GIE := GIE s; flash := flash s;
     CalDCO := CalDCO s; CalBC1 := CalBC1 s; LastCapture := LastCapture s;
     LastDifference := LastDifference s;
     AveragedDifference := AveragedDifference s; Mean := Mean s;
     ncap := ncap s; rsel := rsel s; dco := v; mod_ := mod_ s;
     tick := tick s |}.

Definition set_mod (v : Z) (s : State) : State :=
  {| BCSCTL1 := BCSCTL1 s; DCOCTL := DCOCTL s; FCTL1 := FCTL1 s;
     FCTL2 := FCTL2 s; FCTL3 := FCTL3 s; GIE := GIE s; flash := flash s;
     CalDCO := CalDCO s; CalBC1 := CalBC1 s; LastCapture := LastCapture s;
     LastDifference := LastDifference s;
     AveragedDifference := AveragedDifference s; Mean := Mean s;
     ncap := ncap s; rsel := rsel s; dco := dco s; mod_ := v;
     tick := tick s |}.

Definition set_tick (v : nat) (s : State) : State :=
  {| BCSCTL1 := BCSCTL1 s; DCOCTL := DCOCTL s; FCTL1 := FCTL1 s;
     FCTL2 := FCTL2 s; FCTL3 := FCTL3 s; GIE := GIE s; flash := flash s;
     CalDCO := CalDCO s; CalBC1 := CalBC1 s; LastCapture := LastCapture s;
     LastDifference := LastDifference s;
     AveragedDifference := AveragedDifference s; Mean := Mean s;
     ncap := ncap s; rsel := rsel s; dco := dco s; mod_ := mod_ s;
     tick := v |}.

(** [dint()] and [eint()]. *)
Definition dint (s : State) : State := set_GIE false s.
Definition eint (s : State) : State := set_GIE true s.

(** ** Measurement channel *)

Section Measurement.

Variable hw : Env.

(** Capture 0 interrupt: the difference between two captures is added to
    [Mean] while [0 <= ncap < NCAP]; [ncap] counts up to 10000.  The
    handler reads TACCR0, here the capture the environment delivers at the
    current event. *)
Definition CAPTURE0_ISR (s : State) : State :=
  let TACCR0 := to_uint16 (TACCR0_at hw (tick s)) in
  let s := set_LastDifference (sub16 TACCR0 (LastCapture s)) s in
  let s := set_LastCapture TACCR0 s in
  let s :=
    if 0 <=? ncap s then
      if ncap s <? NCAP then set_Mean (add32 (Mean s) (LastDifference s)) s
      else s
    else s in
  let s := if ncap s <? 10000 then set_ncap (to_int16 (ncap s + 1)) s else s in
  set_tick (S (tick s)) s.

(** [while (ncap<limit) {};] with interrupts enabled: the control thread
    changes nothing, so the state moves only when a capture interrupt is
    served.  The loop condition is tested before every event; [fuel]
    bounds the number of events waited for. *)
Fixpoint wait_ncap (fuel : nat) (limit : Z) (s : State) : State :=
  if ncap s <? limit then
    match fuel with
    | O => s
    | S fuel' => wait_ncap fuel' limit (CAPTURE0_ISR s)
    end
  else s.

(** [setDCO]: programs the oscillator, arms a session with interrupts
    disabled, waits for [NCAP] samples and averages.  The parameters
    shadow the globals [rsel], [dco] and [mod], which are left alone.
    The wait is given as many events as samples are missing;
    [wait_ncap_session] shows that it ends through its condition and
    [wait_ncap_enough_fuel] that more events change nothing. *)
Definition setDCO (rsel dco mod_ : Z) (s : State) : State :=
  let s := set_BCSCTL1 (to_uint8 (XT2OFF + rsel)) s in
  let s := set_DCOCTL (to_uint8 (dco * DCO0 + mod_)) s in
  let s := dint s in
  let s := set_Mean 0 s in
  let s := set_ncap (-5) s in
  let s := eint s in
  let s := wait_ncap (Z.to_nat (NCAP - ncap s)) NCAP s in
  set_AveragedDifference (to_uint16 (Mean s / NCAP)) s.

(** The capture register at event [k], and the cycle count between the
    captures [k-1] and [k] as the handler computes it. *)
Definition capture (k : nat) : Z := to_uint16 (TACCR0_at hw k).
Definition delta (k : nat) : Z := sub16 (capture k) (capture (k - 1)).

(** Sum of the [n] capture deltas from event [from] on. *)
Fixpoint sum_deltas (from n : nat) : Z :=
  match n with
  | O => 0
  | S n' => delta from + sum_deltas (S from) n'
  end.

(** The mean of the [NCAP] deltas that follow the five discarded captures
    of a session armed at event [t]. *)
Definition reading (t : nat) : Z := sum_deltas (t + 5) 50 / 50.

End Measurement.

(** ** Parameter search *)

Section Search.

Variable hw : Env.

(** [for(rsel=0;rsel<16;rsel++)] of [searchGoal], entered after [rsel=0].
    The local [prev] is threaded through and returned with the state. *)
Fixpoint rsel_loop (fuel : nat) (CurrentNGoal prev : Z) (s : State)
  : State * Z :=
  if rsel s <? 16 then
    match fuel with
    | O => (s, prev)
    | S fuel' =>
        let s := setDCO hw (rsel s) 3 0 s in
        if CurrentNGoal <? AveragedDifference s then (s, prev)
        else rsel_loop fuel' CurrentNGoal (AveragedDifference s)
               (set_rsel (to_int16 (rsel s + 1)) s)
    end
  else (s, prev).

(** The choice of [rsel] after the loop. *)
Definition rsel_pick (CurrentNGoal prev : Z) (s : State) : State :=
  if rsel s <? 16 then
    if negb (rsel s =? 0) then
      if sub16 CurrentNGoal prev <? sub16 (AveragedDifference s) CurrentNGoal
      then set_rsel (to_int16 (rsel s - 1)) s
      else s
    else s
  else set_rsel 15 s.

(** Range scan: the first loop of [searchGoal] and the choice after it. *)
Definition range_scan (CurrentNGoal prev : Z) (s : State) : State * Z :=
  let '(s, prev) := rsel_loop 16 CurrentNGoal prev (set_rsel 0 s) in
  (rsel_pick CurrentNGoal prev s, prev).

(** [for(dco=0;dco<8;dco++)], entered after [dco=0]. *)
Fixpoint dco_loop (fuel : nat) (CurrentNGoal : Z) (s : State) : State :=
  if dco s <? 8 then
    match fuel with
    | O => s
    | S fuel' =>
        let s := setDCO hw (rsel s) (dco s) 0 s in
        if CurrentNGoal <? AveragedDifference s then s
        else dco_loop fuel' CurrentNGoal (set_dco (to_int16 (dco s + 1)) s)
    end
  else s.

(** Step scan: the second loop of [searchGoal]. *)
Definition step_scan (CurrentNGoal : Z) (s : State) : State :=
  dco_loop 8 CurrentNGoal (set_dco 0 s).

(** [for(mod=0;mod<32;mod++)], entered after [mod=0]. *)
Fixpoint mod_loop (fuel : nat) (CurrentNGoal prev : Z) (s : State)
  : State * Z :=
  if mod_ s <? 32 then
    match fuel with
    | O => (s, prev)
    | S fuel' =>
        let s := setDCO hw (rsel s) (dco s) (mod_ s) s in
        if CurrentNGoal <? AveragedDifference s then (s, prev)
        else mod_loop fuel' CurrentNGoal (AveragedDifference s)
               (set_mod (to_int16 (mod_ s + 1)) s)
    end
  else (s, prev).

(** The choice of [mod] after the loop. *)
Definition mod_pick (CurrentNGoal prev : Z) (s : State) : State :=
  if mod_ s <? 32 then
    if negb (mod_ s =? 0) then
      if sub16 CurrentNGoal prev <? sub16 (AveragedDifference s) CurrentNGoal
      then set_mod (to_int16 (mod_ s - 1)) s
      else s
    else s
  else set_mod 31 s.

(** "Check special case": [m0diff] is an [int] and the right-hand side an
    [unsigned int], so the comparison is made on [unsigned int]. *)
Definition special_case (CurrentNGoal m0diff : Z) (s : State) : State :=
  if mod_ s =? 31 then
    if to_uint16 m0diff <? sub16 (AveragedDifference s) CurrentNGoal
    then set_mod 0 (set_dco (to_int16 (dco s + 1)) s)
    else s
  else s.

(** Modulation scan: the third loop of [searchGoal], the choice of [mod]
    and the special case, entered after [dco--]. *)
Definition mod_scan (CurrentNGoal m0diff prev : Z) (s : State) : State :=
  let '(s, prev) := mod_loop 32 CurrentNGoal prev (set_mod 0 s) in
  special_case CurrentNGoal m0diff (mod_pick CurrentNGoal prev s).

(** [searchGoal], with the indeterminate initial content of the local
    [prev] as a parameter.  The result is the returned [int] and the
    state. *)
Definition searchGoal_with (prev0 CurrentNGoal : Z) (s : State) : Z * State :=
  let '(s, prev) := range_scan CurrentNGoal prev0 s in
  let s := step_scan CurrentNGoal s in
  if 7 <? dco s then (1, s)
  else if dco s =? 0 then (1, s)
  else
    let m0diff := to_int16 (sub16 (AveragedDifference s) CurrentNGoal) in
    let s := set_dco (to_int16 (dco s - 1)) s in
    let s := mod_scan CurrentNGoal m0diff prev s in
    (0, setDCO hw (rsel s) (dco s) (mod_ s) s).

Definition searchGoal (CurrentNGoal : Z) (s : State) : Z * State :=
  searchGoal_with 0 CurrentNGoal s.

End Search.

(** ** Calibration store *)

(** The two ways a function of the program ends: it returns, or it ends in
    a loop that is never left: the blink loop of [errorLock(error)], the
    loop of [loopFrequencies(fromFlash)], or the loop of [startClk32]
    with a crystal that does not start. *)
Inductive Outcome : Type :=
| Locked (error : Z) (s : State)
| Looping (fromFlash : bool) (s : State)
| Starting (s : State).

Inductive Flow (A : Type) : Type :=
| Returned (a : A)
| Halted (o : Outcome).

Arguments Returned {A} a.
Arguments Halted {A} o.

(** An [unsigned char] read from the information memory. *)
Definition peek (s : State) (a : Z) : Z := to_uint8 (flash s a).

Definition CALDCO_1MHZ (s : State) : Z := peek s CALDCO_1MHZ_.
Definition CALBC1_1MHZ (s : State) : Z := peek s CALBC1_1MHZ_.

(** [errorLock]: sets the 1MHz factory calibration and blinks forever. *)
Definition errorLock (error : Z) (s : State) : Outcome :=
  let s := set_DCOCTL (CALDCO_1MHZ s) s in
  let s := set_BCSCTL1 (CALBC1_1MHZ s) s in
  Locked error s.

(** The flash controller is locked while the LOCK bit of FCTL3 is set. *)
Definition locked (s : State) : bool := Z.testbit (FCTL3 s) 4.
Definition write_mode (s : State) : bool := Z.testbit (FCTL1 s) 6.
Definition erase_mode (s : State) : bool := Z.testbit (FCTL1 s) 1.

(** A byte written by the CPU into the information memory, as the flash
    controller of the device treats it: ignored while locked; in write
    mode programming can only clear bits; in erase mode a dummy write
    erases the 64-byte segment of the address. *)
Definition poke (a v : Z) (s : State) : State :=
  if locked s then s
  else if write_mode s then
    set_flash (fun x => if x =? a then Z.land (flash s a) (to_uint8 v)
                        else flash s x) s
  else if erase_mode s then
    set_flash (fun x => if x / 64 =? a / 64 then 0xFF else flash s x) s
  else s.

(** [testFlashEmpty]: 1 if some calibration location holds data. *)
Fixpoint testFlashEmpty_from (positions : list Z) (s : State) : Z :=
  match positions with
  | [] => 0
  | p :: rest =>
      if negb (peek s p =? 0xFF) then 1
      else if negb (peek s (p + 1) =? 0xFF) then 1
      else testFlashEmpty_from rest s
  end.

Definition testFlashEmpty (s : State) : Z := testFlashEmpty_from CalPos s.

(** The two compile-time switches of main.c. *)
Record Build : Type := {
  FLASH_OVERRIDE : bool;
  TEST_MODE : bool
}.

(** The statements of [flashWrite] after the test for the factory
    calibration, one state transformer per statement, in program order. *)
Definition flashWrite_steps (b : Build) : list (State -> State) :=
  [ dint;
    (fun s => set_DCOCTL (CALDCO_1MHZ s) s);
    (fun s => set_BCSCTL1 (CALBC1_1MHZ s) s);
    set_FCTL2 (FWKEY + FSSEL_1 + FN1);
    set_FCTL3 FWKEY ]
  ++ (if FLASH_OVERRIDE b
      then [ set_FCTL1 (FWKEY + ERASE); poke (nth 0 CalPos 0) 0 ]
      else [])
  ++ [ set_FCTL1 (FWKEY + WRT) ]
  ++ flat_map
       (fun i => [ (fun s => poke (nth i CalPos 0) (nth i (CalDCO s) 0) s);
                   (fun s => poke (nth i CalPos 0 + 1) (nth i (CalBC1 s) 0) s) ])
       (seq 0 NFREQ)
  ++ [ set_FCTL1 FWKEY;
       set_FCTL3 (FWKEY + LOCK);
       eint ].

(** Running statements in sequence, and the states after each of them. *)
Definition run (steps : list (State -> State)) (s : State) : State :=
  fold_left (fun s f => f s) steps s.

Fixpoint trace (steps : list (State -> State)) (s : State) : list State :=
  match steps with
  | [] => []
  | f :: rest => let s' := f s in s' :: trace rest s'
  end.

(** [flashWrite]. *)
Definition flashWrite (b : Build) (s : State) : Flow State :=
  if (CALBC1_1MHZ s =? 0xFF) || (CALDCO_1MHZ s =? 0xFF)
  then Halted (errorLock 4 s)
  else Returned (run (flashWrite_steps b) s).

(** ** Operating controller *)

(** [loopFrequencies]: never returns. *)
Definition loopFrequencies (fromFlash : bool) (s : State) : Outcome :=
  Looping fromFlash s.

(** The values [loopFrequencies] programs into DCOCTL and BCSCTL1 at
    index [i], and the index that follows [i] on a push of the button. *)
Definition frequency_setting (fromFlash : bool) (s : State) (i : nat)
  : Z * Z :=
  if fromFlash
  then (peek s (nth i CalPos 0), peek s (nth i CalPos 0 + 1))
  else (nth i (CalDCO s) 0, nth i (CalBC1 s) 0).

Definition next_frequency (i : nat) : nat :=
  if (NFREQ <=? S i)%nat then O else S i.

(** [startClk32] as far as the state above goes: the writes to BCSCTL3
    and the delays touch nothing of it, and the do-while loop is left at
    the first test that finds the oscillator-fault flag clear.  The
    result is the number of that test, counted from [n]; [fuel] bounds
    the number of tests observed, and [None] says that the loop is still
    running after them. *)
Fixpoint startClk32_tests (fault : nat -> bool) (fuel n : nat) : option nat :=
  match fuel with
  | O => None
  | S fuel' =>
      if fault n then startClk32_tests fault fuel' (S n) else Some n
  end.

(** [configureAll], as far as the modelled registers go: the 1MHz factory
    calibration is loaded and [startClk32] waits for the crystal; the
    set-up of ports, watchdog and timer touches nothing of the state
    above. *)
Definition configureAll (hw : Env) (fuel : nat) (s : State) : Flow State :=
  let s := set_DCOCTL (CALDCO_1MHZ s) s in
  let s := set_BCSCTL1 (CALBC1_1MHZ s) s in
  match startClk32_tests (LFXT1OF_start hw) fuel 0 with
  | None => Halted (Starting s)
  | Some _ => Returned s
  end.

(** [a[i] = v] on an array held as a list. *)
Fixpoint array_set (a : list Z) (i : nat) (v : Z) : list Z :=
  match a, i with
  | [], _ => []
  | _ :: rest, O => v :: rest
  | x :: rest, S i' => x :: array_set rest i' v
  end.

(** The frequency error in percent as [main] computes it:
    [(char)((100*((long)AveragedDifference-(long)GoalN[i]))/GoalN[i])]. *)
Definition percent_error (AveragedDifference goal : Z) : Z :=
  to_int8 (Z.quot (to_int32 (100 * to_int32 (AveragedDifference - goal))) goal).

Definition within_tolerance (error : Z) : bool :=
  (error <=? MAX_ERROR) && (- MAX_ERROR <=? error).

(** The percentage written in the comment of the program, without any
    conversion: the quotient of [100*(measured-goal)] by [goal], rounded
    towards zero as C divides. *)
Definition exact_percent_error (measured goal : Z) : Z :=
  Z.quot (100 * (measured - goal)) goal.

Section Controller.

Variable hw : Env.
Variable build : Build.

(** [for(j=0;j<MAX_CYCLES;j++)] of [main] for one goal, entered after
    [j=0]; the result is [j] and the state at the exit of the loop. *)
Fixpoint cycles_loop (fuel : nat) (goal j : Z) (s : State)
  : Flow (Z * State) :=
  if j <? MAX_CYCLES then
    match fuel with
    | O => Returned (j, s)
    | S fuel' =>
        let '(r, s) := searchGoal hw goal s in
        if negb (r =? 0) then Halted (errorLock 2 s)
        else
          let error := percent_error (AveragedDifference s) goal in
          if within_tolerance error then Returned (j, s)
          else cycles_loop fuel' goal (to_int16 (j + 1)) s
    end
  else Returned (j, s).

(** [CalDCO[i]=DCOCTL; CalBC1[i]=BCSCTL1;] *)
Definition store_calibration (i : nat) (s : State) : State :=
  let s := set_CalDCO (array_set (CalDCO s) i (DCOCTL s)) s in
  set_CalBC1 (array_set (CalBC1 s) i (BCSCTL1 s)) s.

(** The body of [for(i=0;i<NFREQ;i++)] of [main].  The blinks of the two
    leds touch nothing of the modelled state and are left out. *)
Definition calibrate (i : nat) (s : State) : Flow State :=
  if LFXT1OF_at hw (tick s) then Halted (errorLock 1 s)
  else
    match cycles_loop 10 (nth i GoalN 0) 0 s with
    | Halted o => Halted o
    | Returned (j, s) =>
        if MAX_CYCLES <=? j then Halted (errorLock 5 s)
        else Returned (store_calibration i s)
    end.

(** [for(i=0;i<NFREQ;i++)] of [main], entered after [i=0]. *)
Fixpoint frequencies_loop (fuel i : nat) (s : State) : Flow State :=
  if (i <? NFREQ)%nat then
    match fuel with
    | O => Returned s
    | S fuel' =>
        match calibrate i s with
        | Halted o => Halted o
        | Returned s => frequencies_loop fuel' (S i) s
        end
    end
  else Returned s.

(** [main]: it never returns, so its result is the loop it ends in.
    [fuel] bounds the tests of [startClk32] that are observed. *)
Definition main (fuel : nat) (s : State) : Outcome :=
  match configureAll hw fuel s with
  | Halted o => o
  | Returned s =>
      let s := eint s in
      if negb (TEST_MODE build) && negb (FLASH_OVERRIDE build)
         && negb (testFlashEmpty s =? 0)
      then loopFrequencies true s
      else
        match frequencies_loop NFREQ 0 s with
        | Halted o => o
        | Returned s =>
            let s := set_DCOCTL (CALDCO_1MHZ s) s in
            let s := set_BCSCTL1 (CALBC1_1MHZ s) s in
            if TEST_MODE build then loopFrequencies false s
            else
              match flashWrite build s with
              | Halted o => o
              | Returned s => loopFrequencies true s
              end
        end
  end.

End Controller.

(** The state after power-up with information memory [fl]: registers at
    their reset values (the flash controller locked), globals as
    initialised by the C start-up code, no capture served yet. *)
Definition power_up (fl : Z -> Z) : State :=
  {| BCSCTL1 := 0x87; DCOCTL := 0x60; FCTL1 := 0x9600; FCTL2 := 0x9642;
     FCTL3 := 0x9658; GIE := false; flash := fl;
     CalDCO := repeat 0 NFREQ; CalBC1 := repeat 0 NFREQ;
     LastCapture := 0; LastDifference := 0; AveragedDifference := 0;
     Mean := 0; ncap := 0; rsel := 0; dco := 0; mod_ := 0; tick := O |}.

(** ** Notions used in the statements *)

(** The state after [n] calls of [searchGoal] for the same goal. *)
Fixpoint after_attempts (hw : Env) (goal : Z) (n : nat) (s : State) : State :=
  match n with
  | O => s
  | S n' => snd (searchGoal hw goal (after_attempts hw goal n' s))
  end.

(** The attempt made in state [s]: [searchGoal] returned 0 and the error
    computed by [main] is rejected, or accepted. *)
Definition attempt_failed (hw : Env) (goal : Z) (s : State) : Prop :=
  fst (searchGoal hw goal s) = 0 /\
  within_tolerance
    (percent_error (AveragedDifference (snd (searchGoal hw goal s))) goal)
  = false.

Definition attempt_accepted (hw : Env) (goal : Z) (s : State) : Prop :=
  fst (searchGoal hw goal s) = 0 /\
  within_tolerance
    (percent_error (AveragedDifference (snd (searchGoal hw goal s))) goal)
  = true.

(** Some calibration location of the information memory holds data. *)
Definition nonblank (fl : Z -> Z) : Prop :=
  exists i, (i < NFREQ)%nat /\
    (to_uint8 (fl (nth i CalPos 0)) <> 0xFF \/
     to_uint8 (fl (nth i CalPos 0 + 1)) <> 0xFF).

(** The information memory and the flash controller are in [s'] as they
    are in [s]. *)
Definition store_kept (s s' : State) : Prop :=
  flash s' = flash s /\ FCTL1 s' = FCTL1 s /\ FCTL3 s' = FCTL3 s.

(** What a measurement session leaves alone. *)
Definition frame (s s' : State) : Prop :=
  BCSCTL1 s' = BCSCTL1 s /\ DCOCTL s' = DCOCTL s /\ FCTL1 s' = FCTL1 s /\
  FCTL2 s' = FCTL2 s /\ FCTL3 s' = FCTL3 s /\ GIE s' = GIE s /\
  flash s' = flash s /\ CalDCO s' = CalDCO s /\ CalBC1 s' = CalBC1 s /\
  AveragedDifference s' = AveragedDifference s /\
  rsel s' = rsel s /\ dco s' = dco s /\ mod_ s' = mod_ s.

(** The state [k] capture events after a session was armed at event [t]
    in state [s0]. *)
Definition in_session (hw : Env) (s0 : State) (t k : nat) (s : State) : Prop :=
  frame s0 s /\
  ncap s = Z.of_nat k - 5 /\
  tick s = (t + k)%nat /\
  Mean s = sum_deltas hw (t + 5) (k - 5) /\
  ((1 <= k)%nat -> LastCapture s = capture hw (t + k - 1)).

(** Everything that can happen to [ncap]: the capture interrupt is served,
    [setDCO] arms a session, [loopFrequencies] restarts its debounce
    count, or a statement runs that does not write [ncap]. *)
Inductive ncap_event (hw : Env) : State -> State -> Prop :=
| ev_capture s : ncap_event hw s (CAPTURE0_ISR hw s)
| ev_arm s : ncap_event hw s (set_ncap (-5) (set_Mean 0 s))
| ev_debounce s : ncap_event hw s (set_ncap 0 s)
| ev_other s s' : ncap s' = ncap s -> ncap_event hw s s'.

Inductive reachable (hw : Env) : State -> Prop :=
| reach_power_up fl : reachable hw (power_up fl)
| reach_event s s' : reachable hw s -> ncap_event hw s s' -> reachable hw s'.

(** A stretch of execution without a reset of [ncap]: capture interrupts
    and statements that do not write [ncap]. *)
Inductive between_resets (hw : Env) : State -> State -> Prop :=
| br_start s : between_resets hw s s
| br_capture s s' :
    between_resets hw s s' -> between_resets hw s (CAPTURE0_ISR hw s')
| br_other s s' s'' :
    between_resets hw s s' -> ncap s'' = ncap s' -> between_resets hw s s''.

(** ** Test benches

    An oscillator that runs at [rates[i]] cycles per reference interval
    during the i-th measurement session after power-up (a session takes
    55 capture events), with a healthy crystal that has started when
    [startClk32] first tests it: the capture register holds the running
    sum of the cycles. *)
Definition bench_TACCR0 (rates : list Z) (k : nat) : Z :=
  let q := (S k / 55)%nat in
  let r := (S k mod 55)%nat in
  55 * fold_right Z.add 0 (firstn q rates) + Z.of_nat r * nth q rates 0.

Definition bench (rates : list Z) : Env :=
  {| TACCR0_at := bench_TACCR0 rates; LFXT1OF_at := fun _ => false;
     LFXT1OF_start := fun _ => false |}.

(** Session rates of the benches used below. *)
Definition rates_first : list Z := [500; 1500; 900; 1000; 900; 980; 3479].

Definition rates_special : list Z :=
  [500; 1500; 900; 1001] ++ repeat 900 31 ++ [1100; 1001].

Definition rates_mod : list Z := repeat 900 31 ++ [1100].

Definition rates_good : list Z := [500; 1500; 900; 1000; 900; 980; 978].

Definition rates_bad : list Z :=
  concat (repeat [500; 1500; 900; 1000; 900; 980; 1100] 10).

(** Ten attempts that each end on 3479, 256 percent above 977. *)
Definition rates_wrap : list Z :=
  concat (repeat [500; 1500; 900; 1000; 900; 980; 3479] 10).

(** Range 0, step 1 at 1040, then a modulation scan at step 0 that stays
    below 977 up to the modulation 31, which reads 972. *)
Definition rates_exhausted : list Z :=
  [500; 1500; 900; 1040] ++ repeat 950 31 ++ [972; 1040].

(** A crystal that never starts. *)
Definition no_crystal : Env :=
  {| TACCR0_at := fun _ => 0; LFXT1OF_at := fun _ => true;
     LFXT1OF_start := fun _ => true |}.

(** Seven sessions for each goal [g], the last one on the goal. *)
Definition rates_all : list Z :=
  flat_map (fun g => [g - 100; g + 200; g - 50; g + 30; g - 50; g + 1; g])
    GoalN.

(** Information memory: erased everywhere, and erased but for the factory
    calibration of 1MHz in segment A. *)
Definition erased : Z -> Z := fun _ => 0xFF.

Definition factory : Z -> Z :=
  fun a => if a =? CALDCO_1MHZ_ then 0xD0
           else if a =? CALBC1_1MHZ_ then 0x86 else 0xFF.

(** Information memory in which the calibration of 1MHz has been stored. *)
Definition calibrated : Z -> Z :=
  fun a => if a =? NCALDCO_1MHZ_ then 0xD0
           else if a =? NCALDCO_1MHZ_ + 1 then 0x86 else factory a.

(** The program as the repository builds it: no switch defined. *)
Definition release : Build :=
  {| FLASH_OVERRIDE := false; TEST_MODE := false |}.

(** ** Ports, timer and watchdog

    The registers behind the leds, the push button and the capture
    input, the blink counter [bcount] of main.c, and the CPU cycles spent
    in [__delay_cycles] so far. *)

(** Pins of main.c (BIT0, BIT6, BIT5, BIT4, BIT3). *)
Definition LED_RED : Z := 0x01.
Definition LED_GREEN : Z := 0x40.
Definition F_OUT : Z := 0x20.
Definition SMCLK_PIN : Z := 0x10.
Definition SWITCH : Z := 0x08.

(** Masks of io430masks.h for DCOCTL and BCSCTL1; [MOD0] and [RSEL0] are
    bit 0 of their registers in the device header. *)
Definition MOD0 : Z := 0x01.
Definition RSEL0 : Z := 0x01.
Definition MOD_OFFS : Z := MOD0.
Definition MOD_MASK : Z := 0xFF - 0x1F * MOD0.
Definition DCO_OFFS : Z := DCO0.
Definition DCO_MASK : Z := 0xFF - 7 * DCO0.
Definition RSEL_OFFS : Z := RSEL0.
Definition RSEL_MASK : Z := 0xFF - 0xF * RSEL0.

(** Further bits of the device header used by main.c; [TA0IV_TAIFG] has
    the value of [TAIV_TAIFG] in io430masks.h. *)
Definition TA0IV_TAIFG : Z := 0x0A.
Definition CCIS0 : Z := 0x1000.
Definition CCIS_2 : Z := 0x2000.
Definition CM_3 : Z := 0xC000.
Definition CAP : Z := 0x0100.
Definition CCIE : Z := 0x0010.
Definition TASSEL_2 : Z := 0x0200.
Definition ID_0 : Z := 0x0000.
Definition MC_2 : Z := 0x0020.
Definition WDT_ADLY_1_9 : Z := 0x5A1F.
Definition WDTIE : Z := 0x01.
Definition XCAP_3 : Z := 0x0C.

(** The macros of io430masks.h on an 8-bit register. *)
Definition SET_FLAG (REGISTER FLAG : Z) : Z := to_uint8 (Z.lor REGISTER FLAG).

Definition RESET_FLAG (REGISTER FLAG : Z) : Z :=
  to_uint8 (Z.land REGISTER (Z.lnot FLAG)).

Definition CLEAR_FIELD (REGISTER MASK : Z) : Z :=
  to_uint8 (Z.land REGISTER MASK).

Definition SET_FIELD (REGISTER MASK VALUE : Z) : Z :=
  to_uint8 (Z.land REGISTER MASK + VALUE).

Definition SET_FIELD_WOFFSET (REGISTER MASK VALUE OFFSET : Z) : Z :=
  to_uint8 (Z.land REGISTER MASK + VALUE * OFFSET).

Definition GET_FIELD (REGISTER MASK : Z) : Z := Z.land REGISTER MASK.

Record Ports : Type := {
  P1OUT : Z;
  P1DIR : Z;
  P1SEL : Z;
  IE1 : Z;
  BCSCTL3 : Z;
  WDTCTL : Z;
  TACTL : Z;
  TACCTL0 : Z;
  bcount : Z;
  elapsed : Z
}.

Definition set_P1OUT (v : Z) (p : Ports) : Ports :=
  {| P1OUT := v; P1DIR := P1DIR p; P1SEL := P1SEL p; IE1 := IE1 p;
     BCSCTL3 := BCSCTL3 p; WDTCTL := WDTCTL p; TACTL := TACTL p;
     TACCTL0 := TACCTL0 p; bcount := bcount p; elapsed := elapsed p |}.

Definition set_P1DIR (v : Z) (p : Ports) : Ports :=
  {| P1OUT := P1OUT p; P1DIR := v; P1SEL := P1SEL p; IE1 := IE1 p;
     BCSCTL3 := BCSCTL3 p; WDTCTL := WDTCTL p; TACTL := TACTL p;
     TACCTL0 := TACCTL0 p; bcount := bcount p; elapsed := elapsed p |}.

Definition set_P1SEL (v : Z) (p : Ports) : Ports :=
  {| P1OUT := P1OUT p; P1DIR := P1DIR p; P1SEL := v; IE1 := IE1 p;
     BCSCTL3 := BCSCTL3 p; WDTCTL := WDTCTL p; TACTL := TACTL p;
     TACCTL0 := TACCTL0 p; bcount := bcount p; elapsed := elapsed p |}.

Definition set_IE1 (v : Z) (p : Ports) : Ports :=
  {| P1OUT := P1OUT p; P1DIR := P1DIR p; P1SEL := P1SEL p; IE1 := v;
     BCSCTL3 := BCSCTL3 p; WDTCTL := WDTCTL p; TACTL := TACTL p;
     TACCTL0 := TACCTL0 p; bcount := bcount p; elapsed := elapsed p |}.

Definition set_BCSCTL3 (v : Z) (p : Ports) : Ports :=
  {| P1OUT := P1OUT p; P1DIR := P1DIR p; P1SEL := P1SEL p; IE1 := IE1 p;
     BCSCTL3 := v; WDTCTL := WDTCTL p; TACTL := TACTL p;
     TACCTL0 := TACCTL0 p; bcount := bcount p; elapsed := elapsed p |}.

Definition set_WDTCTL (v : Z) (p : Ports) : Ports :=
  {| P1OUT := P1OUT p; P1DIR := P1DIR p; P1SEL := P1SEL p; IE1 := IE1 p;
     BCSCTL3 := BCSCTL3 p; WDTCTL := v; TACTL := TACTL p;
     TACCTL0 := TACCTL0 p; bcount := bcount p; elapsed := elapsed p |}.

Definition set_TACTL (v : Z) (p : Ports) : Ports :=
  {| P1OUT := P1OUT p; P1DIR := P1DIR p; P1SEL := P1SEL p; IE1 := IE1 p;
     BCSCTL3 := BCSCTL3 p; WDTCTL := WDTCTL p; TACTL := v;
     TACCTL0 := TACCTL0 p; bcount := bcount p; elapsed := elapsed p |}.

Definition set_TACCTL0 (v : Z) (p : Ports) : Ports :=
  {| P1OUT := P1OUT p; P1DIR := P1DIR p; P1SEL := P1SEL p; IE1 := IE1 p;
     BCSCTL3 := BCSCTL3 p; WDTCTL := WDTCTL p; TACTL := TACTL p;
     TACCTL0 := v; bcount := bcount p; elapsed := elapsed p |}.

Definition set_bcount (v : Z) (p : Ports) : Ports :=
  {| P1OUT := P1OUT p; P1DIR := P1DIR p; P1SEL := P1SEL p; IE1 := IE1 p;
     BCSCTL3 := BCSCTL3 p; WDTCTL := WDTCTL p; TACTL := TACTL p;
     TACCTL0 := TACCTL0 p; bcount := v; elapsed := elapsed p |}.

Definition set_elapsed (v : Z) (p : Ports) : Ports :=
  {| P1OUT := P1OUT p; P1DIR := P1DIR p; P1SEL := P1SEL p; IE1 := IE1 p;
     BCSCTL3 := BCSCTL3 p; WDTCTL := WDTCTL p; TACTL := TACTL p;
     TACCTL0 := TACCTL0 p; bcount := bcount p; elapsed := v |}.

(** [__delay_cycles(n)]. *)
Definition delay_cycles (n : Z) (p : Ports) : Ports :=
  set_elapsed (elapsed p + n) p.

(** [simpleDelay] and [longDelay]. *)
Definition simpleDelay (p : Ports) : Ports := delay_cycles 1000 p.

Definition longDelay (p : Ports) : Ports :=
  Nat.iter 20 (delay_cycles 10000) p.

(** [ledBlink]. *)
Definition ledBlink (bits : Z) (p : Ports) : Ports :=
  let p := set_P1OUT (SET_FLAG (P1OUT p) bits) p in
  let p := longDelay p in
  set_P1OUT (RESET_FLAG (P1OUT p) bits) p.

(** Statements in sequence on any state, and the states after each. *)
Definition run_on {A : Type} (steps : list (A -> A)) (a : A) : A :=
  fold_left (fun a f => f a) steps a.

Fixpoint trace_on {A : Type} (steps : list (A -> A)) (a : A) : list A :=
  match steps with
  | [] => []
  | f :: rest => let a' := f a in a' :: trace_on rest a'
  end.

(** One pass of the [while (1)] of [errorLock]: the statements of the
    two [for] loops, one state transformer per statement.  The first
    loop runs [error] times, not at all when [error] is not positive. *)
Definition errorLock_pass (error : Z) : list (Ports -> Ports) :=
  concat (repeat
            [ (fun p => set_P1OUT (SET_FLAG (P1OUT p) LED_RED) p);
              longDelay;
              (fun p => set_P1OUT (RESET_FLAG (P1OUT p) LED_RED) p);
              longDelay ]
            (Z.to_nat error))
  ++ repeat longDelay 8.

(** The red led, and the number of times a signal goes from off to on. *)
Definition red_on (p : Ports) : bool := Z.testbit (P1OUT p) 0.

Fixpoint rising_edges (before : bool) (signal : list bool) : nat :=
  match signal with
  | [] => O
  | b :: rest =>
      ((if negb before && b then 1 else 0) + rising_edges b rest)%nat
  end.

(** [startClk32]: the do-while loop, with the oscillator-fault flag as
    the hardware shows it at the n-th test; [fuel] bounds the number of
    passes observed. *)
Inductive Progress : Type :=
| Done (p : Ports)
| Running (p : Ports).

Fixpoint startClk32 (fault : nat -> bool) (fuel n : nat) (p : Ports)
  : Progress :=
  match fuel with
  | O => Running p
  | S fuel' =>
      let p := set_BCSCTL3 XCAP_3 p in
      let p := simpleDelay p in
      if fault n then startClk32 fault fuel' (S n) p else Done p
  end.

(** [configureAll] on the ports, the watchdog and the timer; the two
    assignments to DCOCTL and BCSCTL1 are [configureAll] above. *)
Definition configureAll_io (fault : nat -> bool) (fuel : nat) (p : Ports)
  : Progress :=
  let p := set_P1DIR
             (SET_FLAG (P1DIR p) (LED_RED + LED_GREEN + F_OUT + SMCLK_PIN)) p in
  let p := set_P1OUT LED_RED p in
  match startClk32 fault fuel 0 p with
  | Running p => Running p
  | Done p =>
      let p := set_P1OUT 0 p in
      let p := set_WDTCTL WDT_ADLY_1_9 p in
      let p := set_IE1 (SET_FLAG (IE1 p) WDTIE) p in
      let p := set_TACTL (TASSEL_2 + ID_0 + MC_2) p in
      let p := set_TACCTL0 (CAP + CCIE + CM_3 + CCIS_2) p in
      Done (set_P1SEL (SET_FLAG (P1SEL p) SMCLK_PIN) p)
  end.

(** Watchdog timer interrupt. *)
Definition WDT_ISR (p : Ports) : Ports :=
  let p := set_P1OUT (to_uint8 (Z.lxor (P1OUT p) F_OUT)) p in
  set_TACCTL0 (to_uint16 (Z.lxor (TACCTL0 p) CCIS0)) p.

(** General Timer A0 interrupt; [TA0IV] is the interrupt vector register
    as the handler reads it. *)
Definition Timer0_ISR (TA0IV : Z) (p : Ports) : Ports :=
  if TA0IV =? TA0IV_TAIFG then
    let p := set_bcount (to_int16 (bcount p + 1)) p in
    if 10 <=? bcount p then
      let p := set_P1OUT (to_uint8 (Z.lxor (P1OUT p) LED_GREEN)) p in
      set_bcount 0 p
    else p
  else p.

(** The debounce of [loopFrequencies]: [ncap=0; while (ncap<200) {};]. *)
Definition debounce (hw : Env) (s : State) : State :=
  let s := set_ncap 0 s in
  wait_ncap hw (Z.to_nat (200 - ncap s)) 200 s.

(** The assignments to DCOCTL and BCSCTL1 at the head of the loop of
    [loopFrequencies]. *)
Definition loopFrequencies_program (fromFlash : bool) (i : nat) (s : State)
  : State :=
  let s := set_DCOCTL (fst (frequency_setting fromFlash s i)) s in
  set_BCSCTL1 (snd (frequency_setting fromFlash s i)) s.

(** One pass of the [while (1)] of [loopFrequencies] at index [i], up to
    the end of the debounce: the two registers are programmed and 200
    captures are waited for.  The two waits for the switch only let
    capture interrupts by. *)
Definition loopFrequencies_pass (hw : Env) (fromFlash : bool) (i : nat)
  (s : State) : State :=
  debounce hw (loopFrequencies_program fromFlash i s).

(** The state after [n] passes of that loop, entered with [i=0] in state
    [s], and the index of the pass that follows. *)
Fixpoint loopFrequencies_passes (hw : Env) (fromFlash : bool) (n : nat)
  (s : State) : nat * State :=
  match n with
  | O => (O, s)
  | S n' =>
      let '(i, s) := loopFrequencies_passes hw fromFlash n' s in
      (next_frequency i, loopFrequencies_pass hw fromFlash i s)
  end.

(** The setting (DCOCTL, BCSCTL1) the oscillator runs on after [n] pushes
    of the switch, when the program has ended in [loopFrequencies]. *)
Definition run_setting (hw : Env) (o : Outcome) (n : nat) : option (Z * Z) :=
  match o with
  | Looping fromFlash s =>
      let '(i, s) := loopFrequencies_passes hw fromFlash n s in
      let s := loopFrequencies_pass hw fromFlash i s in
      Some (DCOCTL s, BCSCTL1 s)
  | _ => None
  end.

(** The state a function ends in. *)
Definition outcome_state (o : Outcome) : State :=
  match o with
  | Locked _ s => s
  | Looping _ s => s
  | Starting s => s
  end.

(** The ports as a reset leaves them. *)
Definition ports_reset : Ports :=
  {| P1OUT := 0; P1DIR := 0; P1SEL := 0; IE1 := 0; BCSCTL3 := 0x05;
     WDTCTL := 0x6900; TACTL := 0; TACCTL0 := 0; bcount := 0; elapsed := 0 |}.

(** The two tables of results are in [s'] as they are in [s]. *)
Definition tables_kept (s s' : State) : Prop :=
  CalDCO s' = CalDCO s /\ CalBC1 s' = CalBC1 s.

(** A byte pair that encodes a setting of the oscillator: XT2OFF and a
    range in BCSCTL1, a step and a modulation in DCOCTL. *)
Definition setting (DCOCTL_ BCSCTL1_ : Z) : Prop :=
  exists r d m, 0 <= r <= 15 /\ 0 <= d <= 7 /\ 0 <= m <= 31 /\
    BCSCTL1_ = XT2OFF + r /\ DCOCTL_ = d * DCO0 + m.

(** * Machine arithmetic facts *)

Lemma to_uint16_range x : 0 <= to_uint16 x < 65536.
Proof. unfold to_uint16. apply Z.mod_pos_bound. lia. Qed.

Lemma to_uint16_small x : 0 <= x < 65536 -> to_uint16 x = x.
Proof. intros. unfold to_uint16. apply Z.mod_small. lia. Qed.

Lemma to_int16_small x : -32768 <= x < 32768 -> to_int16 x = x.
Proof. intros. unfold to_int16. rewrite Z.mod_small; lia. Qed.

Lemma to_uint32_small x : 0 <= x < 4294967296 -> to_uint32 x = x.
Proof. intros. unfold to_uint32. apply Z.mod_small. lia. Qed.

Lemma sub16_range a b : 0 <= sub16 a b < 65536.
Proof. apply to_uint16_range. Qed.

Lemma sub16_exact a b : 0 <= a - b < 65536 -> sub16 a b = a - b.
Proof. apply to_uint16_small. Qed.

(** An [unsigned int] stored in an [int] and converted back for an
    unsigned comparison is the value it was. *)
Lemma to_uint16_to_int16 x : to_uint16 (to_int16 x) = to_uint16 x.
Proof.
  unfold to_uint16, to_int16.
  rewrite <- Zminus_mod_idemp_l.
  rewrite Z.mod_mod by lia.
  rewrite Zminus_mod_idemp_l.
  replace (x + 32768 - 32768) with x by lia. reflexivity.
Qed.

Lemma to_int32_small x : -2147483648 <= x < 2147483648 -> to_int32 x = x.
Proof. intros. unfold to_int32. rewrite Z.mod_small; lia. Qed.

Lemma to_int8_small x : -128 <= x < 128 -> to_int8 x = x.
Proof. intros. unfold to_int8. rewrite Z.mod_small; lia. Qed.

(** On 16-bit operands the 32-bit arithmetic of the percentage is exact;
    what [main] tests is the percentage converted to a [char]. *)
Lemma percent_error_char measured goal :
  0 <= measured < 65536 -> 0 < goal < 65536 ->
  percent_error measured goal = to_int8 (exact_percent_error measured goal).
Proof.
  intros Hm Hg. unfold percent_error, exact_percent_error.
  rewrite (to_int32_small (measured - goal)) by lia.
  rewrite to_int32_small by lia. reflexivity.
Qed.

(** Where the percentage fits a [char], the program computes it exactly
    and accepts exactly the percentages from [-MAX_ERROR] to [MAX_ERROR]. *)
Lemma percent_error_exact measured goal :
  0 <= measured < 65536 -> 0 < goal < 65536 ->
  -128 <= exact_percent_error measured goal < 128 ->
  percent_error measured goal = exact_percent_error measured goal.
Proof.
  intros Hm Hg He. rewrite percent_error_char by assumption.
  apply to_int8_small. exact He.
Qed.

Lemma within_tolerance_exact measured goal :
  0 <= measured < 65536 -> 0 < goal < 65536 ->
  -128 <= exact_percent_error measured goal < 128 ->
  (within_tolerance (percent_error measured goal) = true <->
   - MAX_ERROR <= exact_percent_error measured goal <= MAX_ERROR).
Proof.
  intros Hm Hg He. rewrite percent_error_exact by assumption.
  unfold within_tolerance. rewrite andb_true_iff, !Z.leb_le. lia.
Qed.

(** * The measurement channel *)

Section MeasurementFacts.

Variable hw : Env.

Lemma delta_range k : 0 <= delta hw k < 65536.
Proof. apply sub16_range. Qed.

Lemma sum_deltas_range n :
  forall from, 0 <= sum_deltas hw from n <= 65535 * Z.of_nat n.
Proof.
  induction n as [|n IH]; intros from; simpl sum_deltas.
  - lia.
  - specialize (IH (S from)). pose proof (delta_range from). lia.
Qed.

Lemma sum_deltas_snoc n : forall from,
  sum_deltas hw from (S n) = sum_deltas hw from n + delta hw (from + n).
Proof.
  induction n as [|n IH]; intros from.
  - simpl. rewrite Nat.add_0_r. lia.
  - change (sum_deltas hw from (S (S n)))
      with (delta hw from + sum_deltas hw (S from) (S n)).
    rewrite IH. simpl sum_deltas.
    replace (S from + n)%nat with (from + S n)%nat by lia. lia.
Qed.

Lemma reading_range t : 0 <= reading hw t < 65536.
Proof.
  unfold reading. pose proof (sum_deltas_range 50 (t + 5)). split.
  - apply Z.div_pos; lia.
  - apply Z.div_lt_upper_bound; lia.
Qed.

Lemma frame_refl s : frame s s.
Proof. unfold frame. tauto. Qed.

Lemma frame_trans s1 s2 s3 : frame s1 s2 -> frame s2 s3 -> frame s1 s3.
Proof. unfold frame. intuition congruence. Qed.

Ltac isr_cases s :=
  unfold CAPTURE0_ISR; simpl;
  destruct (0 <=? ncap s), (ncap s <? NCAP); simpl;
  destruct (ncap s <? 10000); simpl.

Lemma CAPTURE0_ISR_frame s : frame s (CAPTURE0_ISR hw s).
Proof. unfold frame. isr_cases s; tauto. Qed.

Lemma CAPTURE0_ISR_tick s : tick (CAPTURE0_ISR hw s) = S (tick s).
Proof. isr_cases s; reflexivity. Qed.

Lemma CAPTURE0_ISR_LastCapture s :
  LastCapture (CAPTURE0_ISR hw s) = capture hw (tick s).
Proof. isr_cases s; reflexivity. Qed.

Lemma CAPTURE0_ISR_ncap s :
  ncap (CAPTURE0_ISR hw s) =
  if ncap s <? 10000 then to_int16 (ncap s + 1) else ncap s.
Proof. isr_cases s; reflexivity. Qed.

Lemma CAPTURE0_ISR_Mean s :
  Mean (CAPTURE0_ISR hw s) =
  if (0 <=? ncap s) && (ncap s <? NCAP)
  then add32 (Mean s) (sub16 (capture hw (tick s)) (LastCapture s))
  else Mean s.
Proof. isr_cases s; reflexivity. Qed.

Lemma in_session_step s0 t k s :
  (k < 55)%nat -> in_session hw s0 t k s ->
  in_session hw s0 t (S k) (CAPTURE0_ISR hw s).
Proof.
  intros Hk (Hf & Hn & Ht & Hm & Hl).
  unfold in_session.
  rewrite CAPTURE0_ISR_tick, CAPTURE0_ISR_ncap, CAPTURE0_ISR_Mean,
    CAPTURE0_ISR_LastCapture, Hn, Ht, Hm.
  split; [eapply frame_trans; [exact Hf | apply CAPTURE0_ISR_frame]|].
  split.
  { destruct (Z.ltb_spec (Z.of_nat k - 5) 10000); [|lia].
    rewrite to_int16_small; lia. }
  split; [lia|].
  split.
  - destruct (Z.leb_spec 0 (Z.of_nat k - 5)); cbn [andb].
    + destruct (Z.ltb_spec (Z.of_nat k - 5) NCAP); [|unfold NCAP in *; lia].
      replace (S k - 5)%nat with (S (k - 5)) by lia.
      rewrite sum_deltas_snoc.
      rewrite Hl by lia.
      replace (t + 5 + (k - 5))%nat with (t + k)%nat by lia.
      unfold add32. rewrite to_uint32_small.
      * reflexivity.
      * pose proof (sum_deltas_range (k - 5) (t + 5)).
        pose proof (sub16_range (capture hw (t + k)) (capture hw (t + k - 1))).
        lia.
    + replace (S k - 5)%nat with O by lia.
      replace (k - 5)%nat with O by lia. reflexivity.
  - intros _. f_equal. lia.
Qed.

(** The wait of [setDCO] ends through its condition, after 55 events. *)
Lemma wait_ncap_session s0 t : forall fuel k s,
  (k + fuel = 55)%nat -> in_session hw s0 t k s ->
  in_session hw s0 t 55 (wait_ncap hw fuel NCAP s).
Proof.
  induction fuel as [|fuel IH]; intros k s Hk Hs.
  - assert (k = 55%nat) by lia. subst k.
    destruct Hs as (Hf & Hn & Hrest).
    simpl. rewrite Hn. simpl. unfold in_session. tauto.
  - simpl. destruct Hs as (Hf & Hn & Hrest).
    rewrite Hn.
    destruct (Z.ltb_spec (Z.of_nat k - 5) NCAP); [|unfold NCAP in *; lia].
    apply (IH (S k)); [lia|].
    apply in_session_step; [lia|]. unfold in_session. tauto.
Qed.

Lemma wait_ncap_done fuel limit s :
  limit <= ncap s -> wait_ncap hw fuel limit s = s.
Proof.
  intros H. destruct fuel; cbn [wait_ncap];
    destruct (Z.ltb_spec (ncap s) limit); try reflexivity; lia.
Qed.

Lemma wait_ncap_add limit n : forall m s,
  wait_ncap hw (n + m) limit s
  = wait_ncap hw m limit (wait_ncap hw n limit s).
Proof.
  induction n as [|n IH]; intros m s.
  - cbn [Nat.add]. replace (wait_ncap hw 0 limit s) with s; [reflexivity|].
    cbn [wait_ncap]. destruct (ncap s <? limit); reflexivity.
  - cbn [Nat.add wait_ncap].
    destruct (Z.ltb_spec (ncap s) limit).
    + apply IH.
    + symmetry. apply wait_ncap_done. assumption.
Qed.

(** With more than the 55 events a session needs, the wait gives the
    same state. *)
Lemma wait_ncap_enough_fuel s0 t s fuel :
  in_session hw s0 t 0 s -> (55 <= fuel)%nat ->
  wait_ncap hw fuel NCAP s = wait_ncap hw 55 NCAP s.
Proof.
  intros Hs Hf.
  replace fuel with (55 + (fuel - 55))%nat by lia.
  rewrite wait_ncap_add. apply wait_ncap_done.
  pose proof (wait_ncap_session s0 t 55 0 s eq_refl Hs) as (_ & Hn & _).
  rewrite Hn. unfold NCAP. lia.
Qed.

(** Every field of the state after [setDCO]. *)
Lemma setDCO_session r d m s :
  let s' := setDCO hw r d m s in
  ncap s' = NCAP /\
  tick s' = (tick s + 55)%nat /\
  Mean s' = sum_deltas hw (tick s + 5) 50 /\
  AveragedDifference s' = reading hw (tick s) /\
  BCSCTL1 s' = to_uint8 (XT2OFF + r) /\
  DCOCTL s' = to_uint8 (d * DCO0 + m) /\
  GIE s' = true /\
  rsel s' = rsel s /\ dco s' = dco s /\ mod_ s' = mod_ s /\
  flash s' = flash s /\ CalDCO s' = CalDCO s /\ CalBC1 s' = CalBC1 s /\
  FCTL1 s' = FCTL1 s /\ FCTL2 s' = FCTL2 s /\ FCTL3 s' = FCTL3 s.
Proof.
  pose (s1 := eint (set_ncap (-5) (set_Mean 0 (dint
               (set_DCOCTL (to_uint8 (d * DCO0 + m))
                  (set_BCSCTL1 (to_uint8 (XT2OFF + r)) s)))))).
  assert (H0 : in_session hw s1 (tick s) 0 s1).
  { unfold in_session. split; [apply frame_refl|].
    repeat split; simpl; try lia. }
  pose proof (wait_ncap_session s1 (tick s) 55 0 s1 eq_refl H0) as H.
  assert (E : setDCO hw r d m s =
             set_AveragedDifference
               (to_uint16 (Mean (wait_ncap hw 55 NCAP s1) / NCAP))
               (wait_ncap hw 55 NCAP s1)) by reflexivity.
  cbv zeta. rewrite E. clear E.
  generalize dependent (wait_ncap hw 55 NCAP s1).
  intros w (Hf & Hn & Ht & Hm & _).
  destruct Hf as (F1 & F2 & F3 & F4 & F5 & F6 & F7 & F8 & F9 & F10 & F11
                  & F12 & F13).
  unfold set_AveragedDifference.
  cbn [ncap tick Mean AveragedDifference BCSCTL1 DCOCTL GIE rsel dco mod_
       flash CalDCO CalBC1 FCTL1 FCTL2 FCTL3].
  rewrite Hn, Ht, Hm, F1, F2, F3, F4, F5, F6, F7, F8, F9, F11, F12, F13.
  subst s1. cbn.
  repeat split.
  apply to_uint16_small. apply reading_range.
Qed.

(** C4: a session armed by [setDCO] serves 55 capture events; the wait
    ends with [ncap = NCAP]; [Mean] is the sum of the 50 capture deltas
    that follow the first five events, which are discarded; the averaged
    measurement is the integer quotient of that sum by [NCAP]. *)
Theorem C4_session_mean r d m s :
  let s' := setDCO hw r d m s in
  tick s' = (tick s + 5 + 50)%nat /\
  ncap s' = NCAP /\
  Mean s' = sum_deltas hw (tick s + 5) 50 /\
  AveragedDifference s' = sum_deltas hw (tick s + 5) 50 / NCAP.
Proof.
  pose proof (setDCO_session r d m s) as H. cbv zeta in *.
  destruct H as (Hn & Ht & Hm & Ha & _).
  rewrite Hn, Ht, Hm, Ha. unfold reading, NCAP.
  repeat split. lia.
Qed.

(** Captures that arrive after the session is complete leave the sum
    alone, so the average does not depend on when the control thread
    reads it. *)
Lemma CAPTURE0_ISR_after_session s :
  NCAP <= ncap s -> Mean (CAPTURE0_ISR hw s) = Mean s.
Proof.
  intros H. rewrite CAPTURE0_ISR_Mean.
  destruct (Z.ltb_spec (ncap s) NCAP); [lia|].
  rewrite andb_false_r. reflexivity.
Qed.

Lemma reachable_ncap_bounds s : reachable hw s -> -5 <= ncap s <= 10000.
Proof.
  induction 1 as [fl | s s' Hr IH Hev].
  - simpl. lia.
  - destruct Hev as [s | s | s | s s' Heq].
    + rewrite CAPTURE0_ISR_ncap.
      destruct (Z.ltb_spec (ncap s) 10000); [|lia].
      rewrite to_int16_small; lia.
    + simpl. lia.
    + simpl. lia.
    + rewrite Heq. exact IH.
Qed.

(** C10: in every reachable state [ncap] lies between -5 and 10000, so it
    is far from the limits of a 16-bit [int]; the capture interrupt adds
    one, without wrap-around, while [ncap] is below 10000 and leaves it
    alone at 10000; hence between two resets by the control thread the
    counter never decreases and never exceeds 10000. *)
Theorem C10_ncap_saturates s :
  reachable hw s ->
  -5 <= ncap s <= 10000 /\
  ncap (CAPTURE0_ISR hw s) = (if ncap s <? 10000 then ncap s + 1 else ncap s) /\
  (forall s', between_resets hw s s' -> ncap s <= ncap s' <= 10000).
Proof.
  intros Hr. pose proof (reachable_ncap_bounds s Hr) as Hb.
  assert (Hi : ncap (CAPTURE0_ISR hw s)
               = (if ncap s <? 10000 then ncap s + 1 else ncap s)).
  { rewrite CAPTURE0_ISR_ncap.
    destruct (Z.ltb_spec (ncap s) 10000); [|reflexivity].
    apply to_int16_small. lia. }
  split; [exact Hb|]. split; [exact Hi|].
  induction 1 as [s | s s' Hrun IH | s s' s'' Hrun IH Heq].
  - lia.
  - specialize (IH Hr Hb Hi).
    rewrite CAPTURE0_ISR_ncap.
    destruct (Z.ltb_spec (ncap s') 10000); [|lia].
    rewrite to_int16_small; lia.
  - rewrite Heq. apply IH; assumption.
Qed.

End MeasurementFacts.

(** C10 at power-up: the first capture interrupt takes [ncap] from 0
    to 1. *)
Lemma C10_ncap_saturates_witness :
  reachable (bench [1000]) (power_up erased) /\
  -5 <= ncap (power_up erased) <= 10000 /\
  ncap (CAPTURE0_ISR (bench [1000]) (power_up erased)) = 1.
Proof.
  pose proof (C10_ncap_saturates (bench [1000]) (power_up erased)
                (reach_power_up _ erased)) as (Hb & Hi & _).
  split; [apply reach_power_up | split; [exact Hb | exact Hi]].
Defined.

(** * The parameter search *)

Section SearchFacts.

Variable hw : Env.

(** Replaces the state after a session by a variable [s1], keeping what
    [setDCO_session] tells about it. *)
Ltac session s1 :=
  match goal with
  | |- context [setDCO hw ?r ?d ?m ?s] =>
      let H := fresh in
      pose proof (setDCO_session hw r d m s) as H; cbv zeta in H;
      destruct H as (_ & Htick & _ & HAD & _ & _ & _ & Hrsel & Hdco & Hmod & _);
      generalize dependent (setDCO hw r d m s);
      intros s1 Htick HAD Hrsel Hdco Hmod
  end.

Lemma rsel_loop_step fuel goal prev s :
  rsel s < 16 ->
  rsel_loop hw (S fuel) goal prev s =
  if goal <? AveragedDifference (setDCO hw (rsel s) 3 0 s)
  then (setDCO hw (rsel s) 3 0 s, prev)
  else rsel_loop hw fuel goal (AveragedDifference (setDCO hw (rsel s) 3 0 s))
         (set_rsel (to_int16 (rsel (setDCO hw (rsel s) 3 0 s) + 1))
            (setDCO hw (rsel s) 3 0 s)).
Proof.
  intros H. cbn [rsel_loop].
  destruct (Z.ltb_spec (rsel s) 16); [reflexivity | lia].
Qed.

Lemma rsel_loop_over (t0 : nat) (goal : Z) :
  forall fuel k s prev r,
  rsel s = Z.of_nat k -> tick s = (t0 + 55 * k)%nat ->
  (k + fuel = 16)%nat -> (k <= r < 16)%nat ->
  (forall i, (k <= i < r)%nat -> reading hw (t0 + 55 * i) <= goal) ->
  goal < reading hw (t0 + 55 * r) ->
  exists s',
    rsel_loop hw fuel goal prev s
    = (s', if (k <? r)%nat then reading hw (t0 + 55 * (r - 1)) else prev) /\
    rsel s' = Z.of_nat r /\
    AveragedDifference s' = reading hw (t0 + 55 * r) /\
    tick s' = (t0 + 55 * S r)%nat.
Proof.
  induction fuel as [|fuel IH]; intros k s prev r Hr Ht Hk Hkr Hle Hgt; [lia|].
  rewrite rsel_loop_step by lia.
  session s1.
  rewrite HAD, Ht.
  destruct (Nat.eq_dec k r) as [->|Hne].
  - destruct (Z.ltb_spec goal (reading hw (t0 + 55 * r))); [|lia].
    exists s1. rewrite Nat.ltb_irrefl.
    repeat split; try congruence. lia.
  - destruct (Z.ltb_spec goal (reading hw (t0 + 55 * k))).
    { specialize (Hle k). lia. }
    destruct (IH (S k) (set_rsel (to_int16 (rsel s1 + 1)) s1)
                (reading hw (t0 + 55 * k)) r) as (s' & E & R1 & R2 & R3);
      try assumption; try lia.
    + simpl. rewrite Hrsel, Hr, to_int16_small; lia.
    + simpl. lia.
    + intros i Hi. apply Hle. lia.
    + exists s'. rewrite E.
      destruct (Nat.ltb_spec k r); [|lia].
      destruct (Nat.ltb_spec (S k) r).
      * auto.
      * replace (r - 1)%nat with k by lia. auto.
Qed.

Lemma rsel_loop_under (t0 : nat) (goal : Z) :
  forall fuel k s prev,
  rsel s = Z.of_nat k -> tick s = (t0 + 55 * k)%nat ->
  (k + fuel = 16)%nat ->
  (forall i, (k <= i < 16)%nat -> reading hw (t0 + 55 * i) <= goal) ->
  exists s',
    rsel_loop hw fuel goal prev s
    = (s', if (k <? 16)%nat then reading hw (t0 + 55 * 15) else prev) /\
    rsel s' = 16 /\
    tick s' = (t0 + 55 * 16)%nat.
Proof.
  induction fuel as [|fuel IH]; intros k s prev Hr Ht Hk Hle.
  - assert (k = 16%nat) by lia. subst k.
    exists s. simpl. rewrite Hr. simpl. auto.
  - rewrite rsel_loop_step by lia.
    session s1.
    rewrite HAD, Ht.
    destruct (Z.ltb_spec goal (reading hw (t0 + 55 * k))).
    { specialize (Hle k). lia. }
    destruct (IH (S k) (set_rsel (to_int16 (rsel s1 + 1)) s1)
                (reading hw (t0 + 55 * k))) as (s' & E & R1 & R2);
      try assumption; try lia.
    + simpl. rewrite Hrsel, Hr, to_int16_small; lia.
    + simpl. lia.
    + intros i Hi. apply Hle. lia.
    + exists s'. rewrite E.
      destruct (Nat.ltb_spec k 16); [|lia].
      destruct (Nat.ltb_spec (S k) 16).
      * auto.
      * replace k with 15%nat by lia. auto.
Qed.

Lemma dco_loop_step fuel goal s :
  dco s < 8 ->
  dco_loop hw (S fuel) goal s =
  if goal <? AveragedDifference (setDCO hw (rsel s) (dco s) 0 s)
  then setDCO hw (rsel s) (dco s) 0 s
  else dco_loop hw fuel goal
         (set_dco (to_int16 (dco (setDCO hw (rsel s) (dco s) 0 s) + 1))
            (setDCO hw (rsel s) (dco s) 0 s)).
Proof.
  intros H. cbn [dco_loop].
  destruct (Z.ltb_spec (dco s) 8); [reflexivity | lia].
Qed.

Lemma dco_loop_over (t0 : nat) (goal : Z) :
  forall fuel k s r,
  dco s = Z.of_nat k -> tick s = (t0 + 55 * k)%nat ->
  (k + fuel = 8)%nat -> (k <= r < 8)%nat ->
  (forall i, (k <= i < r)%nat -> reading hw (t0 + 55 * i) <= goal) ->
  goal < reading hw (t0 + 55 * r) ->
  let s' := dco_loop hw fuel goal s in
  dco s' = Z.of_nat r /\
  AveragedDifference s' = reading hw (t0 + 55 * r) /\
  tick s' = (t0 + 55 * S r)%nat /\
  rsel s' = rsel s /\ mod_ s' = mod_ s.
Proof.
  induction fuel as [|fuel IH]; intros k s r Hd Ht Hk Hkr Hle Hgt; [lia|].
  cbv zeta. rewrite dco_loop_step by lia.
  session s1.
  rewrite HAD, Ht.
  destruct (Nat.eq_dec k r) as [->|Hne].
  - destruct (Z.ltb_spec goal (reading hw (t0 + 55 * r))); [|lia].
    repeat split; try congruence. lia.
  - destruct (Z.ltb_spec goal (reading hw (t0 + 55 * k))).
    { specialize (Hle k). lia. }
    destruct (IH (S k) (set_dco (to_int16 (dco s1 + 1)) s1) r)
      as (R1 & R2 & R3 & R4 & R5); try assumption; try lia.
    + simpl. rewrite Hdco, Hd, to_int16_small; lia.
    + simpl. lia.
    + intros i Hi. apply Hle. lia.
    + simpl in R4, R5. repeat split; congruence.
Qed.

Lemma dco_loop_under (t0 : nat) (goal : Z) :
  forall fuel k s,
  dco s = Z.of_nat k -> tick s = (t0 + 55 * k)%nat ->
  (k + fuel = 8)%nat ->
  (forall i, (k <= i < 8)%nat -> reading hw (t0 + 55 * i) <= goal) ->
  dco (dco_loop hw fuel goal s) = 8.
Proof.
  induction fuel as [|fuel IH]; intros k s Hd Ht Hk Hle.
  - assert (k = 8%nat) by lia. subst k.
    simpl. rewrite Hd. simpl. exact Hd.
  - rewrite dco_loop_step by lia.
    session s1.
    rewrite HAD, Ht.
    destruct (Z.ltb_spec goal (reading hw (t0 + 55 * k))).
    { specialize (Hle k). lia. }
    apply (IH (S k)); try lia.
    + simpl. rewrite Hdco, Hd, to_int16_small; lia.
    + simpl. lia.
    + intros i Hi. apply Hle. lia.
Qed.

(** Either no measurement of a scan exceeds the goal, or there is a first
    one that does. *)
Lemma first_over_cases (f : nat -> Z) (goal : Z) (n : nat) :
  (forall i, (i < n)%nat -> f i <= goal) \/
  (exists r, (r < n)%nat /\ (forall i, (i < r)%nat -> f i <= goal) /\ goal < f r).
Proof.
  induction n as [|n [IH | (r & Hr & Hle & Hgt)]].
  - left. intros i Hi. lia.
  - destruct (Z.ltb_spec goal (f n)).
    + right. exists n. repeat split; auto.
    + left. intros i Hi. destruct (Nat.eq_dec i n) as [->|]; [lia|].
      apply IH. lia.
  - right. exists r. repeat split; auto.
Qed.

Lemma mod_loop_step fuel goal prev s :
  mod_ s < 32 ->
  mod_loop hw (S fuel) goal prev s =
  if goal <? AveragedDifference (setDCO hw (rsel s) (dco s) (mod_ s) s)
  then (setDCO hw (rsel s) (dco s) (mod_ s) s, prev)
  else mod_loop hw fuel goal
         (AveragedDifference (setDCO hw (rsel s) (dco s) (mod_ s) s))
         (set_mod (to_int16 (mod_ (setDCO hw (rsel s) (dco s) (mod_ s) s) + 1))
            (setDCO hw (rsel s) (dco s) (mod_ s) s)).
Proof.
  intros H. cbn [mod_loop].
  destruct (Z.ltb_spec (mod_ s) 32); [reflexivity | lia].
Qed.

Lemma mod_loop_over (t0 : nat) (goal : Z) :
  forall fuel k s prev r,
  mod_ s = Z.of_nat k -> tick s = (t0 + 55 * k)%nat ->
  (k + fuel = 32)%nat -> (k <= r < 32)%nat ->
  (forall i, (k <= i < r)%nat -> reading hw (t0 + 55 * i) <= goal) ->
  goal < reading hw (t0 + 55 * r) ->
  exists s',
    mod_loop hw fuel goal prev s
    = (s', if (k <? r)%nat then reading hw (t0 + 55 * (r - 1)) else prev) /\
    mod_ s' = Z.of_nat r /\
    AveragedDifference s' = reading hw (t0 + 55 * r) /\
    dco s' = dco s.
Proof.
  induction fuel as [|fuel IH]; intros k s prev r Hm Ht Hk Hkr Hle Hgt; [lia|].
  rewrite mod_loop_step by lia.
  session s1.
  rewrite HAD, Ht.
  destruct (Nat.eq_dec k r) as [->|Hne].
  - destruct (Z.ltb_spec goal (reading hw (t0 + 55 * r))); [|lia].
    exists s1. rewrite Nat.ltb_irrefl.
    repeat split; congruence.
  - destruct (Z.ltb_spec goal (reading hw (t0 + 55 * k))).
    { specialize (Hle k). lia. }
    destruct (IH (S k) (set_mod (to_int16 (mod_ s1 + 1)) s1)
                (reading hw (t0 + 55 * k)) r) as (s' & E & R1 & R2 & R3);
      try assumption; try lia.
    + simpl. rewrite Hmod, Hm, to_int16_small; lia.
    + simpl. lia.
    + intros i Hi. apply Hle. lia.
    + exists s'. rewrite E. simpl in R3.
      destruct (Nat.ltb_spec k r); [|lia].
      destruct (Nat.ltb_spec (S k) r).
      * repeat split; congruence.
      * replace (r - 1)%nat with k by lia. repeat split; congruence.
Qed.

Lemma mod_loop_under (t0 : nat) (goal : Z) :
  forall fuel k s prev,
  mod_ s = Z.of_nat k -> tick s = (t0 + 55 * k)%nat ->
  (k + fuel = 32)%nat -> (k < 32)%nat ->
  (forall i, (k <= i < 32)%nat -> reading hw (t0 + 55 * i) <= goal) ->
  exists s',
    mod_loop hw fuel goal prev s = (s', reading hw (t0 + 55 * 31)) /\
    mod_ s' = 32 /\
    AveragedDifference s' = reading hw (t0 + 55 * 31) /\
    dco s' = dco s.
Proof.
  induction fuel as [|fuel IH]; intros k s prev Hm Ht Hk Hk32 Hle; [lia|].
  rewrite mod_loop_step by lia.
  session s1.
  rewrite HAD, Ht.
  destruct (Z.ltb_spec goal (reading hw (t0 + 55 * k))).
  { specialize (Hle k). lia. }
  destruct (Nat.eq_dec k 31) as [->|Hne].
  - assert (fuel = O) by lia. subst fuel.
    exists (set_mod (to_int16 (mod_ s1 + 1)) s1).
    simpl. rewrite Hmod, Hm. simpl.
    repeat split; try congruence.
    simpl in HAD. rewrite HAD, Ht. reflexivity.
  - destruct (IH (S k) (set_mod (to_int16 (mod_ s1 + 1)) s1)
                (reading hw (t0 + 55 * k))) as (s' & E & R1 & R2 & R3);
      try assumption; try lia.
    + simpl. rewrite Hmod, Hm, to_int16_small; lia.
    + simpl. lia.
    + intros i Hi. apply Hle. lia.
    + exists s'. rewrite E. simpl in R3. repeat split; congruence.
Qed.

Lemma rsel_loop_exit fuel goal prev s :
  16 <= rsel s -> rsel_loop hw fuel goal prev s = (s, prev).
Proof.
  intros H. destruct fuel; cbn [rsel_loop];
    destruct (Z.ltb_spec (rsel s) 16); try reflexivity; lia.
Qed.

Lemma dco_loop_exit fuel goal s :
  8 <= dco s -> dco_loop hw fuel goal s = s.
Proof.
  intros H. destruct fuel; cbn [dco_loop];
    destruct (Z.ltb_spec (dco s) 8); try reflexivity; lia.
Qed.

Lemma mod_loop_exit fuel goal prev s :
  32 <= mod_ s -> mod_loop hw fuel goal prev s = (s, prev).
Proof.
  intros H. destruct fuel; cbn [mod_loop];
    destruct (Z.ltb_spec (mod_ s) 32); try reflexivity; lia.
Qed.

Lemma rsel_loop_prev goal fuel p q s :
  exists s' p' q',
    rsel_loop hw fuel goal p s = (s', p') /\
    rsel_loop hw fuel goal q s = (s', q') /\
    (p' = q' \/ rsel s' = rsel s).
Proof.
  destruct (Z.ltb_spec (rsel s) 16) as [Hlt | Hge].
  - destruct fuel as [|fuel].
    + exists s, p, q. cbn [rsel_loop]. destruct (rsel s <? 16); auto.
    + rewrite !rsel_loop_step by exact Hlt.
      session s1.
      destruct (goal <? AveragedDifference s1).
      * exists s1, p, q. auto.
      * destruct (rsel_loop hw fuel goal (AveragedDifference s1)
                    (set_rsel (to_int16 (rsel s1 + 1)) s1)) as [s' p'].
        exists s', p', p'. auto.
  - rewrite !rsel_loop_exit by exact Hge. exists s, p, q. auto.
Qed.

Lemma mod_loop_prev goal fuel p q s :
  exists s' p' q',
    mod_loop hw fuel goal p s = (s', p') /\
    mod_loop hw fuel goal q s = (s', q') /\
    (p' = q' \/ mod_ s' = mod_ s).
Proof.
  destruct (Z.ltb_spec (mod_ s) 32) as [Hlt | Hge].
  - destruct fuel as [|fuel].
    + exists s, p, q. cbn [mod_loop]. destruct (mod_ s <? 32); auto.
    + rewrite !mod_loop_step by exact Hlt.
      session s1.
      destruct (goal <? AveragedDifference s1).
      * exists s1, p, q. auto.
      * destruct (mod_loop hw fuel goal (AveragedDifference s1)
                    (set_mod (to_int16 (mod_ s1 + 1)) s1)) as [s' p'].
        exists s', p', p'. auto.
  - rewrite !mod_loop_exit by exact Hge. exists s, p, q. auto.
Qed.

(** The local [prev] of [searchGoal] is not initialised, and it is never
    read before it is written: the result of the search does not depend
    on what it holds at entry. *)
Lemma searchGoal_with_prev_irrelevant p q goal s :
  searchGoal_with hw p goal s = searchGoal_with hw q goal s.
Proof.
  unfold searchGoal_with, range_scan.
  destruct (rsel_loop_prev goal 16 p q (set_rsel 0 s))
    as (s1 & p1 & q1 & Ep & Eq & H1).
  rewrite Ep, Eq.
  assert (E1 : rsel_pick goal p1 s1 = rsel_pick goal q1 s1).
  { destruct H1 as [-> | H1]; [reflexivity|].
    unfold rsel_pick. rewrite H1. reflexivity. }
  rewrite E1.
  generalize (step_scan hw goal (rsel_pick goal q1 s1)). intros s3.
  destruct (7 <? dco s3); [reflexivity|].
  destruct (dco s3 =? 0); [reflexivity|].
  unfold mod_scan.
  generalize (to_int16 (sub16 (AveragedDifference s3) goal)). intros m0diff.
  generalize (set_dco (to_int16 (dco s3 - 1)) s3). intros s4.
  destruct (mod_loop_prev goal 32 p1 q1 (set_mod 0 s4))
    as (s5 & p2 & q2 & Ep2 & Eq2 & H2).
  rewrite Ep2, Eq2.
  assert (E2 : mod_pick goal p2 s5 = mod_pick goal q2 s5).
  { destruct H2 as [-> | H2]; [reflexivity|].
    unfold mod_pick. rewrite H2. reflexivity. }
  rewrite E2. reflexivity.
Qed.

End SearchFacts.

(** ** The range scan *)

Section RangeScan.
Variable hw : Env.

(** The pass of the range scan for the range [k + j], made from a state
    at range [k] when none of the ranges from [k] on has measured above
    the goal: range [k + j] is programmed with step 3 and modulation 0
    and measured in the session that starts [55 * (k + j)] events after
    [t0]. *)
Lemma rsel_loop_pass (t0 : nat) (goal : Z) : forall j k s prev,
  rsel s = Z.of_nat k -> tick s = (t0 + 55 * k)%nat -> (k + j < 16)%nat ->
  (forall i, (k <= i < k + j)%nat -> reading hw (t0 + 55 * i) <= goal) ->
  let s' := fst (rsel_loop hw (S j) goal prev s) in
  BCSCTL1 s' = XT2OFF + Z.of_nat (k + j) /\
  DCOCTL s' = 3 * DCO0 + 0 /\
  AveragedDifference s' = reading hw (t0 + 55 * (k + j)) /\
  tick s' = (t0 + 55 * S (k + j))%nat.
Proof.
  induction j as [|j IH]; intros k s prev Hr Ht Hk Hle; cbv zeta.
  - rewrite rsel_loop_step by lia.
    pose proof (setDCO_session hw (rsel s) 3 0 s) as H. cbv zeta in H.
    destruct H as (_ & Htick & _ & HAD & HB & HD & _ & Hrsel & _).
    generalize dependent (setDCO hw (rsel s) 3 0 s).
    intros s1 Htick HAD HB HD Hrsel.
    assert (E : fst (if goal <? AveragedDifference s1 then (s1, prev)
                     else rsel_loop hw 0 goal (AveragedDifference s1)
                            (set_rsel (to_int16 (rsel s1 + 1)) s1))
                = (if goal <? AveragedDifference s1 then s1
                   else set_rsel (to_int16 (rsel s1 + 1)) s1)).
    { destruct (goal <? AveragedDifference s1); [reflexivity|].
      cbn [rsel_loop]. destruct (rsel _ <? 16); reflexivity. }
    rewrite E. rewrite Nat.add_0_r.
    assert (B : BCSCTL1 s1 = XT2OFF + Z.of_nat k).
    { rewrite HB, Hr. unfold to_uint8, XT2OFF. apply Z.mod_small. lia. }
    assert (D : DCOCTL s1 = 3 * DCO0 + 0) by (rewrite HD; reflexivity).
    destruct (goal <? AveragedDifference s1);
      cbn [BCSCTL1 DCOCTL AveragedDifference tick set_rsel];
      rewrite B, D, HAD, Htick, Ht; repeat split; lia.
  - rewrite rsel_loop_step by lia.
    pose proof (setDCO_session hw (rsel s) 3 0 s) as H. cbv zeta in H.
    destruct H as (_ & Htick & _ & HAD & _ & _ & _ & Hrsel & _).
    generalize dependent (setDCO hw (rsel s) 3 0 s).
    intros s1 Htick HAD Hrsel.
    rewrite HAD, Ht.
    destruct (Z.ltb_spec goal (reading hw (t0 + 55 * k))).
    { specialize (Hle k). lia. }
    replace (k + S j)%nat with (S k + j)%nat by lia.
    apply (IH (S k) (set_rsel (to_int16 (rsel s1 + 1)) s1)
             (reading hw (t0 + 55 * k))).
    + cbn [rsel set_rsel]. rewrite Hrsel, Hr, to_int16_small; lia.
    + cbn [tick set_rsel]. lia.
    + lia.
    + intros i Hi. apply Hle. lia.
Qed.

(** Once a pass has measured above the goal the loop is left: further
    passes allowed change nothing. *)
Lemma rsel_loop_break (t0 : nat) (goal : Z) : forall j k s prev fuel,
  rsel s = Z.of_nat k -> tick s = (t0 + 55 * k)%nat -> (k + j < 16)%nat ->
  (forall i, (k <= i < k + j)%nat -> reading hw (t0 + 55 * i) <= goal) ->
  goal < reading hw (t0 + 55 * (k + j)) -> (j < fuel)%nat ->
  fst (rsel_loop hw fuel goal prev s) = fst (rsel_loop hw (S j) goal prev s).
Proof.
  induction j as [|j IH]; intros k s prev fuel Hr Ht Hk Hle Hgt Hf;
    (destruct fuel as [|fuel]; [lia|]).
  - rewrite !rsel_loop_step by lia.
    pose proof (setDCO_session hw (rsel s) 3 0 s) as H. cbv zeta in H.
    destruct H as (_ & _ & _ & HAD & _).
    generalize dependent (setDCO hw (rsel s) 3 0 s). intros s1 HAD.
    rewrite HAD, Ht. rewrite Nat.add_0_r in Hgt.
    destruct (Z.ltb_spec goal (reading hw (t0 + 55 * k))); [reflexivity | lia].
  - rewrite !rsel_loop_step by lia.
    pose proof (setDCO_session hw (rsel s) 3 0 s) as H. cbv zeta in H.
    destruct H as (_ & Htick & _ & HAD & _ & _ & _ & Hrsel & _).
    generalize dependent (setDCO hw (rsel s) 3 0 s).
    intros s1 Htick HAD Hrsel.
    rewrite HAD, Ht.
    destruct (Z.ltb_spec goal (reading hw (t0 + 55 * k))).
    { specialize (Hle k). lia. }
    apply (IH (S k)).
    + cbn [rsel set_rsel]. rewrite Hrsel, Hr, to_int16_small; lia.
    + cbn [tick set_rsel]. lia.
    + lia.
    + intros i Hi. apply Hle. lia.
    + replace (S k + j)%nat with (k + S j)%nat by lia. exact Hgt.
    + lia.
Qed.

Lemma rsel_pick_registers goal prev s :
  BCSCTL1 (rsel_pick goal prev s) = BCSCTL1 s /\
  DCOCTL (rsel_pick goal prev s) = DCOCTL s /\
  AveragedDifference (rsel_pick goal prev s) = AveragedDifference s.
Proof.
  unfold rsel_pick.
  destruct (rsel s <? 16), (negb (rsel s =? 0)),
    (sub16 goal prev <? sub16 (AveragedDifference s) goal);
    repeat split.
Qed.

(** C1: the range scan measures the ranges 0, 1, ... at step 3 and
    modulation 0 and stops at the first range whose measurement exceeds
    the goal.  [pass r] is the state when the loop has made its pass for
    range [r]: as long as no range before [r] has measured above the
    goal, BCSCTL1 then holds range [r], DCOCTL holds step 3 with
    modulation 0, and the measurement taken is [M r].  When [r] is the
    first range that measures above the goal, the scan ends after that
    pass, with the registers and the measurement of range [r].  If [r]
    is not 0 and the error of range [r-1], the goal minus its
    measurement, is smaller than the error of range [r], its measurement
    minus the goal, range [r-1] is chosen, otherwise range [r]; if none
    of the 16 ranges exceeds the goal, range 15 is chosen. *)
Theorem C1_range_scan prev0 goal s :
  0 <= goal < 65536 ->
  let M := fun r : nat => reading hw (tick s + 55 * r) in
  let pass := fun r : nat =>
    fst (rsel_loop hw (S r) goal prev0 (set_rsel 0 s)) in
  let s' := fst (range_scan hw goal prev0 s) in
  (forall r, (r < 16)%nat -> (forall i, (i < r)%nat -> M i <= goal) ->
     BCSCTL1 (pass r) = XT2OFF + Z.of_nat r /\
     DCOCTL (pass r) = 3 * DCO0 + 0 /\
     AveragedDifference (pass r) = M r /\
     tick (pass r) = (tick s + 55 * S r)%nat) /\
  (forall r, (r < 16)%nat ->
     (forall i, (i < r)%nat -> M i <= goal) -> goal < M r ->
     tick s' = (tick s + 55 * S r)%nat /\
     rsel s' = (if (0 <? r)%nat && (goal - M (r - 1)%nat <? M r - goal)
                then Z.of_nat r - 1 else Z.of_nat r) /\
     BCSCTL1 s' = XT2OFF + Z.of_nat r /\
     DCOCTL s' = 3 * DCO0 + 0 /\
     AveragedDifference s' = M r) /\
  ((forall r, (r < 16)%nat -> M r <= goal) ->
     tick s' = (tick s + 55 * 16)%nat /\ rsel s' = 15).
Proof.
  intros Hg M pass s'. subst s'. unfold range_scan. split; [|split].
  - intros r Hr Hle. subst pass. cbv beta.
    apply (rsel_loop_pass (tick s) goal r 0 (set_rsel 0 s) prev0);
      [reflexivity | cbn [tick set_rsel]; lia | lia |].
    intros i Hi. apply Hle. lia.
  - intros r Hr Hle Hgt.
    destruct (rsel_loop_over hw (tick s) goal 16 0 (set_rsel 0 s) prev0 r)
      as (s1 & E & R1 & R2 & R3); try reflexivity; try lia.
    { simpl. lia. }
    { intros i Hi. apply Hle. lia. }
    { exact Hgt. }
    pose proof (rsel_loop_break (tick s) goal r 0 (set_rsel 0 s) prev0 16
                  eq_refl) as Eb.
    cbn [tick set_rsel Nat.add] in Eb.
    specialize (Eb ltac:(lia) ltac:(lia)
                  ltac:(intros i Hi; apply Hle; lia) Hgt ltac:(lia)).
    pose proof (rsel_loop_pass (tick s) goal r 0 (set_rsel 0 s) prev0
                  eq_refl) as P.
    cbn [tick set_rsel Nat.add] in P.
    specialize (P ltac:(lia) ltac:(lia) ltac:(intros i Hi; apply Hle; lia)).
    cbv zeta in P. rewrite <- Eb, E in P. cbn [fst] in P.
    destruct P as (PB & PD & _).
    rewrite E. cbn [fst].
    destruct (rsel_pick_registers goal
                (if (0 <? r)%nat then reading hw (tick s + 55 * (r - 1))
                 else prev0) s1) as (Q1 & Q2 & Q3).
    rewrite Q1, Q2, Q3, PB, PD, R2. fold (M r).
    cut (tick (rsel_pick goal
                 (if (0 <? r)%nat then reading hw (tick s + 55 * (r - 1))
                  else prev0) s1) = (tick s + 55 * S r)%nat /\
         rsel (rsel_pick goal
                 (if (0 <? r)%nat then reading hw (tick s + 55 * (r - 1))
                  else prev0) s1)
         = (if (0 <? r)%nat && (goal - M (r - 1)%nat <? M r - goal)
            then Z.of_nat r - 1 else Z.of_nat r)).
    { intros [A1 A2]. rewrite A1, A2. repeat split. }
    unfold rsel_pick. rewrite R1, R2.
    destruct (Z.ltb_spec (Z.of_nat r) 16); [|lia].
    destruct r as [|r].
    + simpl. auto.
    + replace (Z.of_nat (S r) =? 0) with false by (symmetry; apply Z.eqb_neq; lia).
      cbn [negb Nat.ltb Nat.leb andb].
      replace (S r - 1)%nat with r by lia.
      fold (M r). fold (M (S r)).
      assert (M r <= goal) by (apply Hle; lia).
      pose proof (reading_range hw (tick s + 55 * r)) as B1. fold (M r) in B1.
      pose proof (reading_range hw (tick s + 55 * S r)) as B2. fold (M (S r)) in B2.
      rewrite !sub16_exact by lia.
      destruct (Z.ltb_spec (goal - M r) (M (S r) - goal)).
      * cbn [rsel tick set_rsel andb]. rewrite to_int16_small by lia.
        split; [exact R3 | lia].
      * rewrite R1. split; [exact R3 | reflexivity].
  - intros Hle.
    destruct (rsel_loop_under hw (tick s) goal 16 0 (set_rsel 0 s) prev0)
      as (s1 & E & R1 & R2); try reflexivity; try lia.
    { simpl. lia. }
    { intros i Hi. apply Hle. lia. }
    rewrite E. cbn [fst]. unfold rsel_pick. rewrite R1. simpl. auto.
Qed.

End RangeScan.

(** C1 on the bench [rates_first] with goal 977: range 0 measures 500 at
    BCSCTL1 = XT2OFF + 0, range 1 measures 1500 at BCSCTL1 = XT2OFF + 1,
    both with DCOCTL = 3 * DCO0, and stops the scan; 977-500 is less
    than 1500-977, so range 0 is chosen. *)
Lemma C1_range_scan_witness :
  0 <= 977 < 65536 /\
  BCSCTL1 (fst (rsel_loop (bench rates_first) 2 977 0
                  (set_rsel 0 (power_up factory)))) = 0x81 /\
  DCOCTL (fst (rsel_loop (bench rates_first) 2 977 0
                 (set_rsel 0 (power_up factory)))) = 0x60 /\
  AveragedDifference (fst (rsel_loop (bench rates_first) 2 977 0
                             (set_rsel 0 (power_up factory)))) = 1500 /\
  rsel (fst (range_scan (bench rates_first) 977 0 (power_up factory))) = 0.
Proof.
  split; [lia|].
  destruct (C1_range_scan (bench rates_first) 0 977 (power_up factory))
    as (P & H & _); [lia|].
  destruct (P 1%nat) as (B & D & A & _).
  - lia.
  - intros i Hi. assert (i = 0%nat) by lia. subst i. vm_compute. discriminate.
  - destruct (H 1%nat) as (_ & E & _).
    + lia.
    + intros i Hi. assert (i = 0%nat) by lia. subst i. vm_compute. discriminate.
    + vm_compute. reflexivity.
    + split; [exact B|]. split; [exact D|].
      split; [rewrite A; vm_compute; reflexivity|].
      rewrite E. vm_compute. reflexivity.
Defined.

(** ** The special case of the modulation scan *)

Section SpecialCase.
Variable hw : Env.

(** The error recorded by the step scan, as the special case reads it. *)
Lemma m0diff_unsigned P goal :
  0 <= goal < P -> P < 65536 ->
  to_uint16 (to_int16 (sub16 P goal)) = P - goal.
Proof.
  intros H1 H2. rewrite to_uint16_to_int16, sub16_exact by lia.
  apply to_uint16_small. lia.
Qed.

(** C3, as the program has it by design: the comparison with the error
    recorded by the step scan is made exactly when the modulation chosen
    after the scan is 31.  That is so when the scan went through all of
    0..31 without a measurement above the goal, and also when it stopped
    at the modulation 31 and the choice kept 31.  [P] is the measurement
    of the step found by the step scan, above the goal, and [dco s] the
    step below it.  When the scan stopped at 31 and 31 was kept, the
    configuration becomes (step, 0) if the error of the step, [P - goal],
    is smaller than the error of the modulation 31, and stays
    (step-1, 31) otherwise.  After a scan that went through, the
    configuration becomes (step, 0) when the error of the step is
    smaller than the error of the modulation 31, [goal - Q 31], and
    stays (step-1, 31) when the modulation 31 measures the goal.  When
    the chosen modulation is below 31 nothing is compared and the
    configuration is (step-1, chosen modulation). *)
Theorem C3_special_case goal P prev s :
  0 <= goal < P -> P < 65536 -> 0 <= dco s < 8 ->
  let Q := fun k : nat => reading hw (tick s + 55 * k) in
  let s' := mod_scan hw goal (to_int16 (sub16 P goal)) prev s in
  (forall k, (k < 32)%nat ->
     (forall i, (i < k)%nat -> Q i <= goal) -> goal < Q k ->
     let m := if (0 <? k)%nat && (goal - Q (k - 1)%nat <? Q k - goal)
              then (k - 1)%nat else k in
     (dco s', mod_ s') =
       if (m =? 31)%nat
       then if P - goal <? Q 31%nat - goal
            then (dco s + 1, 0) else (dco s, 31)
       else (dco s, Z.of_nat m)) /\
  ((forall k, (k < 32)%nat -> Q k <= goal) ->
     (P - goal < goal - Q 31%nat -> (dco s', mod_ s') = (dco s + 1, 0)) /\
     (Q 31%nat = goal -> (dco s', mod_ s') = (dco s, 31))).
Proof.
  intros Hg HP Hd Q s'. subst s'. unfold mod_scan.
  pose proof (m0diff_unsigned P goal Hg HP) as Hm0.
  generalize dependent (to_int16 (sub16 P goal)). intros m0diff Hm0.
  split.
  - intros k Hk Hle Hgt.
    destruct (mod_loop_over hw (tick s) goal 32 0 (set_mod 0 s) prev k)
      as (s1 & E & R1 & R2 & R3); try reflexivity; try lia.
    { simpl. lia. }
    { intros i Hi. apply Hle. lia. }
    { exact Hgt. }
    rewrite E. simpl in R3. fold (Q k) in R2. fold (Q (k - 1)%nat).
    pose proof (reading_range hw (tick s + 55 * k)) as B2. fold (Q k) in B2.
    pose proof (reading_range hw (tick s + 55 * (k - 1))) as B1.
    fold (Q (k - 1)%nat) in B1.
    unfold mod_pick. rewrite R1, R2.
    destruct (Z.ltb_spec (Z.of_nat k) 32); [|lia].
    destruct k as [|k].
    + cbn [Nat.ltb Nat.leb andb Nat.eqb Z.of_nat Z.eqb negb].
      unfold special_case. rewrite R1. simpl. simpl in R1.
      rewrite R1, R3. reflexivity.
    + replace (Z.of_nat (S k) =? 0) with false
        by (symmetry; apply Z.eqb_neq; lia).
      cbn [negb Nat.ltb Nat.leb andb].
      replace (S k - 1)%nat with k in * by lia.
      assert (Q k <= goal) by (apply Hle; lia).
      rewrite !sub16_exact by lia.
      destruct (Z.ltb_spec (goal - Q k) (Q (S k) - goal)).
      * destruct (Nat.eqb_spec k 31); [lia|].
        unfold special_case. cbn [mod_ set_mod].
        rewrite (to_int16_small (Z.of_nat (S k) - 1)) by lia.
        destruct (Z.eqb_spec (Z.of_nat (S k) - 1) 31); [lia|].
        cbn [mod_ dco set_mod]. rewrite R3. f_equal. lia.
      * unfold special_case. rewrite R1, R2.
        destruct (Nat.eqb_spec (S k) 31) as [Hk31|Hk31].
        -- rewrite Hk31. cbn [Z.of_nat Z.eqb Pos.eqb Pos.of_succ_nat Pos.succ].
           rewrite Hk31 in *.
           rewrite (sub16_exact (Q 31%nat) goal) by lia.
           rewrite Hm0.
           destruct (P - goal <? Q 31%nat - goal).
           ++ cbn [mod_ dco set_mod set_dco]. rewrite R3.
              rewrite to_int16_small by lia. reflexivity.
           ++ rewrite R1, R3. reflexivity.
        -- destruct (Z.eqb_spec (Z.of_nat (S k)) 31); [lia|].
           rewrite R1, R3. reflexivity.
  - intros Hle.
    destruct (mod_loop_under hw (tick s) goal 32 0 (set_mod 0 s) prev)
      as (s1 & E & R1 & R2 & R3); try reflexivity; try lia.
    { simpl. lia. }
    { intros i Hi. apply Hle. lia. }
    rewrite E. simpl in R3. fold (Q 31%nat) in R2.
    pose proof (reading_range hw (tick s + 55 * 31)) as B. fold (Q 31%nat) in B.
    assert (H31 : Q 31%nat <= goal) by (apply Hle; lia).
    unfold mod_pick. rewrite R1. cbn [Z.ltb Z.compare Pos.compare Pos.compare_cont].
    unfold special_case. cbn [mod_ set_mod AveragedDifference Z.eqb Pos.eqb].
    rewrite R2, Hm0.
    split.
    + intros Hc.
      assert (W : sub16 (Q 31%nat) goal = 65536 - (goal - Q 31%nat)).
      { unfold sub16, to_uint16.
        replace (Q 31%nat - goal) with (65536 - (goal - Q 31%nat) + (-1) * 65536)
          by lia.
        rewrite Z.mod_add by lia. apply Z.mod_small. lia. }
      rewrite W.
      destruct (Z.ltb_spec (P - goal) (65536 - (goal - Q 31%nat))); [|lia].
      cbn [mod_ dco set_mod set_dco]. rewrite R3.
      rewrite to_int16_small by lia. reflexivity.
    + intros Heq. rewrite Heq.
      replace (sub16 goal goal) with 0
        by (unfold sub16, to_uint16; rewrite Z.sub_diag; reflexivity).
      destruct (Z.ltb_spec (P - goal) 0); [lia|].
      cbn [mod_ dco set_mod]. rewrite R3. reflexivity.
Qed.

End SpecialCase.

(** C3 on the bench [rates_mod] with goal 1000 and a step that measured
    1001: the modulations 0..30 measure 900 and 31 measures 1100; 31 is
    kept since 1100-1000 is not more than 1000-900, the error 1 of the
    step is smaller than the error 100 of the modulation 31 and the
    configuration becomes (step, 0). *)
Lemma C3_special_case_witness :
  let s' := mod_scan (bench rates_mod) 1000 (to_int16 (sub16 1001 1000)) 0
              (power_up factory) in
  (dco s', mod_ s') = (1, 0).
Proof.
  destruct (C3_special_case (bench rates_mod) 1000 1001 0 (power_up factory))
    as [H _]; [lia | lia | simpl; lia |].
  cbv zeta. rewrite (H 31%nat).
  - vm_compute. reflexivity.
  - lia.
  - intros i Hi.
    do 31 (destruct i as [|i]; [vm_compute; discriminate|]). lia.
  - vm_compute. reflexivity.
Defined.

(** After a scan that went through, the comparison of the special case
    is made between [m0diff] and the difference [AveragedDifference -
    goal], which is negative and wraps as [unsigned int]: on the bench
    [rates_exhausted] with goal 977 the step 1 measured 1040, every
    modulation of step 0 measures at most the goal and the modulation 31
    measures 972, five below the goal; the search still ends at step 1
    with modulation 0, 63 above the goal. *)
Example special_case_after_exhausted_scan :
  let hw := bench rates_exhausted in
  let s2 := step_scan hw 977 (fst (range_scan hw 977 0 (power_up factory))) in
  let r := searchGoal hw 977 (power_up factory) in
  dco s2 = 1 /\ AveragedDifference s2 = 1040 /\
  (forall k, (k < 32)%nat -> reading hw (tick s2 + 55 * k) <= 977) /\
  reading hw (tick s2 + 55 * 31) = 972 /\
  fst r = 0 /\ dco (snd r) = 1 /\ mod_ (snd r) = 0 /\
  AveragedDifference (snd r) = 1040.
Proof.
  cbv zeta. split; [vm_compute; reflexivity|].
  split; [vm_compute; reflexivity|]. split.
  - intros k Hk.
    do 32 (destruct k as [|k]; [vm_compute; discriminate|]). lia.
  - vm_compute. repeat split; reflexivity.
Qed.

(** Against C3 as the specification words it: on the bench
    [rates_special] with goal 1000 the step scan stops at step 1 with a
    measurement of 1001, the modulation scan at step 0 measures 900 for
    the modulations 0..30 and stops at the modulation 31, whose
    measurement 1100 exceeds the goal; the comparison is made all the
    same and the search ends at step 1 with modulation 0. *)
Lemma C3_counterexample :
  let hw := bench rates_special in
  let s2 := step_scan hw 1000 (fst (range_scan hw 1000 0 (power_up factory))) in
  let r := searchGoal hw 1000 (power_up factory) in
  dco s2 = 1 /\
  (forall k, (k < 31)%nat -> reading hw (tick s2 + 55 * k) <= 1000) /\
  1000 < reading hw (tick s2 + 55 * 31) /\
  fst r = 0 /\ dco (snd r) = 1 /\ mod_ (snd r) = 0.
Proof.
  cbv zeta. split; [vm_compute; reflexivity|]. split.
  - intros k Hk.
    do 31 (destruct k as [|k]; [vm_compute; discriminate|]). lia.
  - vm_compute. repeat split; reflexivity.
Qed.

(** * Set-up *)

Lemma startClk32_tests_clear fault : forall fuel n k,
  (forall j, (n <= j < n + k)%nat -> fault j = true) ->
  fault (n + k)%nat = false -> (k < fuel)%nat ->
  startClk32_tests fault fuel n = Some (n + k)%nat.
Proof.
  induction fuel as [|fuel IH]; intros n k Hf Hc Hk; [lia|].
  cbn [startClk32_tests]. destruct k as [|k].
  - rewrite Nat.add_0_r in *. rewrite Hc. reflexivity.
  - rewrite (Hf n) by lia.
    replace (n + S k)%nat with (S n + k)%nat in * by lia.
    apply IH; [intros j Hj; apply Hf; lia | exact Hc | lia].
Qed.

Lemma startClk32_tests_stuck fault : forall fuel n,
  (forall j, (n <= j < n + fuel)%nat -> fault j = true) ->
  startClk32_tests fault fuel n = None.
Proof.
  induction fuel as [|fuel IH]; intros n Hf; [reflexivity|].
  cbn [startClk32_tests]. rewrite (Hf n) by lia.
  apply IH. intros j Hj. apply Hf. lia.
Qed.

Lemma startClk32_tests_left fault : forall fuel n m,
  startClk32_tests fault fuel n = Some m ->
  (n <= m < n + fuel)%nat /\ fault m = false /\
  forall j, (n <= j < m)%nat -> fault j = true.
Proof.
  induction fuel as [|fuel IH]; intros n m E; [discriminate E|].
  cbn [startClk32_tests] in E. destruct (fault n) eqn:F.
  - destruct (IH _ _ E) as (H1 & H2 & H3).
    split; [lia|]. split; [exact H2|].
    intros j Hj. destruct (Nat.eq_dec j n) as [->|]; [exact F|].
    apply H3. lia.
  - injection E as <-. split; [lia|]. split; [exact F|]. intros j Hj. lia.
Qed.

Lemma startClk32_tests_running fault : forall fuel n,
  startClk32_tests fault fuel n = None ->
  forall j, (n <= j < n + fuel)%nat -> fault j = true.
Proof.
  induction fuel as [|fuel IH]; intros n E j Hj; [lia|].
  cbn [startClk32_tests] in E. destruct (fault n) eqn:F; [|discriminate E].
  destruct (Nat.eq_dec j n) as [->|]; [exact F|].
  apply (IH (S n) E). lia.
Qed.

(** The registers [configureAll] leaves when it returns, and the tests of
    [startClk32] behind its return. *)
Lemma configureAll_returned hw fuel s s0 :
  configureAll hw fuel s = Returned s0 ->
  s0 = set_BCSCTL1 (CALBC1_1MHZ (set_DCOCTL (CALDCO_1MHZ s) s))
         (set_DCOCTL (CALDCO_1MHZ s) s) /\
  exists k, (k < fuel)%nat /\ LFXT1OF_start hw k = false /\
    forall j, (j < k)%nat -> LFXT1OF_start hw j = true.
Proof.
  unfold configureAll. cbv zeta.
  destruct (startClk32_tests (LFXT1OF_start hw) fuel 0) as [k|] eqn:E;
    [|discriminate].
  intros H. injection H as <-. split; [reflexivity|].
  destruct (startClk32_tests_left _ _ _ _ E) as (H1 & H2 & H3).
  exists k. split; [lia|]. split; [exact H2|]. intros j Hj. apply H3. lia.
Qed.

Lemma configureAll_started hw fuel s k :
  (forall j, (j < k)%nat -> LFXT1OF_start hw j = true) ->
  LFXT1OF_start hw k = false -> (k < fuel)%nat ->
  configureAll hw fuel s
  = Returned (set_BCSCTL1 (CALBC1_1MHZ (set_DCOCTL (CALDCO_1MHZ s) s))
                (set_DCOCTL (CALDCO_1MHZ s) s)).
Proof.
  intros Hf Hc Hk. unfold configureAll. cbv zeta.
  rewrite (startClk32_tests_clear (LFXT1OF_start hw) fuel 0 k);
    [reflexivity | intros j Hj; apply Hf; lia | exact Hc | exact Hk].
Qed.

Lemma configureAll_waiting hw fuel s :
  (forall j, (j < fuel)%nat -> LFXT1OF_start hw j = true) ->
  configureAll hw fuel s
  = Halted (Starting (set_BCSCTL1 (CALBC1_1MHZ (set_DCOCTL (CALDCO_1MHZ s) s))
                        (set_DCOCTL (CALDCO_1MHZ s) s))).
Proof.
  intros Hf. unfold configureAll. cbv zeta.
  rewrite startClk32_tests_stuck; [reflexivity|].
  intros j Hj. apply Hf. lia.
Qed.

(** * What the calibration leaves alone *)

Section StoreKept.

Variable hw : Env.

Lemma store_kept_refl s : store_kept s s.
Proof. unfold store_kept. tauto. Qed.

Lemma store_kept_trans s1 s2 s3 :
  store_kept s1 s2 -> store_kept s2 s3 -> store_kept s1 s3.
Proof. unfold store_kept. intuition congruence. Qed.

Lemma setDCO_store_kept r d m s : store_kept s (setDCO hw r d m s).
Proof.
  pose proof (setDCO_session hw r d m s) as H. cbv zeta in H.
  unfold store_kept. tauto.
Qed.

Lemma rsel_loop_store_kept goal : forall fuel prev s,
  store_kept s (fst (rsel_loop hw fuel goal prev s)).
Proof.
  induction fuel as [|fuel IH]; intros prev s.
  - cbn [rsel_loop]. destruct (rsel s <? 16); apply store_kept_refl.
  - destruct (Z.ltb_spec (rsel s) 16) as [Hlt | Hge].
    + rewrite rsel_loop_step by exact Hlt.
      pose proof (setDCO_store_kept (rsel s) 3 0 s) as K.
      generalize dependent (setDCO hw (rsel s) 3 0 s). intros s1 K.
      destruct (goal <? AveragedDifference s1); [exact K|].
      eapply store_kept_trans; [exact K|].
      apply (IH (AveragedDifference s1) (set_rsel (to_int16 (rsel s1 + 1)) s1)).
    + rewrite rsel_loop_exit by exact Hge. apply store_kept_refl.
Qed.

Lemma dco_loop_store_kept goal : forall fuel s,
  store_kept s (dco_loop hw fuel goal s).
Proof.
  induction fuel as [|fuel IH]; intros s.
  - cbn [dco_loop]. destruct (dco s <? 8); apply store_kept_refl.
  - destruct (Z.ltb_spec (dco s) 8) as [Hlt | Hge].
    + rewrite dco_loop_step by exact Hlt.
      pose proof (setDCO_store_kept (rsel s) (dco s) 0 s) as K.
      generalize dependent (setDCO hw (rsel s) (dco s) 0 s). intros s1 K.
      destruct (goal <? AveragedDifference s1); [exact K|].
      eapply store_kept_trans; [exact K|].
      apply (IH (set_dco (to_int16 (dco s1 + 1)) s1)).
    + rewrite dco_loop_exit by exact Hge. apply store_kept_refl.
Qed.

Lemma mod_loop_store_kept goal : forall fuel prev s,
  store_kept s (fst (mod_loop hw fuel goal prev s)).
Proof.
  induction fuel as [|fuel IH]; intros prev s.
  - cbn [mod_loop]. destruct (mod_ s <? 32); apply store_kept_refl.
  - destruct (Z.ltb_spec (mod_ s) 32) as [Hlt | Hge].
    + rewrite mod_loop_step by exact Hlt.
      pose proof (setDCO_store_kept (rsel s) (dco s) (mod_ s) s) as K.
      generalize dependent (setDCO hw (rsel s) (dco s) (mod_ s) s). intros s1 K.
      destruct (goal <? AveragedDifference s1); [exact K|].
      eapply store_kept_trans; [exact K|].
      apply (IH (AveragedDifference s1) (set_mod (to_int16 (mod_ s1 + 1)) s1)).
    + rewrite mod_loop_exit by exact Hge. apply store_kept_refl.
Qed.

Lemma rsel_pick_store_kept goal prev s : store_kept s (rsel_pick goal prev s).
Proof.
  unfold rsel_pick.
  destruct (rsel s <? 16), (negb (rsel s =? 0)),
    (sub16 goal prev <? sub16 (AveragedDifference s) goal);
    unfold store_kept; repeat split.
Qed.

Lemma mod_pick_store_kept goal prev s : store_kept s (mod_pick goal prev s).
Proof.
  unfold mod_pick.
  destruct (mod_ s <? 32), (negb (mod_ s =? 0)),
    (sub16 goal prev <? sub16 (AveragedDifference s) goal);
    unfold store_kept; repeat split.
Qed.

Lemma special_case_store_kept goal m0diff s :
  store_kept s (special_case goal m0diff s).
Proof.
  unfold special_case.
  destruct (mod_ s =? 31),
    (to_uint16 m0diff <? sub16 (AveragedDifference s) goal);
    unfold store_kept; repeat split.
Qed.

(** The search never touches the information memory or the flash
    controller. *)
Lemma searchGoal_with_store_kept prev0 goal s :
  store_kept s (snd (searchGoal_with hw prev0 goal s)).
Proof.
  unfold searchGoal_with, range_scan.
  pose proof (rsel_loop_store_kept goal 16 prev0 (set_rsel 0 s)) as K1.
  destruct (rsel_loop hw 16 goal prev0 (set_rsel 0 s)) as [s1 prev].
  cbn [fst] in K1.
  pose proof (rsel_pick_store_kept goal prev s1) as K2.
  generalize dependent (rsel_pick goal prev s1). intros s2 K2.
  unfold step_scan.
  pose proof (dco_loop_store_kept goal 8 (set_dco 0 s2)) as K3.
  generalize dependent (dco_loop hw 8 goal (set_dco 0 s2)). intros s3 K3.
  assert (K : store_kept s s3).
  { eapply store_kept_trans; [exact K1|].
    eapply store_kept_trans; [exact K2 | exact K3]. }
  destruct (7 <? dco s3); [exact K|].
  destruct (dco s3 =? 0); [exact K|].
  cbn [snd]. unfold mod_scan.
  set (s4 := set_dco (to_int16 (dco s3 - 1)) s3).
  set (m0diff := to_int16 (sub16 (AveragedDifference s3) goal)).
  pose proof (mod_loop_store_kept goal 32 prev (set_mod 0 s4)) as K4.
  destruct (mod_loop hw 32 goal prev (set_mod 0 s4)) as [s5 prev'].
  cbn [fst] in K4.
  pose proof (mod_pick_store_kept goal prev' s5) as K5.
  generalize dependent (mod_pick goal prev' s5). intros s6 K5.
  pose proof (special_case_store_kept goal m0diff s6) as K6.
  generalize dependent (special_case goal m0diff s6). intros s7 K6.
  eapply store_kept_trans; [exact K|].
  eapply store_kept_trans; [exact K4|].
  eapply store_kept_trans; [exact K5|].
  eapply store_kept_trans; [exact K6|].
  apply setDCO_store_kept.
Qed.

Lemma searchGoal_store_kept goal s :
  store_kept s (snd (searchGoal hw goal s)).
Proof. unfold searchGoal. apply searchGoal_with_store_kept. Qed.

Lemma cycles_loop_store_kept goal : forall fuel j s j' s',
  cycles_loop hw fuel goal j s = Returned (j', s') -> store_kept s s'.
Proof.
  induction fuel as [|fuel IH]; intros j s j' s' E.
  - cbn [cycles_loop] in E. destruct (j <? MAX_CYCLES);
      injection E as _ <-; apply store_kept_refl.
  - cbn [cycles_loop] in E. destruct (j <? MAX_CYCLES).
    + pose proof (searchGoal_store_kept goal s) as K.
      destruct (searchGoal hw goal s) as [r s1]. cbn [snd] in K.
      destruct (negb (r =? 0)); [discriminate E|].
      destruct (within_tolerance _).
      * injection E as _ <-. exact K.
      * eapply store_kept_trans; [exact K|]. eapply IH. exact E.
    + injection E as _ <-. apply store_kept_refl.
Qed.

Lemma calibrate_store_kept i s s' :
  calibrate hw i s = Returned s' -> store_kept s s'.
Proof.
  unfold calibrate. destruct (LFXT1OF_at hw (tick s)); [discriminate|].
  destruct (cycles_loop hw 10 (nth i GoalN 0) 0 s) as [[j s1]|o] eqn:E;
    [|discriminate].
  destruct (MAX_CYCLES <=? j); [discriminate|].
  intros H. injection H as <-.
  apply cycles_loop_store_kept in E. exact E.
Qed.

Lemma frequencies_loop_store_kept : forall fuel i s s',
  frequencies_loop hw fuel i s = Returned s' -> store_kept s s'.
Proof.
  induction fuel as [|fuel IH]; intros i s s' E.
  - cbn [frequencies_loop] in E. destruct (i <? NFREQ)%nat;
      injection E as <-; apply store_kept_refl.
  - cbn [frequencies_loop] in E. destruct (i <? NFREQ)%nat.
    + destruct (calibrate hw i s) as [s1|o] eqn:E1; [|discriminate].
      eapply store_kept_trans; [eapply calibrate_store_kept; exact E1|].
      eapply IH. exact E.
    + injection E as <-. apply store_kept_refl.
Qed.

(** Whenever [main] gets to [flashWrite], the flash controller is locked
    and the information memory is as it was at power-up. *)
Lemma flashWrite_entered_locked fuel fl s0 s :
  configureAll hw fuel (power_up fl) = Returned s0 ->
  frequencies_loop hw NFREQ 0 (eint s0) = Returned s ->
  let s' := set_BCSCTL1 (CALBC1_1MHZ (set_DCOCTL (CALDCO_1MHZ s) s))
              (set_DCOCTL (CALDCO_1MHZ s) s) in
  locked s' = true /\ flash s' = fl.
Proof.
  intros E0 E. apply configureAll_returned in E0. destruct E0 as [-> _].
  apply frequencies_loop_store_kept in E.
  destruct E as (E1 & _ & E3). cbv zeta. unfold locked.
  cbn [FCTL3 flash set_BCSCTL1 set_DCOCTL]. rewrite E1, E3. split; reflexivity.
Qed.

End StoreKept.

(** * The operating controller and the calibration store *)

Section ControllerFacts.

Variable hw : Env.
Variable build : Build.

Lemma after_attempts_S goal n s :
  after_attempts hw goal (S n) s
  = snd (searchGoal hw goal (after_attempts hw goal n s)).
Proof. cbn [after_attempts]. reflexivity. Qed.

Lemma after_attempts_shift goal n : forall s,
  after_attempts hw goal (S n) s
  = after_attempts hw goal n (snd (searchGoal hw goal s)).
Proof.
  induction n as [|n IH]; intros s.
  - cbn [after_attempts]. reflexivity.
  - rewrite after_attempts_S, IH, after_attempts_S. reflexivity.
Qed.

Lemma cycles_loop_step fuel goal j s :
  j < MAX_CYCLES ->
  cycles_loop hw (S fuel) goal j s =
  if negb (fst (searchGoal hw goal s) =? 0)
  then Halted (errorLock 2 (snd (searchGoal hw goal s)))
  else if within_tolerance
            (percent_error (AveragedDifference (snd (searchGoal hw goal s))) goal)
       then Returned (j, snd (searchGoal hw goal s))
       else cycles_loop hw fuel goal (to_int16 (j + 1)) (snd (searchGoal hw goal s)).
Proof.
  intros H. cbn [cycles_loop].
  destruct (Z.ltb_spec j MAX_CYCLES); [|lia].
  destruct (searchGoal hw goal s) as [r s']. reflexivity.
Qed.

Lemma cycles_loop_exhausted goal : forall fuel j s,
  (j + fuel = 10)%nat ->
  (forall k, (k < fuel)%nat ->
     attempt_failed hw goal (after_attempts hw goal k s)) ->
  cycles_loop hw fuel goal (Z.of_nat j) s
  = Returned (10, after_attempts hw goal fuel s).
Proof.
  induction fuel as [|fuel IH]; intros j s Hj Hall.
  - assert (j = 10%nat) by lia. subst j. reflexivity.
  - rewrite cycles_loop_step by (unfold MAX_CYCLES; lia).
    destruct (Hall 0%nat) as [Hr Ht]; [lia|]. cbn [after_attempts] in Hr, Ht.
    rewrite Hr, Ht. cbn [Z.eqb negb].
    rewrite to_int16_small by lia.
    replace (Z.of_nat j + 1) with (Z.of_nat (S j)) by lia.
    rewrite after_attempts_shift.
    apply IH; [lia|].
    intros k Hk. rewrite <- after_attempts_shift. apply Hall. lia.
Qed.

Lemma cycles_loop_accepted goal : forall fuel j s k,
  (j + fuel = 10)%nat -> (k < fuel)%nat ->
  (forall k', (k' < k)%nat ->
     attempt_failed hw goal (after_attempts hw goal k' s)) ->
  attempt_accepted hw goal (after_attempts hw goal k s) ->
  cycles_loop hw fuel goal (Z.of_nat j) s
  = Returned (Z.of_nat (j + k), after_attempts hw goal (S k) s).
Proof.
  induction fuel as [|fuel IH]; intros j s k Hj Hk Hfail Hok; [lia|].
  rewrite cycles_loop_step by (unfold MAX_CYCLES; lia).
  destruct k as [|k].
  - destruct Hok as [Hr Ht]. cbn [after_attempts] in Hr, Ht.
    rewrite Hr, Ht. cbn [Z.eqb negb after_attempts].
    rewrite Nat.add_0_r. reflexivity.
  - destruct (Hfail 0%nat) as [Hr Ht]; [lia|]. cbn [after_attempts] in Hr, Ht.
    rewrite Hr, Ht. cbn [Z.eqb negb].
    rewrite to_int16_small by lia.
    replace (Z.of_nat j + 1) with (Z.of_nat (S j)) by lia.
    rewrite (after_attempts_shift goal (S k)).
    replace (j + S k)%nat with (S j + k)%nat by lia.
    apply IH; [lia | lia | |].
    + intros k' Hk'. rewrite <- after_attempts_shift. apply Hfail. lia.
    + unfold attempt_accepted in *. rewrite <- after_attempts_shift. exact Hok.
Qed.

Lemma cycles_loop_bounded goal : forall fuel j s,
  (j + fuel = 10)%nat ->
  exists n, (n <= fuel)%nat /\
    (cycles_loop hw fuel goal (Z.of_nat j) s
       = Halted (errorLock 2 (after_attempts hw goal n s)) \/
     exists j', (j' <= 10)%nat /\
       cycles_loop hw fuel goal (Z.of_nat j) s
       = Returned (Z.of_nat j', after_attempts hw goal n s)).
Proof.
  induction fuel as [|fuel IH]; intros j s Hj.
  - exists 0%nat. split; [lia|]. right. exists j. split; [lia|].
    assert (j = 10%nat) by lia. subst j. reflexivity.
  - rewrite cycles_loop_step by (unfold MAX_CYCLES; lia).
    destruct (negb (fst (searchGoal hw goal s) =? 0)).
    { exists 1%nat. split; [lia|]. left. rewrite after_attempts_S. reflexivity. }
    destruct (within_tolerance _).
    { exists 1%nat. split; [lia|]. right. exists j. split; [lia|].
      rewrite after_attempts_S. reflexivity. }
    rewrite to_int16_small by lia.
    replace (Z.of_nat j + 1) with (Z.of_nat (S j)) by lia.
    destruct (IH (S j) (snd (searchGoal hw goal s))) as (n & Hn & H); [lia|].
    exists (S n). split; [lia|]. rewrite after_attempts_shift. exact H.
Qed.

(** X25: for one target [main] calls [searchGoal] at most [MAX_CYCLES]
    times.  If each of the ten attempts returns 0 with an error that the
    tolerance test of [main] rejects, the program ends in
    [errorLock(5)]; if the attempt [k] is the first whose error the test
    accepts, the result is stored from the state that attempt left, and
    no further attempt is made.  The error is the one [main] computes,
    after its conversion to [char]. *)
Theorem retry_ceiling_on_computed_error i s :
  LFXT1OF_at hw (tick s) = false ->
  let goal := nth i GoalN 0 in
  let att := fun k : nat => after_attempts hw goal k s in
  (exists n, (n <= 10)%nat /\
     (calibrate hw i s = Halted (errorLock 2 (att n)) \/
      calibrate hw i s = Halted (errorLock 5 (att n)) \/
      calibrate hw i s = Returned (store_calibration i (att n)))) /\
  ((forall k, (k < 10)%nat -> attempt_failed hw goal (att k)) ->
   calibrate hw i s = Halted (errorLock 5 (att 10%nat))) /\
  (forall k, (k < 10)%nat ->
     (forall k', (k' < k)%nat -> attempt_failed hw goal (att k')) ->
     attempt_accepted hw goal (att k) ->
     calibrate hw i s = Returned (store_calibration i (att (S k)))).
Proof.
  intros Hfault goal att. unfold calibrate. rewrite Hfault. fold goal.
  split; [|split].
  - destruct (cycles_loop_bounded goal 10 0 s eq_refl)
      as (n & Hn & [E | (j' & Hj' & E)]);
      exists n; (split; [exact Hn|]); cbn [Z.of_nat] in E; rewrite E.
    + left. reflexivity.
    + destruct (Z.leb_spec MAX_CYCLES (Z.of_nat j')); auto.
  - intros Hall.
    pose proof (cycles_loop_exhausted goal 10 0 s eq_refl Hall) as E.
    cbn [Z.of_nat] in E. rewrite E. reflexivity.
  - intros k Hk Hfail Hok.
    pose proof (cycles_loop_accepted goal 10 0 s k eq_refl Hk Hfail Hok) as E.
    cbn [Z.of_nat Nat.add] in E. rewrite E.
    destruct (Z.leb_spec MAX_CYCLES (Z.of_nat k)); [unfold MAX_CYCLES in *; lia|].
    reflexivity.
Qed.

Lemma testFlashEmpty_nonblank s :
  nonblank (flash s) -> testFlashEmpty s = 1.
Proof.
  intros (i & Hi & H). unfold testFlashEmpty, CalPos, NFREQ in *.
  do 9 (destruct i as [|i];
        [ cbn [testFlashEmpty_from nth] in *; unfold peek;
          repeat match goal with
          | |- context [negb (?a =? ?b)] =>
              destruct (Z.eqb_spec a b); cbn [negb]; try reflexivity
          end; exfalso; tauto |]).
  lia.
Qed.

End ControllerFacts.

(** X25 on two benches for the first target: on [rates_good] the first
    attempt ends on 978 and is stored; on [rates_bad] each of ten attempts
    ends on 1100, 12 percent above 977, and the program ends in
    [errorLock(5)]. *)
Lemma retry_ceiling_on_computed_error_witness :
  LFXT1OF_at (bench rates_good) (tick (power_up factory)) = false /\
  calibrate (bench rates_good) 0 (power_up factory)
  = Returned (store_calibration 0
      (after_attempts (bench rates_good) (nth 0 GoalN 0) 1 (power_up factory))) /\
  calibrate (bench rates_bad) 0 (power_up factory)
  = Halted (errorLock 5
      (after_attempts (bench rates_bad) (nth 0 GoalN 0) 10 (power_up factory))).
Proof.
  split; [reflexivity|]. split.
  - destruct (retry_ceiling_on_computed_error (bench rates_good) 0 (power_up factory) eq_refl)
      as (_ & _ & H).
    apply (H 0%nat); [lia | intros k' Hk'; lia | split; vm_compute; reflexivity].
  - destruct (retry_ceiling_on_computed_error (bench rates_bad) 0 (power_up factory) eq_refl)
      as (_ & H & _).
    apply H. intros k Hk.
    do 10 (destruct k as [|k]; [split; vm_compute; reflexivity|]). lia.
Defined.

(** C6 at the failing input: on the bench [rates_wrap] every search for
    the first target, 977, returns 0 and ends on a measurement of 3479,
    which is 256 percent above the goal, so that each of the ten
    attempts the retry loop allows is out of tolerance.  The program
    does not end in [errorLock(5)]: the error computed by [main] is 0,
    the first attempt is accepted and its setting is stored. *)
Theorem C6_out_of_tolerance_stored :
  let hw := bench rates_wrap in
  let att := fun k : nat => after_attempts hw 977 k (power_up factory) in
  nth 0 GoalN 0 = 977 /\
  (forall k, (k < 10)%nat ->
     fst (searchGoal hw 977 (att k)) = 0 /\
     AveragedDifference (att (S k)) = 3479 /\
     exact_percent_error (AveragedDifference (att (S k))) 977 = 256) /\
  percent_error 3479 977 = 0 /\
  calibrate hw 0 (power_up factory)
  = Returned (store_calibration 0 (att 1%nat)) /\
  (forall s, calibrate hw 0 (power_up factory) <> Halted (errorLock 5 s)).
Proof.
  cbv zeta. split; [reflexivity|]. split.
  - intros k Hk.
    do 10 (destruct k as [|k]; [vm_compute; repeat split; reflexivity|]). lia.
  - split; [vm_compute; reflexivity|].
    assert (E : calibrate (bench rates_wrap) 0 (power_up factory)
                = Returned (store_calibration 0
                    (after_attempts (bench rates_wrap) 977 1 (power_up factory)))).
    { vm_compute. reflexivity. }
    split; [exact E|]. intros s. rewrite E. discriminate.
Qed.

(** C5 at the failing input: with goal 977 and a measurement of 3479 the
    percentage is 256, the [char] conversion makes it 0 (as it would
    with an unsigned [char]), and the attempt is accepted; the first
    attempt for the first target on the bench [rates_first] ends with
    that measurement and is accepted at once. *)
Theorem C5_percent_error_wraps :
  exact_percent_error 3479 977 = 256 /\
  percent_error 3479 977 = 0 /\
  to_uint8 (exact_percent_error 3479 977) = 0 /\
  within_tolerance (percent_error 3479 977) = true /\
  match cycles_loop (bench rates_first) 10 977 0 (power_up factory) with
  | Returned (j, s') => j = 0 /\ AveragedDifference s' = 3479
  | Halted _ => False
  end.
Proof.
  vm_compute. repeat split; reflexivity.
Qed.


Lemma searchGoal_with_returns hw prev0 goal s :
  fst (searchGoal_with hw prev0 goal s) = 0 \/
  fst (searchGoal_with hw prev0 goal s) = 1.
Proof.
  unfold searchGoal_with.
  destruct (range_scan hw goal prev0 s) as [s1 prev].
  destruct (7 <? dco (step_scan hw goal s1)); [right; reflexivity|].
  destruct (dco (step_scan hw goal s1) =? 0); [right; reflexivity|].
  left. reflexivity.
Qed.

Lemma flashWrite_without_baseline b s :
  CALBC1_1MHZ s = 0xFF \/ CALDCO_1MHZ s = 0xFF ->
  flashWrite b s = Halted (errorLock 4 s).
Proof.
  intros H. unfold flashWrite.
  destruct (Z.eqb_spec (CALBC1_1MHZ s) 0xFF), (Z.eqb_spec (CALDCO_1MHZ s) 0xFF);
    try reflexivity; tauto.
Qed.

Lemma flashWrite_with_baseline b s :
  CALBC1_1MHZ s <> 0xFF -> CALDCO_1MHZ s <> 0xFF ->
  flashWrite b s = Returned (run (flashWrite_steps b) s).
Proof.
  intros H1 H2. unfold flashWrite.
  destruct (Z.eqb_spec (CALBC1_1MHZ s) 0xFF), (Z.eqb_spec (CALDCO_1MHZ s) 0xFF);
    try reflexivity; tauto.
Qed.

(** C8, as the program has it: [searchGoal] always returns 0 or 1 to its
    caller.  [flashWrite] returns nothing: when the factory calibration
    of 1MHz is missing it calls [errorLock(4)] itself, and otherwise it
    returns to [main]. *)
Theorem C8_failure_reporting :
  (forall hw goal s,
     fst (searchGoal hw goal s) = 0 \/ fst (searchGoal hw goal s) = 1) /\
  (forall b s,
     CALBC1_1MHZ s = 0xFF \/ CALDCO_1MHZ s = 0xFF ->
     flashWrite b s = Halted (errorLock 4 s)) /\
  (forall b s,
     CALBC1_1MHZ s <> 0xFF -> CALDCO_1MHZ s <> 0xFF ->
     flashWrite b s = Returned (run (flashWrite_steps b) s)).
Proof.
  split; [|split].
  - intros hw goal s. unfold searchGoal. apply searchGoal_with_returns.
  - intros b s H. apply flashWrite_without_baseline. exact H.
  - intros b s H1 H2. apply flashWrite_with_baseline; assumption.
Qed.

(** C8 at power-up, without and with the factory calibration. *)
Lemma C8_failure_reporting_witness :
  flashWrite release (power_up erased) = Halted (errorLock 4 (power_up erased)) /\
  flashWrite release (power_up factory)
  = Returned (run (flashWrite_steps release) (power_up factory)).
Proof.
  destruct C8_failure_reporting as (_ & H1 & H2). split.
  - apply H1. left. reflexivity.
  - apply H2; vm_compute; discriminate.
Defined.

(** Against C8 as the specification words it: [flashWrite] does not
    always come back to its caller; with an erased information memory it
    ends in [errorLock(4)]. *)
Lemma C8_counterexample :
  ~ (forall b s, exists s', flashWrite b s = Returned s').
Proof.
  intros H. destruct (H release (power_up erased)) as (s' & E).
  vm_compute in E. discriminate E.
Qed.

Lemma run_app l1 l2 s : run (l1 ++ l2) s = run l2 (run l1 s).
Proof. unfold run. apply fold_left_app. Qed.

Lemma trace_app l1 : forall l2 s,
  trace (l1 ++ l2) s = trace l1 s ++ trace l2 (run l1 s).
Proof.
  induction l1 as [|f l1 IH]; intros l2 s.
  - reflexivity.
  - cbn [app trace]. cbv zeta. rewrite IH. reflexivity.
Qed.

Lemma last_cons (A : Type) (l : list A) : forall a d : A,
  last (a :: l) d = last l a.
Proof.
  induction l as [|b l IH]; intros a d.
  - reflexivity.
  - change (last (a :: b :: l) d) with (last (b :: l) d).
    rewrite !IH. reflexivity.
Qed.

Lemma last_trace l : forall s, last (trace l s) s = run l s.
Proof.
  induction l as [|f l IH]; intros s.
  - reflexivity.
  - cbn [trace]. cbv zeta. change (run (f :: l) s) with (run l (f s)).
    rewrite last_cons. apply IH.
Qed.

Lemma poke_GIE a v s : GIE (poke a v s) = GIE s.
Proof.
  unfold poke. destruct (locked s), (write_mode s), (erase_mode s); reflexivity.
Qed.

(** Statements that leave the interrupt enable alone keep it as it was
    all along their execution. *)
Lemma trace_GIE l :
  Forall (fun f : State -> State => forall x, GIE (f x) = GIE x) l ->
  forall s, GIE (run l s) = GIE s /\
            forall x, In x (trace l s) -> GIE x = GIE s.
Proof.
  induction 1 as [|f l Hf Hl IH]; intros s.
  - split; [reflexivity | intros x []].
  - change (run (f :: l) s) with (run l (f s)).
    destruct (IH (f s)) as [IH1 IH2]. split.
    + rewrite IH1. apply Hf.
    + intros x [<- | Hin]; [apply Hf|].
      rewrite (IH2 x Hin). apply Hf.
Qed.

(** The statements of [flashWrite] between [dint()] and the three that
    end the flash operation. *)
Lemma flashWrite_steps_shape b :
  exists mid,
    flashWrite_steps b
    = dint :: mid ++ [set_FCTL1 FWKEY; set_FCTL3 (FWKEY + LOCK); eint] /\
    Forall (fun f : State -> State => forall x, GIE (f x) = GIE x) mid.
Proof.
  exists (removelast (removelast (removelast (tl (flashWrite_steps b))))).
  destruct b as [[|] tm];
    cbv [removelast tl flashWrite_steps FLASH_OVERRIDE app flat_map seq NFREQ];
    (split; [reflexivity|]);
    repeat constructor; intros x; try reflexivity; apply poke_GIE.
Qed.

(** C9: [flashWrite] tests for the factory calibration before anything
    else.  When it is missing the program ends in [errorLock(4)] with the
    information memory and the flash controller as they were, hence
    locked.  Otherwise, after every statement of [flashWrite], interrupts
    are disabled whenever the controller is unlocked or in write or erase
    mode, and [flashWrite] returns with the controller locked, out of
    write mode and with interrupts enabled.  The controller is locked
    whenever [main] gets to [flashWrite] ([flashWrite_entered_locked]). *)
Theorem C9_flashWrite_protocol b s :
  locked s = true ->
  (CALBC1_1MHZ s = 0xFF \/ CALDCO_1MHZ s = 0xFF ->
   exists s', flashWrite b s = Halted (Locked 4 s') /\
     flash s' = flash s /\ FCTL1 s' = FCTL1 s /\ FCTL3 s' = FCTL3 s /\
     locked s' = true) /\
  (CALBC1_1MHZ s <> 0xFF -> CALDCO_1MHZ s <> 0xFF ->
   let s' := run (flashWrite_steps b) s in
   flashWrite b s = Returned s' /\
   (forall x, In x (trace (flashWrite_steps b) s) ->
      locked x = false \/ write_mode x = true \/ erase_mode x = true ->
      GIE x = false) /\
   last (trace (flashWrite_steps b) s) s = s' /\
   locked s' = true /\ write_mode s' = false /\ erase_mode s' = false /\
   GIE s' = true).
Proof.
  intros Hl. split.
  - intros H. exists (set_BCSCTL1 (CALBC1_1MHZ (set_DCOCTL (CALDCO_1MHZ s) s))
                        (set_DCOCTL (CALDCO_1MHZ s) s)).
    rewrite (flashWrite_without_baseline b s H). repeat split. exact Hl.
  - intros H1 H2 s'.
    split; [apply flashWrite_with_baseline; assumption|].
    split; [|split; [apply last_trace|]].
    + destruct (flashWrite_steps_shape b) as (mid & E & Hmid).
      rewrite E. cbn [trace]. cbv zeta. rewrite trace_app.
      destruct (trace_GIE mid Hmid (dint s)) as [G1 G2].
      cbn [trace]. cbv zeta.
      generalize dependent (run mid (dint s)). intros y G1.
      intros x [<- | Hin]; [reflexivity|].
      apply in_app_or in Hin. destruct Hin as [Hin | Hin].
      * intros _. rewrite (G2 x Hin). reflexivity.
      * destruct Hin as [<- | [<- | [<- | []]]].
        -- intros _. exact G1.
        -- intros _. exact G1.
        -- unfold locked, write_mode, erase_mode. cbn.
           intros [H | [H | H]]; discriminate H.
    + subst s'. destruct (flashWrite_steps_shape b) as (mid & E & Hmid).
      rewrite E. change (run (dint :: ?l) s) with (run l (dint s)).
      rewrite run_app.
      generalize (run mid (dint s)). intros y.
      unfold locked, write_mode, erase_mode. cbn. repeat split.
Qed.

(** C9 at power-up with the factory calibration present. *)
Lemma C9_flashWrite_protocol_witness :
  locked (power_up factory) = true /\
  flashWrite release (power_up factory)
  = Returned (run (flashWrite_steps release) (power_up factory)) /\
  locked (run (flashWrite_steps release) (power_up factory)) = true.
Proof.
  destruct (C9_flashWrite_protocol release (power_up factory) eq_refl)
    as [_ H].
  destruct H as (E & _ & _ & L & _);
    [vm_compute; discriminate | vm_compute; discriminate |].
  split; [reflexivity | split; [exact E | exact L]].
Defined.

(** * The program as a whole on a bench *)

(** With the factory calibration present and an oscillator that lets
    every goal be reached, [main] calibrates the nine frequencies, writes
    them and ends in [loopFrequencies(1)]; each slot of the information
    memory then holds DCOCTL = 0*DCO0 + 1 and BCSCTL1 = XT2OFF + 0, and
    the flash controller is locked. *)
Example main_calibrates_and_stores :
  match main (bench rates_all) release 1 (power_up factory) with
  | Looping true s =>
      locked s = true /\
      map (frequency_setting true s) (seq 0 NFREQ) = repeat (0x01, 0x80) NFREQ
  | _ => False
  end.
Proof. vm_compute. split; reflexivity. Qed.

(** On the same bench with an erased information memory the calibration
    succeeds and [flashWrite] ends the program in [errorLock(4)]. *)
Example main_without_factory_calibration :
  match main (bench rates_all) release 1 (power_up erased) with
  | Locked 4 s => flash s 0x10AE = 0xFF /\ locked s = true
  | _ => False
  end.
Proof. vm_compute. split; reflexivity. Qed.

(** With TEST_MODE the information memory is left alone and the program
    loops through the table in RAM. *)
Example main_test_mode :
  match main (bench rates_all)
          {| FLASH_OVERRIDE := false; TEST_MODE := true |} 1
          (power_up factory) with
  | Looping false s =>
      flash s 0x10AE = 0xFF /\
      map (frequency_setting false s) (seq 0 NFREQ) = repeat (0x01, 0x80) NFREQ
  | _ => False
  end.
Proof. vm_compute. split; reflexivity. Qed.

(** * The calibration store, written and read back *)

Lemma testFlashEmpty_from_blank s : forall ps,
  testFlashEmpty_from ps s = 0 <->
  Forall (fun p => peek s p = 0xFF /\ peek s (p + 1) = 0xFF) ps.
Proof.
  induction ps as [|p ps IH]; cbn [testFlashEmpty_from].
  - split; auto.
  - destruct (Z.eqb_spec (peek s p) 0xFF) as [E1|E1]; cbn [negb].
    + destruct (Z.eqb_spec (peek s (p + 1)) 0xFF) as [E2|E2]; cbn [negb].
      * rewrite IH. split.
        -- intros H. constructor; auto.
        -- intros H. inversion H. assumption.
      * split; [discriminate|]. intros H. inversion H. tauto.
    + split; [discriminate|]. intros H. inversion H. tauto.
Qed.

Lemma testFlashEmpty_from_result s : forall ps,
  testFlashEmpty_from ps s = 0 \/ testFlashEmpty_from ps s = 1.
Proof.
  induction ps as [|p ps IH]; cbn [testFlashEmpty_from]; auto.
  destruct (negb (peek s p =? 0xFF)); auto.
  destruct (negb (peek s (p + 1) =? 0xFF)); auto.
Qed.

(** X1: [testFlashEmpty] returns 0 when each of the eighteen calibration
    bytes reads 0xFF and 1 otherwise. *)
Theorem testFlashEmpty_blank_iff s :
  (testFlashEmpty s = 0 \/ testFlashEmpty s = 1) /\
  (testFlashEmpty s = 0 <->
   forall i, (i < NFREQ)%nat ->
     peek s (nth i CalPos 0) = 0xFF /\ peek s (nth i CalPos 0 + 1) = 0xFF).
Proof.
  split; [apply testFlashEmpty_from_result|].
  unfold testFlashEmpty. rewrite testFlashEmpty_from_blank.
  rewrite Forall_forall. split.
  - intros H i Hi. apply H. apply nth_In. exact Hi.
  - intros H p Hp. destruct (In_nth _ _ 0 Hp) as (i & Hi & <-).
    apply H. exact Hi.
Qed.

Lemma blank_slot s i :
  testFlashEmpty s = 0 -> (i < NFREQ)%nat ->
  peek s (nth i CalPos 0) = 0xFF /\ peek s (nth i CalPos 0 + 1) = 0xFF.
Proof.
  unfold testFlashEmpty. rewrite testFlashEmpty_from_blank.
  rewrite Forall_forall. intros H Hi. apply H. apply nth_In. exact Hi.
Qed.

(** Bytes. *)
Lemma to_uint8_land x : to_uint8 x = Z.land x 0xFF.
Proof. unfold to_uint8. change 0xFF with (Z.ones 8). rewrite Z.land_ones by lia. reflexivity. Qed.

Lemma program_blank old v :
  to_uint8 old = 0xFF -> to_uint8 (Z.land old (to_uint8 v)) = to_uint8 v.
Proof.
  intros H. rewrite !to_uint8_land in *.
  rewrite <- Z.land_assoc. rewrite (Z.land_comm (Z.land v 255) 255).
  rewrite Z.land_assoc. rewrite H.
  rewrite (Z.land_comm 255). rewrite <- Z.land_assoc.
  change (Z.land 255 255) with 255. reflexivity.
Qed.

Lemma slot_after_write t s i :
  (i < NFREQ)%nat ->
  let s' := run (flashWrite_steps {| FLASH_OVERRIDE := false; TEST_MODE := t |}) s in
  flash s' (nth i CalPos 0)
  = Z.land (flash s (nth i CalPos 0)) (to_uint8 (nth i (CalDCO s) 0)) /\
  flash s' (nth i CalPos 0 + 1)
  = Z.land (flash s (nth i CalPos 0 + 1)) (to_uint8 (nth i (CalBC1 s) 0)).
Proof.
  intros Hi. unfold NFREQ in Hi.
  do 9 (destruct i as [|i]; [split; vm_compute; reflexivity|]). lia.
Qed.

Lemma slot_after_erase_write t s i :
  (i < NFREQ)%nat ->
  let s' := run (flashWrite_steps {| FLASH_OVERRIDE := true; TEST_MODE := t |}) s in
  flash s' (nth i CalPos 0) = Z.land 0xFF (to_uint8 (nth i (CalDCO s) 0)) /\
  flash s' (nth i CalPos 0 + 1) = Z.land 0xFF (to_uint8 (nth i (CalBC1 s) 0)).
Proof.
  intros Hi. unfold NFREQ in Hi.
  do 9 (destruct i as [|i]; [split; vm_compute; reflexivity|]). lia.
Qed.

Lemma run_flashWrite_read_back b s i :
  FLASH_OVERRIDE b = true \/ testFlashEmpty s = 0 ->
  (i < NFREQ)%nat ->
  frequency_setting true (run (flashWrite_steps b) s) i
  = (to_uint8 (nth i (CalDCO s) 0), to_uint8 (nth i (CalBC1 s) 0)).
Proof.
  intros H Hi. unfold frequency_setting, peek.
  destruct b as [[|] t].
  - destruct (slot_after_erase_write t s i Hi) as [E1 E2].
    cbv zeta in E1, E2. rewrite E1, E2.
    rewrite !program_blank by reflexivity. reflexivity.
  - destruct H as [H|H]; [discriminate H|].
    destruct (slot_after_write t s i Hi) as [E1 E2].
    cbv zeta in E1, E2. rewrite E1, E2.
    destruct (blank_slot s i H Hi) as [B1 B2]. unfold peek in B1, B2.
    rewrite !program_blank by assumption. reflexivity.
Qed.

(** X2: with the factory calibration present, on a blank store or with
    FLASH_OVERRIDE on any store, [flashWrite] returns and the store then
    reads back, slot by slot, the bytes of the tables [CalDCO] and
    [CalBC1]. *)
Theorem flashWrite_read_back b s :
  CALBC1_1MHZ s <> 0xFF -> CALDCO_1MHZ s <> 0xFF ->
  FLASH_OVERRIDE b = true \/ testFlashEmpty s = 0 ->
  exists s',
    flashWrite b s = Returned s' /\
    forall i, (i < NFREQ)%nat ->
      frequency_setting true s' i
      = (to_uint8 (nth i (CalDCO s) 0), to_uint8 (nth i (CalBC1 s) 0)).
Proof.
  intros H1 H2 H. exists (run (flashWrite_steps b) s).
  split; [apply flashWrite_with_baseline; assumption|].
  intros i Hi. apply run_flashWrite_read_back; assumption.
Qed.

Lemma flashWrite_read_back_witness :
  exists s',
    flashWrite release (power_up factory) = Returned s' /\
    frequency_setting true s' 0 = (0, 0).
Proof.
  destruct (flashWrite_read_back release (power_up factory))
    as (s' & E & H).
  - vm_compute. discriminate.
  - vm_compute. discriminate.
  - right. reflexivity.
  - exists s'. split; [exact E|]. rewrite (H 0%nat); [reflexivity|].
    unfold NFREQ. lia.
Defined.

Lemma poke_elsewhere a' v s a :
  a / 64 <> a' / 64 -> flash (poke a' v s) a = flash s a.
Proof.
  intros H. unfold poke.
  destruct (locked s); [reflexivity|].
  destruct (write_mode s).
  - cbn [flash set_flash].
    destruct (Z.eqb_spec a a'); [subst; tauto | reflexivity].
  - destruct (erase_mode s); [|reflexivity].
    cbn [flash set_flash].
    destruct (Z.eqb_spec (a / 64) (a' / 64)); [tauto | reflexivity].
Qed.

Lemma run_flash_elsewhere a l :
  Forall (fun f : State -> State => forall x, flash (f x) a = flash x a) l ->
  forall s, flash (run l s) a = flash s a.
Proof.
  induction 1 as [|f l Hf Hl IH]; intros s.
  - reflexivity.
  - change (run (f :: l) s) with (run l (f s)). rewrite IH. apply Hf.
Qed.

(** X3: [flashWrite] changes no byte outside the 64-byte segment of the
    calibration slots, whether it returns or ends in [errorLock]; the
    factory calibration of 1MHz in particular stays as it was. *)
Theorem flashWrite_keeps_other_segments b s a :
  a / 64 <> NCALDCO_500kHZ_ / 64 ->
  match flashWrite b s with
  | Returned s' => flash s' a = flash s a
  | Halted o => flash (outcome_state o) a = flash s a
  end.
Proof.
  intros Ha. unfold flashWrite.
  destruct ((CALBC1_1MHZ s =? 0xFF) || (CALDCO_1MHZ s =? 0xFF)).
  - reflexivity.
  - apply run_flash_elsewhere.
    destruct b as [[|] t];
      cbv [flashWrite_steps FLASH_OVERRIDE app flat_map seq NFREQ];
      repeat constructor; intros x; try reflexivity;
      apply poke_elsewhere; exact Ha.
Qed.

Lemma flashWrite_keeps_other_segments_witness :
  match flashWrite release (power_up factory) with
  | Returned s' => CALDCO_1MHZ s' = 0xD0 /\ CALBC1_1MHZ s' = 0x86
  | Halted _ => False
  end.
Proof.
  pose proof (flashWrite_keeps_other_segments release (power_up factory)
                CALDCO_1MHZ_) as H1.
  pose proof (flashWrite_keeps_other_segments release (power_up factory)
                CALBC1_1MHZ_) as H2.
  destruct (flashWrite release (power_up factory)) as [s'|o] eqn:E.
  - unfold CALDCO_1MHZ, CALBC1_1MHZ, peek.
    rewrite H1, H2; [split; reflexivity | vm_compute; discriminate
                    | vm_compute; discriminate].
  - vm_compute in E. discriminate E.
Defined.

(** * Register fields *)

Lemma Z_below_cases (P : Z -> Prop) (n : nat) :
  (forall k, (k < n)%nat -> P (Z.of_nat k)) ->
  forall z, 0 <= z < Z.of_nat n -> P z.
Proof.
  intros H z Hz. rewrite <- (Z2Nat.id z) by lia. apply H. lia.
Qed.

Section ConfigurationFacts.

Variable hw : Env.

(** X4: for a range 0..15, a step 0..7 and a modulation 0..31 the two
    registers written by [setDCO] hold the three values side by side:
    BCSCTL1 is XT2OFF plus the range, DCOCTL is the step above the
    modulation, and the masks of io430masks.h separate them again, so
    the configuration can be read back from the two bytes. *)
Theorem setDCO_registers_decode r d m s :
  0 <= r <= 15 -> 0 <= d <= 7 -> 0 <= m <= 31 ->
  let s' := setDCO hw r d m s in
  BCSCTL1 s' = XT2OFF + r /\
  DCOCTL s' = d * DCO0 + m /\
  GET_FIELD (BCSCTL1 s') RSEL_MASK = XT2OFF /\
  GET_FIELD (BCSCTL1 s') (0xFF - RSEL_MASK) = r * RSEL_OFFS /\
  GET_FIELD (DCOCTL s') MOD_MASK = d * DCO_OFFS /\
  GET_FIELD (DCOCTL s') DCO_MASK = m * MOD_OFFS.
Proof.
  intros Hr Hd Hm.
  pose proof (setDCO_session hw r d m s) as H. cbv zeta in *.
  destruct H as (_ & _ & _ & _ & HB & HD & _).
  rewrite HB, HD. clear HB HD.
  split; [|split].
  - unfold to_uint8, XT2OFF. rewrite Z.mod_small; lia.
  - unfold to_uint8, DCO0. rewrite Z.mod_small; lia.
  - revert r Hr d Hd m Hm.
    assert (HR : forall r, 0 <= r < Z.of_nat 16 ->
              GET_FIELD (to_uint8 (XT2OFF + r)) RSEL_MASK = XT2OFF /\
              GET_FIELD (to_uint8 (XT2OFF + r)) (0xFF - RSEL_MASK) = r * RSEL_OFFS).
    { apply Z_below_cases. intros k Hk.
      do 16 (destruct k as [|k]; [split; reflexivity|]). lia. }
    assert (HM : forall d, 0 <= d < Z.of_nat 8 -> forall m, 0 <= m < Z.of_nat 32 ->
              GET_FIELD (to_uint8 (d * DCO0 + m)) MOD_MASK = d * DCO_OFFS /\
              GET_FIELD (to_uint8 (d * DCO0 + m)) DCO_MASK = m * MOD_OFFS).
    { apply (Z_below_cases (fun d => forall m, 0 <= m < Z.of_nat 32 -> _)).
      intros k Hk. apply Z_below_cases. intros j Hj.
      do 8 (destruct k as [|k];
            [do 32 (destruct j as [|j]; [split; reflexivity|]); lia|]).
      lia. }
    intros r Hr d Hd m Hm.
    destruct (HR r) as [R1 R2]; [lia|].
    destruct (HM d) with (m := m) as [M1 M2]; [lia | lia |].
    tauto.
Qed.

End ConfigurationFacts.

Lemma setDCO_registers_decode_witness :
  let s' := setDCO (bench [1000]) 7 3 5 (power_up factory) in
  BCSCTL1 s' = 0x87 /\ DCOCTL s' = 0x65 /\
  GET_FIELD (DCOCTL s') MOD_MASK = 0x60 /\ GET_FIELD (DCOCTL s') DCO_MASK = 5.
Proof.
  destruct (setDCO_registers_decode (bench [1000]) 7 3 5 (power_up factory))
    as (H1 & H2 & _ & _ & H3 & H4); try lia.
  cbv zeta. repeat split; assumption.
Defined.

(** * Bounds of the search *)

Section SearchBounds.

Variable hw : Env.

(** Replaces the state after a session by a variable, keeping its
    globals, its registers and its event count. *)
Ltac measured s1 :=
  match goal with
  | |- context [setDCO hw ?r ?d ?m ?s] =>
      let H := fresh in
      pose proof (setDCO_session hw r d m s) as H; cbv zeta in H;
      destruct H as (_ & Htick & _ & _ & HB & HD & _ & Hrsel & Hdco & Hmod & _);
      generalize dependent (setDCO hw r d m s);
      intros s1 Htick HB HD Hrsel Hdco Hmod
  end.

Lemma rsel_loop_bounds goal : forall fuel prev s,
  0 <= rsel s <= 16 ->
  let s' := fst (rsel_loop hw fuel goal prev s) in
  0 <= rsel s' <= 16 /\
  (tick s <= tick s' <= tick s + 55 * fuel)%nat /\
  (rsel s < 16 -> (0 < fuel)%nat -> (tick s + 55 <= tick s')%nat).
Proof.
  induction fuel as [|fuel IH]; intros prev s Hr; cbv zeta.
  - replace (rsel_loop hw 0 goal prev s) with (s, prev)
      by (cbn [rsel_loop]; destruct (rsel s <? 16); reflexivity).
    cbn [fst]. lia.
  - destruct (Z.ltb_spec (rsel s) 16) as [Hlt | Hge].
    + rewrite rsel_loop_step by exact Hlt.
      measured s1.
      rewrite Hrsel, (to_int16_small (rsel s + 1)) by lia.
      destruct (goal <? AveragedDifference s1).
      * cbn [fst]. lia.
      * specialize (IH (AveragedDifference s1)
                      (set_rsel (rsel s + 1) s1)).
        cbv zeta in IH. cbn [rsel tick set_rsel] in IH.
        specialize (IH ltac:(lia)). lia.
    + rewrite rsel_loop_exit by exact Hge. cbn [fst]. lia.
Qed.

Lemma dco_loop_bounds goal : forall fuel s,
  0 <= dco s <= 8 ->
  let s' := dco_loop hw fuel goal s in
  0 <= dco s' <= 8 /\ rsel s' = rsel s /\
  (tick s <= tick s' <= tick s + 55 * fuel)%nat /\
  (dco s < 8 -> (0 < fuel)%nat -> (tick s + 55 <= tick s')%nat) /\
  (8 <= dco s + Z.of_nat fuel -> dco s' < 8 ->
   Z.of_nat (tick s) + 55 * (dco s' - dco s + 1) <= Z.of_nat (tick s')).
Proof.
  induction fuel as [|fuel IH]; intros s Hd; cbv zeta.
  - replace (dco_loop hw 0 goal s) with s
      by (cbn [dco_loop]; destruct (dco s <? 8); reflexivity).
    lia.
  - destruct (Z.ltb_spec (dco s) 8) as [Hlt | Hge].
    + rewrite dco_loop_step by exact Hlt.
      measured s1.
      rewrite Hdco, (to_int16_small (dco s + 1)) by lia.
      destruct (goal <? AveragedDifference s1).
      * lia.
      * specialize (IH (set_dco (dco s + 1) s1)).
        cbv zeta in IH. cbn [dco rsel tick set_dco] in IH.
        specialize (IH ltac:(lia)). lia.
    + rewrite dco_loop_exit by exact Hge. lia.
Qed.

Lemma mod_loop_bounds goal : forall fuel prev s,
  0 <= mod_ s <= 32 ->
  let s' := fst (mod_loop hw fuel goal prev s) in
  0 <= mod_ s' <= 32 /\ rsel s' = rsel s /\ dco s' = dco s /\
  (tick s <= tick s' <= tick s + 55 * fuel)%nat /\
  (mod_ s < 32 -> (0 < fuel)%nat -> (tick s + 55 <= tick s')%nat).
Proof.
  induction fuel as [|fuel IH]; intros prev s Hm; cbv zeta.
  - replace (mod_loop hw 0 goal prev s) with (s, prev)
      by (cbn [mod_loop]; destruct (mod_ s <? 32); reflexivity).
    cbn [fst]. lia.
  - destruct (Z.ltb_spec (mod_ s) 32) as [Hlt | Hge].
    + rewrite mod_loop_step by exact Hlt.
      measured s1.
      rewrite Hmod, (to_int16_small (mod_ s + 1)) by lia.
      destruct (goal <? AveragedDifference s1).
      * cbn [fst]. lia.
      * specialize (IH (AveragedDifference s1)
                      (set_mod (mod_ s + 1) s1)).
        cbv zeta in IH. cbn [mod_ dco rsel tick set_mod] in IH.
        specialize (IH ltac:(lia)). lia.
    + rewrite mod_loop_exit by exact Hge. cbn [fst]. lia.
Qed.

Lemma rsel_pick_bounds goal prev s :
  0 <= rsel s <= 16 ->
  0 <= rsel (rsel_pick goal prev s) <= 15 /\
  tick (rsel_pick goal prev s) = tick s.
Proof.
  intros H. unfold rsel_pick.
  destruct (Z.ltb_spec (rsel s) 16).
  - destruct (Z.eqb_spec (rsel s) 0); cbn [negb]; [lia|].
    destruct (sub16 goal prev <? sub16 (AveragedDifference s) goal).
    + cbn [rsel tick set_rsel]. rewrite to_int16_small; lia.
    + lia.
  - cbn [rsel tick set_rsel]. lia.
Qed.

Lemma mod_pick_bounds goal prev s :
  0 <= mod_ s <= 32 ->
  let s' := mod_pick goal prev s in
  0 <= mod_ s' <= 31 /\ rsel s' = rsel s /\ dco s' = dco s /\
  tick s' = tick s.
Proof.
  intros H. unfold mod_pick.
  destruct (Z.ltb_spec (mod_ s) 32).
  - destruct (Z.eqb_spec (mod_ s) 0); cbn [negb]; [cbv zeta; lia|].
    destruct (sub16 goal prev <? sub16 (AveragedDifference s) goal).
    + cbn [mod_ rsel dco tick set_mod]. rewrite to_int16_small; lia.
    + cbv zeta. lia.
  - cbn [mod_ rsel dco tick set_mod]. lia.
Qed.

Lemma special_case_bounds goal m0diff s :
  0 <= mod_ s <= 31 -> 0 <= dco s <= 6 ->
  let s' := special_case goal m0diff s in
  0 <= mod_ s' <= 31 /\ 0 <= dco s' <= 7 /\ rsel s' = rsel s /\
  tick s' = tick s.
Proof.
  intros Hm Hd. unfold special_case.
  destruct (mod_ s =? 31); [|cbv zeta; lia].
  destruct (to_uint16 m0diff <? sub16 (AveragedDifference s) goal);
    [|cbv zeta; lia].
  cbn [mod_ dco rsel tick set_mod set_dco]. rewrite to_int16_small; lia.
Qed.

(** What is known of [searchGoal] in one place: the ranges of the three
    globals, the registers and the number of capture events served. *)
Lemma searchGoal_with_bounds prev0 goal s :
  let r := searchGoal_with hw prev0 goal s in
  (tick s + 55 * 2 <= tick (snd r) <= tick s + 55 * 57)%nat /\
  (fst r = 0 ->
   (tick s + 55 * 5 <= tick (snd r))%nat /\
   0 <= rsel (snd r) <= 15 /\ 0 <= dco (snd r) <= 7 /\
   0 <= mod_ (snd r) <= 31 /\
   BCSCTL1 (snd r) = XT2OFF + rsel (snd r) /\
   DCOCTL (snd r) = dco (snd r) * DCO0 + mod_ (snd r)).
Proof.
  cbv zeta. unfold searchGoal_with, range_scan.
  pose proof (rsel_loop_bounds goal 16 prev0 (set_rsel 0 s)) as K1.
  cbv zeta in K1. cbn [rsel tick set_rsel] in K1.
  specialize (K1 ltac:(lia)).
  destruct (rsel_loop hw 16 goal prev0 (set_rsel 0 s)) as [s1 prev].
  cbn [fst] in K1.
  pose proof (rsel_pick_bounds goal prev s1 ltac:(lia)) as K2.
  generalize dependent (rsel_pick goal prev s1). intros s2 K2.
  unfold step_scan.
  pose proof (dco_loop_bounds goal 8 (set_dco 0 s2)) as K3.
  cbv zeta in K3. cbn [dco rsel tick set_dco] in K3.
  specialize (K3 ltac:(lia)).
  generalize dependent (dco_loop hw 8 goal (set_dco 0 s2)). intros s3 K3.
  destruct (Z.ltb_spec 7 (dco s3)).
  { cbn [fst snd]. split; [lia | intros H'; discriminate H']. }
  destruct (Z.eqb_spec (dco s3) 0).
  { cbn [fst snd]. split; [lia | intros H'; discriminate H']. }
  cbn [fst snd]. unfold mod_scan.
  set (s4 := set_dco (to_int16 (dco s3 - 1)) s3).
  assert (K4' : dco s4 = dco s3 - 1 /\ rsel s4 = rsel s3 /\ tick s4 = tick s3).
  { subst s4. cbn [dco rsel tick set_dco]. rewrite to_int16_small; lia. }
  clearbody s4.
  generalize (to_int16 (sub16 (AveragedDifference s3) goal)). intros m0diff.
  pose proof (mod_loop_bounds goal 32 prev (set_mod 0 s4)) as K4.
  cbv zeta in K4. cbn [mod_ dco rsel tick set_mod] in K4.
  specialize (K4 ltac:(lia)).
  destruct (mod_loop hw 32 goal prev (set_mod 0 s4)) as [s5 prev'].
  cbn [fst] in K4.
  pose proof (mod_pick_bounds goal prev' s5 ltac:(lia)) as K5. cbv zeta in K5.
  generalize dependent (mod_pick goal prev' s5). intros s6 K5.
  pose proof (special_case_bounds goal m0diff s6 ltac:(lia) ltac:(lia)) as K6.
  cbv zeta in K6.
  generalize dependent (special_case goal m0diff s6). intros s7 K6.
  measured s8.
  rewrite HB, HD, Hrsel, Hdco, Hmod.
  unfold to_uint8, XT2OFF, DCO0.
  rewrite !Z.mod_small by lia.
  split; [lia|]. intros _. lia.
Qed.

End SearchBounds.

(** * The step scan *)

Section StepScan.

Variable hw : Env.

Lemma range_scan_rsel goal prev0 s :
  0 <= rsel (fst (range_scan hw goal prev0 s)) <= 15.
Proof.
  unfold range_scan.
  pose proof (rsel_loop_bounds hw goal 16 prev0 (set_rsel 0 s)) as K1.
  cbv zeta in K1. cbn [rsel tick set_rsel] in K1.
  specialize (K1 ltac:(lia)).
  destruct (rsel_loop hw 16 goal prev0 (set_rsel 0 s)) as [s1 prev].
  cbn [fst] in *.
  apply (rsel_pick_bounds goal prev s1). lia.
Qed.

(** The pass of the step scan for the step [k + j], made from a state at
    step [k] when none of the steps from [k] on has measured above the
    goal: the range in [rsel] is programmed with step [k + j] and
    modulation 0. *)
Lemma dco_loop_pass (t0 : nat) (goal : Z) : forall j k s,
  dco s = Z.of_nat k -> tick s = (t0 + 55 * k)%nat -> (k + j < 8)%nat ->
  0 <= rsel s <= 15 ->
  (forall i, (k <= i < k + j)%nat -> reading hw (t0 + 55 * i) <= goal) ->
  let s' := dco_loop hw (S j) goal s in
  BCSCTL1 s' = XT2OFF + rsel s /\
  DCOCTL s' = Z.of_nat (k + j) * DCO0 + 0 /\
  AveragedDifference s' = reading hw (t0 + 55 * (k + j)).
Proof.
  induction j as [|j IH]; intros k s Hd Ht Hk Hr Hle; cbv zeta.
  - rewrite dco_loop_step by lia.
    pose proof (setDCO_session hw (rsel s) (dco s) 0 s) as H. cbv zeta in H.
    destruct H as (_ & Htick & _ & HAD & HB & HD & _ & Hrsel & Hdco & _).
    generalize dependent (setDCO hw (rsel s) (dco s) 0 s).
    intros s1 Htick HAD HB HD Hrsel Hdco.
    assert (E : (if goal <? AveragedDifference s1 then s1
                 else dco_loop hw 0 goal (set_dco (to_int16 (dco s1 + 1)) s1))
                = (if goal <? AveragedDifference s1 then s1
                   else set_dco (to_int16 (dco s1 + 1)) s1)).
    { destruct (goal <? AveragedDifference s1); [reflexivity|].
      cbn [dco_loop]. destruct (dco _ <? 8); reflexivity. }
    rewrite E. rewrite Nat.add_0_r.
    assert (B : BCSCTL1 s1 = XT2OFF + rsel s).
    { rewrite HB. unfold to_uint8, XT2OFF. apply Z.mod_small. lia. }
    assert (D : DCOCTL s1 = Z.of_nat k * DCO0 + 0).
    { rewrite HD, Hd. unfold to_uint8, DCO0. apply Z.mod_small. lia. }
    destruct (goal <? AveragedDifference s1);
      cbn [BCSCTL1 DCOCTL AveragedDifference set_dco];
      rewrite B, D, HAD, Ht; repeat split.
  - rewrite dco_loop_step by lia.
    pose proof (setDCO_session hw (rsel s) (dco s) 0 s) as H. cbv zeta in H.
    destruct H as (_ & Htick & _ & HAD & _ & _ & _ & Hrsel & Hdco & _).
    generalize dependent (setDCO hw (rsel s) (dco s) 0 s).
    intros s1 Htick HAD Hrsel Hdco.
    rewrite HAD, Ht.
    destruct (Z.ltb_spec goal (reading hw (t0 + 55 * k))).
    { specialize (Hle k). lia. }
    replace (k + S j)%nat with (S k + j)%nat by lia.
    rewrite <- Hrsel.
    apply (IH (S k) (set_dco (to_int16 (dco s1 + 1)) s1)).
    + cbn [dco set_dco]. rewrite Hdco, Hd, to_int16_small; lia.
    + cbn [tick set_dco]. lia.
    + lia.
    + cbn [rsel set_dco]. lia.
    + intros i Hi. apply Hle. lia.
Qed.

Lemma dco_loop_break (t0 : nat) (goal : Z) : forall j k s fuel,
  dco s = Z.of_nat k -> tick s = (t0 + 55 * k)%nat -> (k + j < 8)%nat ->
  (forall i, (k <= i < k + j)%nat -> reading hw (t0 + 55 * i) <= goal) ->
  goal < reading hw (t0 + 55 * (k + j)) -> (j < fuel)%nat ->
  dco_loop hw fuel goal s = dco_loop hw (S j) goal s.
Proof.
  induction j as [|j IH]; intros k s fuel Hd Ht Hk Hle Hgt Hf;
    (destruct fuel as [|fuel]; [lia|]).
  - rewrite !dco_loop_step by lia.
    pose proof (setDCO_session hw (rsel s) (dco s) 0 s) as H. cbv zeta in H.
    destruct H as (_ & _ & _ & HAD & _).
    generalize dependent (setDCO hw (rsel s) (dco s) 0 s). intros s1 HAD.
    rewrite HAD, Ht. rewrite Nat.add_0_r in Hgt.
    destruct (Z.ltb_spec goal (reading hw (t0 + 55 * k))); [reflexivity | lia].
  - rewrite !dco_loop_step by lia.
    pose proof (setDCO_session hw (rsel s) (dco s) 0 s) as H. cbv zeta in H.
    destruct H as (_ & Htick & _ & HAD & _ & _ & _ & _ & Hdco & _).
    generalize dependent (setDCO hw (rsel s) (dco s) 0 s).
    intros s1 Htick HAD Hdco.
    rewrite HAD, Ht.
    destruct (Z.ltb_spec goal (reading hw (t0 + 55 * k))).
    { specialize (Hle k). lia. }
    apply (IH (S k)).
    + cbn [dco set_dco]. rewrite Hdco, Hd, to_int16_small; lia.
    + cbn [tick set_dco]. lia.
    + lia.
    + intros i Hi. apply Hle. lia.
    + replace (S k + j)%nat with (k + S j)%nat by lia. exact Hgt.
    + lia.
Qed.

(** The registers the step scan leaves when [step] is the first step
    that measures above the goal. *)
Lemma step_scan_registers goal s1 step :
  0 <= rsel s1 <= 15 -> (step < 8)%nat ->
  (forall d, (d < step)%nat -> reading hw (tick s1 + 55 * d) <= goal) ->
  goal < reading hw (tick s1 + 55 * step) ->
  BCSCTL1 (step_scan hw goal s1) = XT2OFF + rsel s1 /\
  DCOCTL (step_scan hw goal s1) = Z.of_nat step * DCO0 + 0.
Proof.
  intros Hr Hs Hle Hgt. unfold step_scan.
  assert (Eb : dco_loop hw 8 goal (set_dco 0 s1)
               = dco_loop hw (S step) goal (set_dco 0 s1)).
  { apply (dco_loop_break (tick s1) goal step 0);
      [reflexivity | cbn [tick set_dco]; lia | lia | | exact Hgt | lia].
    intros i Hi. apply Hle. lia. }
  rewrite Eb.
  destruct (dco_loop_pass (tick s1) goal step 0 (set_dco 0 s1))
    as (PB & PD & _);
    [reflexivity | cbn [tick set_dco]; lia | lia | exact Hr | |].
  - intros i Hi. apply Hle. lia.
  - split; [exact PB | exact PD].
Qed.

(** C2: the step scan measures the steps 0, 1, ... of the chosen range
    at modulation 0: [pass d] is the state when the loop has made its
    pass for step [d], and as long as no step before [d] has measured
    above the goal, BCSCTL1 then holds the chosen range, DCOCTL holds
    step [d] with modulation 0 and the measurement taken is [D d].
    [searchGoal] returns 1 exactly when no step gives a measurement
    above the goal or step 0 already does; when the first step above
    the goal is [step > 0], the scan ends after the pass for that step,
    the modulation scan is entered with [dco = step - 1] and the
    recorded error of [step], and [searchGoal] returns 0. *)
Theorem C2_not_achievable prev0 goal s :
  let s1 := fst (range_scan hw goal prev0 s) in
  let prev := snd (range_scan hw goal prev0 s) in
  let D := fun d : nat => reading hw (tick s1 + 55 * d) in
  let pass := fun d : nat => dco_loop hw (S d) goal (set_dco 0 s1) in
  0 <= rsel s1 <= 15 /\
  (forall d, (d < 8)%nat -> (forall i, (i < d)%nat -> D i <= goal) ->
     BCSCTL1 (pass d) = XT2OFF + rsel s1 /\
     DCOCTL (pass d) = Z.of_nat d * DCO0 + 0 /\
     AveragedDifference (pass d) = D d) /\
  (fst (searchGoal_with hw prev0 goal s) = 1 <->
   ((forall d, (d < 8)%nat -> D d <= goal) \/ goal < D 0%nat)) /\
  (forall step, (0 < step < 8)%nat ->
     (forall d, (d < step)%nat -> D d <= goal) -> goal < D step ->
     let s2 := step_scan hw goal s1 in
     let s3 := mod_scan hw goal (to_int16 (sub16 (D step) goal)) prev
                 (set_dco (Z.of_nat step - 1) s2) in
     dco s2 = Z.of_nat step /\ AveragedDifference s2 = D step /\
     BCSCTL1 s2 = XT2OFF + rsel s1 /\
     DCOCTL s2 = Z.of_nat step * DCO0 + 0 /\
     searchGoal_with hw prev0 goal s
     = (0, setDCO hw (rsel s3) (dco s3) (mod_ s3) s3)).
Proof.
  intros s1 prev D pass.
  assert (Hover : forall step, (step < 8)%nat ->
            (forall d, (d < step)%nat -> D d <= goal) -> goal < D step ->
            dco (step_scan hw goal s1) = Z.of_nat step /\
            AveragedDifference (step_scan hw goal s1) = D step).
  { intros step Hs Hle Hgt. unfold step_scan.
    destruct (dco_loop_over hw (tick s1) goal 8 0 (set_dco 0 s1) step)
      as (R1 & R2 & _); try reflexivity; try lia.
    - simpl. lia.
    - intros i Hi. apply Hle. lia.
    - exact Hgt.
    - auto. }
  assert (Hunder : (forall d, (d < 8)%nat -> D d <= goal) ->
            dco (step_scan hw goal s1) = 8).
  { intros Hle. unfold step_scan.
    apply (dco_loop_under hw (tick s1) goal 8 0); try reflexivity.
    - simpl. lia.
    - intros i Hi. apply Hle. lia. }
  assert (E : searchGoal_with hw prev0 goal s =
              let s2 := step_scan hw goal s1 in
              if 7 <? dco s2 then (1, s2)
              else if dco s2 =? 0 then (1, s2)
              else
                let s3 := mod_scan hw goal
                            (to_int16 (sub16 (AveragedDifference s2) goal))
                            prev (set_dco (to_int16 (dco s2 - 1)) s2) in
                (0, setDCO hw (rsel s3) (dco s3) (mod_ s3) s3)).
  { unfold searchGoal_with, s1, prev.
    destruct (range_scan hw goal prev0 s) as [sa pa]. reflexivity. }
  cbv zeta in E.
  assert (Hr : 0 <= rsel s1 <= 15) by apply range_scan_rsel.
  split; [exact Hr|]. split; [|split; [split|]].
  - intros d Hd Hle. subst pass. cbv beta.
    replace (rsel s1) with (rsel (set_dco 0 s1)) by reflexivity.
    apply (dco_loop_pass (tick s1) goal d 0 (set_dco 0 s1));
      [reflexivity | cbn [tick set_dco]; lia | lia | exact Hr |].
    intros i Hi. apply Hle. lia.
  - intros Hret.
    destruct (first_over_cases D goal 8) as [Hle | (r & Hr' & Hle & Hgt)];
      [left; exact Hle|].
    destruct r as [|r]; [right; exact Hgt|]. change (S r) with (1 + r)%nat in *.
    exfalso. destruct (Hover ((1 + r)%nat) Hr' Hle Hgt) as [Hd _].
    rewrite E, Hd in Hret.
    destruct (Z.ltb_spec 7 (Z.of_nat ((1 + r)%nat))); [lia|].
    destruct (Z.eqb_spec (Z.of_nat ((1 + r)%nat)) 0); [lia|].
    cbn [fst] in Hret. discriminate.
  - intros [Hle | Hgt].
    + rewrite E, (Hunder Hle). reflexivity.
    + destruct (Hover 0%nat) as [Hd _]; [lia | intros; lia | exact Hgt |].
      rewrite E, Hd. reflexivity.
  - intros step Hs Hle Hgt. cbv zeta.
    destruct (Hover step) as [Hd Ha]; [lia | exact Hle | exact Hgt |].
    split; [exact Hd|]. split; [exact Ha|].
    destruct (step_scan_registers goal s1 step Hr ltac:(lia) Hle Hgt)
      as [HB HD].
    split; [exact HB|]. split; [exact HD|].
    rewrite E, Ha, Hd.
    destruct (Z.ltb_spec 7 (Z.of_nat step)); [lia|].
    destruct (Z.eqb_spec (Z.of_nat step) 0); [lia|].
    rewrite (to_int16_small (Z.of_nat step - 1)) by lia. reflexivity.
Qed.

End StepScan.

(** C2 on the bench [rates_first] with goal 977: range 0 is chosen; step
    0 measures 900 and step 1 measures 1000, with BCSCTL1 = XT2OFF + 0
    and DCOCTL = 1 * DCO0, so the search goes on from step 0 and returns
    0. *)
Lemma C2_not_achievable_witness :
  let s1 := fst (range_scan (bench rates_first) 977 0 (power_up factory)) in
  BCSCTL1 (dco_loop (bench rates_first) 2 977 (set_dco 0 s1)) = 0x80 /\
  DCOCTL (dco_loop (bench rates_first) 2 977 (set_dco 0 s1)) = 0x20 /\
  AveragedDifference (dco_loop (bench rates_first) 2 977 (set_dco 0 s1))
  = 1000 /\
  fst (searchGoal_with (bench rates_first) 0 977 (power_up factory)) = 0.
Proof.
  destruct (C2_not_achievable (bench rates_first) 0 977 (power_up factory))
    as (_ & P & _ & H).
  cbv zeta.
  destruct (P 1%nat) as (B & D & A).
  - lia.
  - intros i Hi. assert (i = 0%nat) by lia. subst i. vm_compute. discriminate.
  - destruct (H 1%nat) as (_ & _ & _ & _ & E).
    + lia.
    + intros d Hd. assert (d = 0%nat) by lia. subst d. vm_compute. discriminate.
    + vm_compute. reflexivity.
    + split; [rewrite B; vm_compute; reflexivity|].
      split; [exact D|].
      split; [rewrite A; vm_compute; reflexivity|].
      rewrite E. reflexivity.
Defined.

(** * The exits of the controller *)

Section ControllerExits.

Variable hw : Env.

Lemma cycles_loop_unreachable goal : forall fuel j s k,
  (j + fuel = 10)%nat -> (k < fuel)%nat ->
  (forall k', (k' < k)%nat ->
     attempt_failed hw goal (after_attempts hw goal k' s)) ->
  fst (searchGoal hw goal (after_attempts hw goal k s)) <> 0 ->
  cycles_loop hw fuel goal (Z.of_nat j) s
  = Halted (errorLock 2 (after_attempts hw goal (S k) s)).
Proof.
  induction fuel as [|fuel IH]; intros j s k Hj Hk Hfail Hbad; [lia|].
  rewrite cycles_loop_step by (unfold MAX_CYCLES; lia).
  destruct k as [|k].
  - cbn [after_attempts] in *.
    destruct (Z.eqb_spec (fst (searchGoal hw goal s)) 0); [tauto|].
    reflexivity.
  - destruct (Hfail 0%nat) as [Hr Ht]; [lia|]. cbn [after_attempts] in Hr, Ht.
    rewrite Hr, Ht. cbn [Z.eqb negb].
    rewrite to_int16_small by lia.
    replace (Z.of_nat j + 1) with (Z.of_nat (S j)) by lia.
    rewrite (after_attempts_shift hw goal (S k)).
    apply IH; [lia | lia | |].
    + intros k' Hk'. rewrite <- after_attempts_shift. apply Hfail. lia.
    + rewrite <- after_attempts_shift. exact Hbad.
Qed.

(** X8: the two fatal exits of a target that the tolerance does not
    decide.  With the oscillator-fault flag set, [main] ends in
    [errorLock(1)] before any measurement for that target.  When a call
    of [searchGoal] returns 1, after any number of rejected attempts,
    [main] ends in [errorLock(2)] at once: that target is not tried
    again. *)
Theorem calibrate_fatal_exits i s :
  let goal := nth i GoalN 0 in
  let att := fun k : nat => after_attempts hw goal k s in
  (LFXT1OF_at hw (tick s) = true ->
   calibrate hw i s = Halted (errorLock 1 s)) /\
  (LFXT1OF_at hw (tick s) = false ->
   forall k, (k < 10)%nat ->
     (forall k', (k' < k)%nat -> attempt_failed hw goal (att k')) ->
     fst (searchGoal hw goal (att k)) <> 0 ->
     calibrate hw i s = Halted (errorLock 2 (att (S k)))).
Proof.
  intros goal att. unfold calibrate. split.
  - intros ->. reflexivity.
  - intros -> k Hk Hfail Hbad. fold goal.
    pose proof (cycles_loop_unreachable goal 10 0 s k eq_refl Hk Hfail Hbad)
      as E.
    cbn [Z.of_nat] in E. rewrite E. reflexivity.
Qed.

Lemma cycles_loop_halted goal : forall fuel j s o,
  cycles_loop hw fuel goal j s = Halted o ->
  exists s', o = errorLock 2 s' /\ store_kept s s'.
Proof.
  induction fuel as [|fuel IH]; intros j s o E.
  - cbn [cycles_loop] in E. destruct (j <? MAX_CYCLES); discriminate E.
  - cbn [cycles_loop] in E. destruct (j <? MAX_CYCLES); [|discriminate E].
    pose proof (searchGoal_store_kept hw goal s) as K.
    destruct (searchGoal hw goal s) as [r s1]. cbn [snd] in K.
    destruct (negb (r =? 0)).
    + injection E as <-. exists s1. split; [reflexivity | exact K].
    + destruct (within_tolerance _); [discriminate E|].
      destruct (IH _ _ _ E) as (s' & Ho & K').
      exists s'. split; [exact Ho|].
      eapply store_kept_trans; eassumption.
Qed.

Lemma calibrate_halted i s o :
  calibrate hw i s = Halted o ->
  exists e s', o = errorLock e s' /\ (e = 1 \/ e = 2 \/ e = 5) /\
               store_kept s s'.
Proof.
  unfold calibrate. destruct (LFXT1OF_at hw (tick s)).
  - intros E. injection E as <-. exists 1, s.
    split; [reflexivity|]. split; [auto | apply store_kept_refl].
  - destruct (cycles_loop hw 10 (nth i GoalN 0) 0 s) as [[j s1]|o'] eqn:E.
    + destruct (MAX_CYCLES <=? j); [|discriminate].
      intros H. injection H as <-. exists 5, s1.
      apply cycles_loop_store_kept in E.
      split; [reflexivity|]. split; [auto | exact E].
    + intros H. injection H as <-.
      destruct (cycles_loop_halted _ _ _ _ _ E) as (s' & Ho & K).
      exists 2, s'. split; [exact Ho|]. split; [auto | exact K].
Qed.

Lemma frequencies_loop_halted : forall fuel i s o,
  frequencies_loop hw fuel i s = Halted o ->
  exists e s', o = errorLock e s' /\ (e = 1 \/ e = 2 \/ e = 5) /\
               store_kept s s'.
Proof.
  induction fuel as [|fuel IH]; intros i s o E.
  - cbn [frequencies_loop] in E. destruct (i <? NFREQ)%nat; discriminate E.
  - cbn [frequencies_loop] in E. destruct (i <? NFREQ)%nat; [|discriminate E].
    destruct (calibrate hw i s) as [s1|o'] eqn:E1.
    + destruct (IH _ _ _ E) as (e & s' & Ho & He & K).
      exists e, s'. split; [exact Ho|]. split; [exact He|].
      eapply store_kept_trans; [eapply calibrate_store_kept; exact E1 | exact K].
    + injection E as <-. eapply calibrate_halted. exact E1.
Qed.

Lemma errorLock_flash e s : flash (outcome_state (errorLock e s)) = flash s.
Proof. reflexivity. Qed.

(** X9: however the hardware behaves, [main] ends in [errorLock] only
    with one of the codes 1, 2, 4 and 5, and then the information memory
    is as it was at power-up; it ends in [loopFrequencies(0)] only with
    TEST_MODE, again with the information memory untouched, and in
    [loopFrequencies(1)] only without TEST_MODE.  It is still in
    [startClk32] only when every test so far has found the
    oscillator-fault flag set, and the information memory is then
    untouched as well. *)
Theorem main_outcomes b fuel fl :
  match main hw b fuel (power_up fl) with
  | Locked e s => (e = 1 \/ e = 2 \/ e = 4 \/ e = 5) /\ flash s = fl
  | Looping false s => TEST_MODE b = true /\ flash s = fl
  | Looping true s => TEST_MODE b = false
  | Starting s =>
      flash s = fl /\ forall j, (j < fuel)%nat -> LFXT1OF_start hw j = true
  end.
Proof.
  unfold main, configureAll. cbv zeta.
  destruct (startClk32_tests (LFXT1OF_start hw) fuel 0) as [k|] eqn:E0.
  2:{ split; [reflexivity|]. intros j Hj.
      apply (startClk32_tests_running _ _ _ E0). lia. }
  set (s0 := eint (set_BCSCTL1
                     (CALBC1_1MHZ (set_DCOCTL (CALDCO_1MHZ (power_up fl))
                                     (power_up fl)))
                     (set_DCOCTL (CALDCO_1MHZ (power_up fl)) (power_up fl)))).
  assert (F0 : flash s0 = fl) by reflexivity. clearbody s0.
  destruct (negb (TEST_MODE b) && negb (FLASH_OVERRIDE b)
            && negb (testFlashEmpty s0 =? 0)) eqn:C.
  - destruct (TEST_MODE b); [discriminate C | reflexivity].
  - destruct (frequencies_loop hw NFREQ 0 s0) as [s1|o] eqn:E.
    + apply frequencies_loop_store_kept in E. destruct E as (E1 & _).
      destruct (TEST_MODE b) eqn:T.
      * cbn [loopFrequencies]. split; [reflexivity|].
        cbn [flash set_BCSCTL1 set_DCOCTL]. congruence.
      * unfold flashWrite.
        destruct ((CALBC1_1MHZ _ =? 0xFF) || (CALDCO_1MHZ _ =? 0xFF)).
        -- cbn [errorLock flash set_BCSCTL1 set_DCOCTL].
           split; [tauto | congruence].
        -- reflexivity.
    + destruct (frequencies_loop_halted _ _ _ _ E)
        as (e & s' & -> & He & (K & _)).
      cbn [errorLock flash set_BCSCTL1 set_DCOCTL].
      split; [tauto | congruence].
Qed.

Lemma poke_tables a v s :
  CalDCO (poke a v s) = CalDCO s /\ CalBC1 (poke a v s) = CalBC1 s.
Proof.
  unfold poke. destruct (locked s), (write_mode s), (erase_mode s);
    split; reflexivity.
Qed.

Lemma run_tables l :
  Forall (fun f : State -> State =>
            forall x, CalDCO (f x) = CalDCO x /\ CalBC1 (f x) = CalBC1 x) l ->
  forall s, CalDCO (run l s) = CalDCO s /\ CalBC1 (run l s) = CalBC1 s.
Proof.
  induction 1 as [|f l Hf Hl IH]; intros s.
  - split; reflexivity.
  - change (run (f :: l) s) with (run l (f s)).
    destruct (IH (f s)) as [I1 I2]. destruct (Hf s) as [F1 F2].
    split; congruence.
Qed.

Lemma trace_CalDCO b s :
  CalDCO (run (flashWrite_steps b) s) = CalDCO s /\
  CalBC1 (run (flashWrite_steps b) s) = CalBC1 s.
Proof.
  apply run_tables.
  destruct b as [[|] t];
    cbv [flashWrite_steps FLASH_OVERRIDE app flat_map seq NFREQ];
    repeat (apply Forall_cons;
            [intros x; first [split; reflexivity | apply poke_tables]|]);
    apply Forall_nil.
Qed.

(** X10: when the set-up has returned and the calibration of the nine
    targets succeeds in a build without TEST_MODE, on a blank store or
    with FLASH_OVERRIDE, and the
    factory calibration is present, [main] ends in [loopFrequencies(1)]
    and the values that loop programs from the store are, slot by slot,
    the bytes the calibration left in [CalDCO] and [CalBC1]. *)
Theorem main_runs_from_stored_results b fuel fl s0 s :
  TEST_MODE b = false ->
  FLASH_OVERRIDE b = true \/ testFlashEmpty (power_up fl) = 0 ->
  to_uint8 (fl CALBC1_1MHZ_) <> 0xFF -> to_uint8 (fl CALDCO_1MHZ_) <> 0xFF ->
  configureAll hw fuel (power_up fl) = Returned s0 ->
  frequencies_loop hw NFREQ 0 (eint s0) = Returned s ->
  exists s',
    main hw b fuel (power_up fl) = Looping true s' /\
    CalDCO s' = CalDCO s /\ CalBC1 s' = CalBC1 s /\
    forall i, (i < NFREQ)%nat ->
      frequency_setting true s' i
      = (to_uint8 (nth i (CalDCO s) 0), to_uint8 (nth i (CalBC1 s) 0)).
Proof.
  intros T H B1 B2 E0 E.
  pose proof (configureAll_returned _ _ _ _ E0) as [Es0 _].
  pose proof (frequencies_loop_store_kept _ _ _ _ _ E) as (K & _).
  rewrite Es0 in K.
  cbn [flash eint set_GIE set_BCSCTL1 set_DCOCTL power_up] in K.
  set (s2 := set_BCSCTL1 (CALBC1_1MHZ (set_DCOCTL (CALDCO_1MHZ s) s))
               (set_DCOCTL (CALDCO_1MHZ s) s)).
  assert (F2 : flash s2 = fl) by exact K.
  assert (T2 : FLASH_OVERRIDE b = true \/ testFlashEmpty s2 = 0).
  { destruct H as [H|H]; [left; exact H|]. right.
    unfold testFlashEmpty in *. rewrite testFlashEmpty_from_blank in *.
    unfold peek in *. rewrite F2. exact H. }
  exists (run (flashWrite_steps b) s2).
  split; [|split; [|split]].
  - unfold main. rewrite E0, T. cbv zeta.
    assert (C : negb false && negb (FLASH_OVERRIDE b)
                && negb (testFlashEmpty (eint s0) =? 0)
                = false).
    { destruct H as [-> | H]; [reflexivity|].
      replace (testFlashEmpty (eint s0))
        with (testFlashEmpty (power_up fl)) by (rewrite Es0; reflexivity).
      rewrite H. destruct (FLASH_OVERRIDE b); reflexivity. }
    rewrite C, E. fold s2.
    rewrite flashWrite_with_baseline; [reflexivity | |];
      unfold CALBC1_1MHZ, CALDCO_1MHZ, peek; rewrite F2; assumption.
  - pose proof (trace_CalDCO b s2) as [H1 _]. exact H1.
  - pose proof (trace_CalDCO b s2) as [_ H1]. exact H1.
  - intros i Hi. apply (run_flashWrite_read_back b s2 i T2 Hi).
Qed.

End ControllerExits.

(** * Leds, macros and the frequency index *)

(** A property of the numbers below [n], checked by running it. *)
Lemma below_checked (n : nat) (P : Z -> bool) :
  forallb P (map Z.of_nat (seq 0 n)) = true ->
  forall z, 0 <= z < Z.of_nat n -> P z = true.
Proof.
  intros H z Hz. rewrite forallb_forall in H. apply H.
  rewrite <- (Z2Nat.id z) by lia. apply in_map. apply in_seq. lia.
Qed.

Lemma longDelay_spec p :
  elapsed (longDelay p) = elapsed p + 200000 /\
  P1OUT (longDelay p) = P1OUT p /\ TACCTL0 (longDelay p) = TACCTL0 p /\
  bcount (longDelay p) = bcount p.
Proof. unfold longDelay. cbn. repeat split. lia. Qed.

Lemma RESET_SET_checked :
  forallb (fun b => forallb (fun x =>
     (Z.land (RESET_FLAG (SET_FLAG x b) b) b =? 0) &&
     (Z.land (RESET_FLAG (SET_FLAG x b) b) (0xFF - b) =? Z.land x (0xFF - b)))
     (map Z.of_nat (seq 0 256))) (map Z.of_nat (seq 0 256)) = true.
Proof. vm_compute. reflexivity. Qed.

Lemma RESET_SET x b :
  0 <= x < 256 -> 0 <= b < 256 ->
  Z.land (RESET_FLAG (SET_FLAG x b) b) b = 0 /\
  Z.land (RESET_FLAG (SET_FLAG x b) b) (0xFF - b) = Z.land x (0xFF - b).
Proof.
  intros Hx Hb.
  pose proof (below_checked 256 _ RESET_SET_checked b ltac:(lia)) as H.
  cbv beta in H.
  pose proof (below_checked 256 _ H x ltac:(lia)) as H1. cbv beta in H1.
  rewrite andb_true_iff, !Z.eqb_eq in H1. exact H1.
Qed.

Lemma ledBlink_fields bits p :
  P1OUT (ledBlink bits p) = RESET_FLAG (SET_FLAG (P1OUT p) bits) bits /\
  elapsed (ledBlink bits p) = elapsed p + 200000.
Proof.
  unfold ledBlink. cbv zeta.
  destruct (longDelay_spec (set_P1OUT (SET_FLAG (P1OUT p) bits) p))
    as (He & Ho & _).
  generalize dependent (longDelay (set_P1OUT (SET_FLAG (P1OUT p) bits) p)).
  intros q He Ho. cbn [P1OUT elapsed set_P1OUT] in *.
  rewrite Ho, He. split; reflexivity.
Qed.

(** X18: [ledBlink] leaves the given bits of P1OUT off, whatever they
    were, keeps the other bits and takes one [longDelay] of 200000
    cycles. *)
Theorem ledBlink_leaves_off bits p :
  0 <= P1OUT p < 256 -> 0 <= bits < 256 ->
  let q := ledBlink bits p in
  Z.land (P1OUT q) bits = 0 /\
  Z.land (P1OUT q) (0xFF - bits) = Z.land (P1OUT p) (0xFF - bits) /\
  elapsed q = elapsed p + 200000.
Proof.
  intros Hp Hb. cbv zeta.
  destruct (ledBlink_fields bits p) as [-> ->].
  destruct (RESET_SET (P1OUT p) bits Hp Hb) as [R1 R2].
  split; [exact R1 | split; [exact R2 | reflexivity]].
Qed.

Lemma ledBlink_leaves_off_witness :
  let q := ledBlink (LED_GREEN + LED_RED)
             (set_P1OUT (LED_RED + F_OUT) ports_reset) in
  P1OUT q = F_OUT /\ elapsed q = 200000.
Proof.
  destruct (ledBlink_leaves_off (LED_GREEN + LED_RED)
              (set_P1OUT (LED_RED + F_OUT) ports_reset))
    as (_ & _ & He);
    [vm_compute; split; [discriminate | reflexivity]
    |vm_compute; split; [discriminate | reflexivity] |].
  cbv zeta. split; [reflexivity | exact He].
Defined.

Lemma SET_FIELD_checked :
  forallb (fun d => forallb (fun m => forallb (fun reg =>
     (GET_FIELD (SET_FIELD_WOFFSET reg DCO_MASK d DCO_OFFS) DCO_MASK
      =? GET_FIELD reg DCO_MASK) &&
     (GET_FIELD (SET_FIELD_WOFFSET reg DCO_MASK d DCO_OFFS) MOD_MASK
      =? d * DCO_OFFS) &&
     (SET_FIELD_WOFFSET (SET_FIELD_WOFFSET reg DCO_MASK d DCO_OFFS)
        MOD_MASK m MOD_OFFS =? d * DCO0 + m))
     (map Z.of_nat (seq 0 256))) (map Z.of_nat (seq 0 32)))
    (map Z.of_nat (seq 0 8)) = true.
Proof. vm_compute. reflexivity. Qed.

(** X17: the field macros of io430masks.h on an 8-bit register.  Setting
    the DCO field to a step 0..7 keeps the bits outside the field, which
    is what [GET_FIELD] with the mask of the field returns, and puts the
    step in the field; setting the MOD field next to a modulation 0..31
    gives the byte [dco*DCO0+mod] that [setDCO] writes, whatever the
    register held before. *)
Theorem SET_FIELD_WOFFSET_fields reg d m :
  0 <= reg < 256 -> 0 <= d <= 7 -> 0 <= m <= 31 ->
  let r1 := SET_FIELD_WOFFSET reg DCO_MASK d DCO_OFFS in
  let r2 := SET_FIELD_WOFFSET r1 MOD_MASK m MOD_OFFS in
  GET_FIELD r1 DCO_MASK = GET_FIELD reg DCO_MASK /\
  GET_FIELD r1 MOD_MASK = d * DCO_OFFS /\
  r2 = d * DCO0 + m.
Proof.
  intros Hr Hd Hm. cbv zeta.
  pose proof (below_checked 8 _ SET_FIELD_checked d ltac:(lia)) as H.
  cbv beta in H.
  pose proof (below_checked 32 _ H m ltac:(lia)) as H1. cbv beta in H1.
  pose proof (below_checked 256 _ H1 reg ltac:(lia)) as H2. cbv beta in H2.
  rewrite !andb_true_iff, !Z.eqb_eq in H2. tauto.
Qed.

Lemma SET_FIELD_WOFFSET_fields_witness :
  SET_FIELD_WOFFSET (SET_FIELD_WOFFSET 0xFF DCO_MASK 3 DCO_OFFS)
    MOD_MASK 5 MOD_OFFS = 0x65.
Proof.
  destruct (SET_FIELD_WOFFSET_fields 0xFF 3 5) as (_ & _ & H); try lia.
  exact H.
Defined.

(** X15: the index of [loopFrequencies] stays below NFREQ, goes to the
    next target on each push and comes back to where it was after nine
    pushes. *)
Theorem next_frequency_cycles i :
  (i < NFREQ)%nat ->
  (next_frequency i < NFREQ)%nat /\
  next_frequency i = (S i mod NFREQ)%nat /\
  Nat.iter 9 next_frequency i = i.
Proof.
  unfold NFREQ. intros Hi.
  do 9 (destruct i as [|i]; [vm_compute; repeat split; lia|]). lia.
Qed.

Lemma next_frequency_cycles_witness :
  next_frequency 8 = 0%nat /\ next_frequency 3 = 4%nat.
Proof.
  destruct (next_frequency_cycles 8) as (_ & H8 & _); [unfold NFREQ; lia|].
  destruct (next_frequency_cycles 3) as (_ & H3 & _); [unfold NFREQ; lia|].
  split; [exact H8 | exact H3].
Defined.

(** * Interrupts and peripherals *)

(** ** Timer overflow interrupt *)

Lemma lxor_LED_GREEN_checked :
  forallb (fun x =>
     (to_uint8 (Z.lxor x LED_GREEN) =? Z.lxor x LED_GREEN) &&
     (Z.lxor (Z.lxor x LED_GREEN) LED_GREEN =? x) &&
     (Z.lxor x LED_GREEN <? 256) && (0 <=? Z.lxor x LED_GREEN))
    (map Z.of_nat (seq 0 256)) = true.
Proof. vm_compute. reflexivity. Qed.

Lemma lxor_LED_GREEN x :
  0 <= x < 256 ->
  to_uint8 (Z.lxor x LED_GREEN) = Z.lxor x LED_GREEN /\
  Z.lxor (Z.lxor x LED_GREEN) LED_GREEN = x /\
  0 <= Z.lxor x LED_GREEN < 256.
Proof.
  intros Hx.
  pose proof (below_checked 256 _ lxor_LED_GREEN_checked x ltac:(lia)) as H.
  cbv beta in H.
  rewrite !andb_true_iff, !Z.eqb_eq, Z.ltb_lt, Z.leb_le in H. lia.
Qed.

Lemma Timer0_ISR_step p :
  0 <= bcount p < 10 ->
  bcount (Timer0_ISR TA0IV_TAIFG p)
  = (if bcount p =? 9 then 0 else bcount p + 1) /\
  P1OUT (Timer0_ISR TA0IV_TAIFG p)
  = (if bcount p =? 9 then to_uint8 (Z.lxor (P1OUT p) LED_GREEN)
     else P1OUT p) /\
  TACCTL0 (Timer0_ISR TA0IV_TAIFG p) = TACCTL0 p /\
  elapsed (Timer0_ISR TA0IV_TAIFG p) = elapsed p.
Proof.
  intros Hb. unfold Timer0_ISR.
  change (TA0IV_TAIFG =? TA0IV_TAIFG) with true. cbv zeta.
  cbn [bcount set_bcount].
  rewrite to_int16_small by lia.
  destruct (Z.leb_spec 10 (bcount p + 1)); destruct (Z.eqb_spec (bcount p) 9);
    try lia; cbn [bcount P1OUT TACCTL0 elapsed set_bcount set_P1OUT];
    repeat split.
Qed.

(** X11: the overflow interrupt of Timer A divides by ten: after [n]
    overflows counted from [bcount = 0] the counter holds [n mod 10] and
    the green led has been toggled [n / 10] times, so that it blinks
    with a period of twenty overflows; an interrupt of the same vector
    with another source changes nothing. *)
Theorem Timer0_ISR_divides n p :
  bcount p = 0 -> 0 <= P1OUT p < 256 ->
  let q := Nat.iter n (Timer0_ISR TA0IV_TAIFG) p in
  bcount q = Z.of_nat n mod 10 /\
  P1OUT q = (if Z.even (Z.of_nat n / 10) then P1OUT p
             else Z.lxor (P1OUT p) LED_GREEN) /\
  (forall TA0IV, TA0IV <> TA0IV_TAIFG -> Timer0_ISR TA0IV q = q).
Proof.
  intros Hb Hp. cbv zeta.
  assert (H : bcount (Nat.iter n (Timer0_ISR TA0IV_TAIFG) p)
              = Z.of_nat n mod 10 /\
              P1OUT (Nat.iter n (Timer0_ISR TA0IV_TAIFG) p)
              = (if Z.even (Z.of_nat n / 10) then P1OUT p
                 else Z.lxor (P1OUT p) LED_GREEN)).
  { induction n as [|n [IHb IHo]].
    - change (Nat.iter 0 (Timer0_ISR TA0IV_TAIFG) p) with p.
      rewrite Hb. split; reflexivity.
    - change (Nat.iter (S n) (Timer0_ISR TA0IV_TAIFG) p)
        with (Timer0_ISR TA0IV_TAIFG (Nat.iter n (Timer0_ISR TA0IV_TAIFG) p)).
      generalize dependent (Nat.iter n (Timer0_ISR TA0IV_TAIFG) p).
      intros q IHb IHo.
      assert (Hq : 0 <= bcount q < 10).
      { rewrite IHb. apply Z.mod_pos_bound. lia. }
      destruct (Timer0_ISR_step q Hq) as (Sb & So & _).
      rewrite Sb, So, IHb, IHo.
      replace (Z.of_nat (S n)) with (Z.of_nat n + 1) by lia.
      destruct (lxor_LED_GREEN (P1OUT p) Hp) as (L1 & L2 & L3).
      pose proof (Z.div_mod (Z.of_nat n) 10 ltac:(lia)) as D.
      pose proof (Z.mod_pos_bound (Z.of_nat n) 10 ltac:(lia)) as B.
      destruct (Z.eqb_spec (Z.of_nat n mod 10) 9) as [E9|E9].
      + assert (Hd : (Z.of_nat n + 1) / 10 = Z.of_nat n / 10 + 1).
        { symmetry. apply (Z.div_unique _ 10 _ 0); lia. }
        assert (Hm : (Z.of_nat n + 1) mod 10 = 0).
        { symmetry. apply (Z.mod_unique _ 10 (Z.of_nat n / 10 + 1)); lia. }
        rewrite Hd, Hm. split; [reflexivity|].
        rewrite Z.even_add. change (Z.even 1) with false.
        destruct (Z.even (Z.of_nat n / 10)); cbn [Bool.eqb].
        * exact L1.
        * rewrite L2. unfold to_uint8. apply Z.mod_small. lia.
      + assert (Hd : (Z.of_nat n + 1) / 10 = Z.of_nat n / 10).
        { symmetry. apply (Z.div_unique _ 10 _ (Z.of_nat n mod 10 + 1)); lia. }
        assert (Hm : (Z.of_nat n + 1) mod 10 = Z.of_nat n mod 10 + 1).
        { symmetry. apply (Z.mod_unique _ 10 (Z.of_nat n / 10)); lia. }
        rewrite Hd, Hm. split; reflexivity. }
  destruct H as [H1 H2]. split; [exact H1 | split; [exact H2|]].
  intros v Hv. unfold Timer0_ISR.
  destruct (Z.eqb_spec v TA0IV_TAIFG); [tauto | reflexivity].
Qed.

Lemma Timer0_ISR_divides_witness :
  let q := Nat.iter 20 (Timer0_ISR TA0IV_TAIFG)
             (set_P1OUT LED_GREEN ports_reset) in
  bcount q = 0 /\ P1OUT q = LED_GREEN /\
  P1OUT (Nat.iter 10 (Timer0_ISR TA0IV_TAIFG)
           (set_P1OUT LED_GREEN ports_reset)) = 0.
Proof.
  destruct (Timer0_ISR_divides 20 (set_P1OUT LED_GREEN ports_reset))
    as (H1 & H2 & _);
    [reflexivity | vm_compute; split; [discriminate | reflexivity] |].
  destruct (Timer0_ISR_divides 10 (set_P1OUT LED_GREEN ports_reset))
    as (_ & H3 & _);
    [reflexivity | vm_compute; split; [discriminate | reflexivity] |].
  cbv zeta. split; [exact H1 | split; [exact H2 | exact H3]].
Defined.

(** ** Crystal start-up and peripheral set-up *)

Lemma startClk32_clears fault : forall fuel n k p,
  (forall j, (n <= j < n + k)%nat -> fault j = true) ->
  fault (n + k)%nat = false -> (k < fuel)%nat ->
  exists q,
    startClk32 fault fuel n p = Done q /\
    elapsed q = elapsed p + 1000 * (Z.of_nat k + 1) /\
    BCSCTL3 q = XCAP_3 /\ P1OUT q = P1OUT p /\ P1DIR q = P1DIR p /\
    P1SEL q = P1SEL p /\ IE1 q = IE1 p /\ bcount q = bcount p.
Proof.
  induction fuel as [|fuel IH]; intros n k p Hf Hc Hk; [lia|].
  cbn [startClk32]. cbv zeta.
  destruct k as [|k].
  - rewrite Nat.add_0_r in Hc. rewrite Hc.
    eexists. split; [reflexivity|].
    cbn. repeat split; lia.
  - rewrite (Hf n) by lia.
    destruct (IH (S n) k (simpleDelay (set_BCSCTL3 XCAP_3 p)))
      as (q & E & He & Hrest).
    + intros j Hj. apply Hf. lia.
    + replace (S n + k)%nat with (n + S k)%nat by lia. exact Hc.
    + lia.
    + exists q. split; [exact E|].
      unfold simpleDelay, delay_cycles in He, Hrest.
      cbn [elapsed BCSCTL3 P1OUT P1DIR P1SEL IE1 bcount set_elapsed
           set_BCSCTL3] in He, Hrest.
      split; [lia | exact Hrest].
Qed.

Lemma startClk32_stuck fault : forall fuel n p,
  (forall j, fault j = true) ->
  exists q,
    startClk32 fault fuel n p = Running q /\
    elapsed q = elapsed p + 1000 * Z.of_nat fuel /\ P1OUT q = P1OUT p.
Proof.
  induction fuel as [|fuel IH]; intros n p Hf.
  - exists p. cbn [startClk32]. repeat split; lia.
  - cbn [startClk32]. cbv zeta. rewrite Hf.
    destruct (IH (S n) (simpleDelay (set_BCSCTL3 XCAP_3 p)) Hf)
      as (q & E & He & Ho).
    exists q. split; [exact E|].
    unfold simpleDelay, delay_cycles in He, Ho.
    cbn [elapsed P1OUT set_elapsed set_BCSCTL3] in He, Ho.
    split; [lia | exact Ho].
Qed.

(** The loop of [startClk32] on the ports is left exactly when the tests
    counted by [startClk32_tests] find the flag clear. *)
Lemma startClk32_views fault : forall fuel n p,
  match startClk32 fault fuel n p, startClk32_tests fault fuel n with
  | Done _, Some _ => True
  | Running _, None => True
  | _, _ => False
  end.
Proof.
  induction fuel as [|fuel IH]; intros n p.
  - exact I.
  - cbn [startClk32 startClk32_tests]. cbv zeta.
    destruct (fault n); [apply IH | exact I].
Qed.

(** X13: [configureAll] waits in [startClk32] with the red led on.  When
    the oscillator-fault flag is first found clear at test [k], it
    returns after [k+1] delays of 1000 cycles with every pin of P1 low,
    the leds, F_OUT and the SMCLK pin as outputs, the watchdog interrupt
    enabled and the capture unit set to capture on both edges of GND;
    when the flag never clears it never returns and the red led stays
    on. *)
Theorem configureAll_io_crystal fault p :
  (forall k fuel,
     (forall j, (j < k)%nat -> fault j = true) -> fault k = false ->
     (k < fuel)%nat ->
     exists q,
       configureAll_io fault fuel p = Done q /\
       P1OUT q = 0 /\
       elapsed q = elapsed p + 1000 * (Z.of_nat k + 1) /\
       P1DIR q = SET_FLAG (P1DIR p) (LED_RED + LED_GREEN + F_OUT + SMCLK_PIN) /\
       P1SEL q = SET_FLAG (P1SEL p) SMCLK_PIN /\
       IE1 q = SET_FLAG (IE1 p) WDTIE /\
       TACCTL0 q = CAP + CCIE + CM_3 + CCIS_2 /\
       bcount q = bcount p) /\
  ((forall j, fault j = true) ->
   forall fuel, exists q,
     configureAll_io fault fuel p = Running q /\
     P1OUT q = LED_RED /\
     elapsed q = elapsed p + 1000 * Z.of_nat fuel).
Proof.
  split.
  - intros k fuel Hf Hc Hk. unfold configureAll_io. cbv zeta.
    destruct (startClk32_clears fault fuel 0 k
                (set_P1OUT LED_RED
                   (set_P1DIR (SET_FLAG (P1DIR p)
                      (LED_RED + LED_GREEN + F_OUT + SMCLK_PIN)) p)))
      as (q & E & He & H3 & Ho & Hd & Hs & Hi & Hb).
    + intros j Hj. apply Hf. lia.
    + exact Hc.
    + exact Hk.
    + rewrite E. eexists. split; [reflexivity|].
      cbn [P1OUT elapsed P1DIR P1SEL IE1 TACCTL0 bcount set_P1SEL
           set_TACCTL0 set_TACTL set_IE1 set_WDTCTL set_P1OUT].
      cbn [elapsed P1DIR P1SEL IE1 bcount set_P1OUT set_P1DIR]
        in He, Hd, Hs, Hi, Hb.
      rewrite He, Hd, Hs, Hi, Hb. repeat split.
  - intros Hf fuel. unfold configureAll_io. cbv zeta.
    destruct (startClk32_stuck fault fuel 0
                (set_P1OUT LED_RED
                   (set_P1DIR (SET_FLAG (P1DIR p)
                      (LED_RED + LED_GREEN + F_OUT + SMCLK_PIN)) p)) Hf)
      as (q & E & He & Ho).
    rewrite E. exists q. split; [reflexivity|].
    cbn [elapsed P1OUT set_P1OUT set_P1DIR] in He, Ho.
    split; assumption.
Qed.

Lemma configureAll_io_crystal_witness :
  exists q,
    configureAll_io (fun j => (j <? 2)%nat) 5 ports_reset = Done q /\
    P1OUT q = 0 /\ elapsed q = 3000.
Proof.
  destruct (configureAll_io_crystal (fun j => (j <? 2)%nat) ports_reset)
    as [H _].
  destruct (H 2%nat 5%nat) as (q & E & Ho & He & _).
  - intros j Hj. apply Nat.ltb_lt. exact Hj.
  - reflexivity.
  - lia.
  - exists q. split; [exact E | split; [exact Ho | exact He]].
Defined.

(** ** Watchdog interrupt *)

Lemma configureAll_io_Done fault fuel p q :
  configureAll_io fault fuel p = Done q ->
  P1OUT q = 0 /\ TACCTL0 q = CAP + CCIE + CM_3 + CCIS_2.
Proof.
  unfold configureAll_io. cbv zeta.
  destruct (startClk32 fault fuel 0 _) as [r|r]; [|discriminate].
  intros E. injection E as <-. split; reflexivity.
Qed.

(** X12: after [configureAll] the watchdog interrupt switches the capture
    input between CCIS_2 and CCIS_2+CCIS0, GND and Vcc, at each call and
    leaves capture mode, both edges and the capture interrupt enabled;
    it toggles F_OUT and no other pin. *)
Theorem WDT_ISR_alternates fault fuel p q n :
  configureAll_io fault fuel p = Done q ->
  let r := Nat.iter n WDT_ISR q in
  TACCTL0 r = CAP + CCIE + CM_3 + CCIS_2 + (if Nat.even n then 0 else CCIS0) /\
  P1OUT r = (if Nat.even n then 0 else F_OUT).
Proof.
  intros E. apply configureAll_io_Done in E. destruct E as [Ho Ht].
  cbv zeta.
  assert (H : forall m,
            let r := Nat.iter m WDT_ISR q in
            (TACCTL0 r = 0xE110 /\ P1OUT r = 0 /\
             TACCTL0 (WDT_ISR r) = 0xF110 /\ P1OUT (WDT_ISR r) = F_OUT) /\
            Nat.even m = true \/
            (TACCTL0 r = 0xF110 /\ P1OUT r = F_OUT) /\ Nat.even m = false).
  { induction m as [|m IH].
    - left. change (Nat.iter 0 WDT_ISR q) with q. unfold WDT_ISR. cbv zeta.
      cbn [TACCTL0 P1OUT set_TACCTL0 set_P1OUT]. rewrite Ho, Ht.
      repeat split.
    - cbv zeta in *.
      change (Nat.iter (S m) WDT_ISR q) with (WDT_ISR (Nat.iter m WDT_ISR q)).
      generalize dependent (Nat.iter m WDT_ISR q). intros r IH.
      rewrite Nat.even_succ, <- Nat.negb_even.
      destruct IH as [[(T1 & O1 & T2 & O2) Ev] | [(T1 & O1) Ev]]; rewrite Ev.
      + right. repeat split; assumption.
      + left. split; [|reflexivity].
        unfold WDT_ISR. cbv zeta.
        cbn [TACCTL0 P1OUT set_TACCTL0 set_P1OUT]. rewrite T1, O1.
        repeat split. }
  specialize (H n). cbv zeta in H.
  destruct H as [[(T1 & O1 & _) Ev] | [(T1 & O1) Ev]]; rewrite Ev, T1, O1;
    split; reflexivity.
Qed.

Lemma WDT_ISR_alternates_witness :
  exists q,
    configureAll_io (fun _ => false) 1 ports_reset = Done q /\
    TACCTL0 (Nat.iter 3 WDT_ISR q) = 0xF110 /\
    P1OUT (Nat.iter 3 WDT_ISR q) = F_OUT.
Proof.
  destruct (configureAll_io (fun _ => false) 1 ports_reset) as [q|q] eqn:E;
    [|discriminate E].
  exists q. split; [reflexivity|].
  exact (WDT_ISR_alternates (fun _ => false) 1 ports_reset q 3 E).
Defined.

(** * The search, the tolerance, the blinker and the debounce *)

(** ** The search as a whole *)

(** X5: when [searchGoal] returns 0, the three globals are a setting of
    the oscillator, [rsel] in 0..15, [dco] in 0..7 and [mod] in 0..31,
    and BCSCTL1 and DCOCTL hold that setting, as the last [setDCO]
    programmed it, without any carry between the fields. *)
Theorem searchGoal_configuration (hw : Env) goal s :
  fst (searchGoal hw goal s) = 0 ->
  let s' := snd (searchGoal hw goal s) in
  0 <= rsel s' <= 15 /\ 0 <= dco s' <= 7 /\ 0 <= mod_ s' <= 31 /\
  BCSCTL1 s' = XT2OFF + rsel s' /\
  DCOCTL s' = dco s' * DCO0 + mod_ s' /\
  GET_FIELD (DCOCTL s') MOD_MASK = dco s' * DCO_OFFS /\
  GET_FIELD (DCOCTL s') DCO_MASK = mod_ s' * MOD_OFFS.
Proof.
  unfold searchGoal. intros H0.
  pose proof (searchGoal_with_bounds hw 0 goal s) as K. cbv zeta in K.
  destruct K as [_ K]. specialize (K H0).
  cbv zeta.
  generalize dependent (searchGoal_with hw 0 goal s). intros [r s'] _ K.
  cbn [snd] in *.
  destruct K as (_ & Hr & Hd & Hm & HB & HD).
  split; [exact Hr|]. split; [exact Hd|]. split; [exact Hm|].
  split; [exact HB|]. split; [exact HD|].
  rewrite HD.
  generalize dependent (dco s'). generalize dependent (mod_ s').
  intros m Hm d Hd _.
  assert (C : forallb (fun d => forallb (fun m =>
                (GET_FIELD (d * DCO0 + m) MOD_MASK =? d * DCO_OFFS) &&
                (GET_FIELD (d * DCO0 + m) DCO_MASK =? m * MOD_OFFS))
                (map Z.of_nat (seq 0 32))) (map Z.of_nat (seq 0 8)) = true)
    by (vm_compute; reflexivity).
  pose proof (below_checked 8 _ C d ltac:(lia)) as C1. cbv beta in C1.
  pose proof (below_checked 32 _ C1 m ltac:(lia)) as C2. cbv beta in C2.
  rewrite andb_true_iff, !Z.eqb_eq in C2. exact C2.
Qed.

Lemma searchGoal_configuration_witness :
  let s' := snd (searchGoal (bench rates_good) 977 (power_up factory)) in
  0 <= rsel s' <= 15 /\ 0 <= dco s' <= 7 /\ 0 <= mod_ s' <= 31 /\
  BCSCTL1 s' = XT2OFF + rsel s' /\
  DCOCTL s' = dco s' * DCO0 + mod_ s'.
Proof.
  destruct (searchGoal_configuration (bench rates_good) 977 (power_up factory))
    as (H1 & H2 & H3 & H4 & H5 & _).
  - vm_compute. reflexivity.
  - cbv zeta. split; [exact H1|]. split; [exact H2|]. split; [exact H3|].
    split; [exact H4 | exact H5].
Defined.

(** X6: a call of [searchGoal] takes between 2 and 57 measurement
    sessions of 55 captures each, whatever is measured, and at least 5
    when it returns 0: it always ends. *)
Theorem searchGoal_sessions (hw : Env) goal s :
  let r := searchGoal hw goal s in
  (tick s + 55 * 2 <= tick (snd r) <= tick s + 55 * 57)%nat /\
  (fst r = 0 -> (tick s + 55 * 5 <= tick (snd r))%nat).
Proof.
  unfold searchGoal.
  pose proof (searchGoal_with_bounds hw 0 goal s) as K. cbv zeta in K.
  cbv zeta.
  generalize dependent (searchGoal_with hw 0 goal s). intros [r s'] K.
  cbn [fst snd] in *. destruct K as [K1 K2].
  split; [exact K1|]. intros H0. apply K2. exact H0.
Qed.

Lemma searchGoal_sessions_witness :
  (55 * 5 <= tick (snd (searchGoal (bench rates_good) 977 (power_up factory)))
   <= 55 * 57)%nat.
Proof.
  destruct (searchGoal_sessions (bench rates_good) 977 (power_up factory))
    as [[_ H1] H2].
  split; [apply H2; vm_compute; reflexivity | exact H1].
Defined.

(** X7: [prev] is read by [searchGoal] only after it has been assigned:
    the value the uninitialised local happens to hold changes neither
    the result nor the state. *)
Theorem searchGoal_prev_unread (hw : Env) prev goal s :
  searchGoal_with hw prev goal s = searchGoal hw goal s.
Proof. unfold searchGoal. apply searchGoal_with_prev_irrelevant. Qed.

(** ** Tolerance *)

(** X19: for a measurement below 2.28 times the goal the conversion to
    [char] loses nothing, and the test of [main] accepts the
    measurement exactly when it is less than MAX_ERROR+1 percent away
    from the goal: the division rounds towards zero, so that an error
    of 5.9 percent passes a MAX_ERROR of 5. *)
Theorem tolerance_is_below_next_percent measured goal :
  0 <= measured < 65536 -> 0 < goal < 65536 ->
  100 * measured < 228 * goal ->
  (within_tolerance (percent_error measured goal) = true <->
   - (MAX_ERROR + 1) * goal < 100 * (measured - goal) < (MAX_ERROR + 1) * goal).
Proof.
  intros Hm Hg Hr.
  assert (L : forall a, 0 <= a ->
            (a / goal <= 5 <-> a < 6 * goal) /\
            (a < 128 * goal -> a / goal < 128) /\ 0 <= a / goal).
  { intros a Ha. split; [split|split].
    - intros Hq. destruct (Z_lt_ge_dec a (6 * goal)); [assumption|].
      assert (6 <= a / goal) by (apply Z.div_le_lower_bound; lia). lia.
    - intros Hlt.
      assert (a / goal < 6) by (apply Z.div_lt_upper_bound; lia). lia.
    - intros. apply Z.div_lt_upper_bound; lia.
    - apply Z.div_pos; lia. }
  assert (Hq : -128 <= exact_percent_error measured goal < 128 /\
               (- MAX_ERROR <= exact_percent_error measured goal <= MAX_ERROR
                <-> - (MAX_ERROR + 1) * goal < 100 * (measured - goal) < (MAX_ERROR + 1) * goal)).
  { unfold exact_percent_error, MAX_ERROR.
    destruct (Z_le_gt_dec 0 (100 * (measured - goal))) as [Hp | Hn].
    - rewrite Z.quot_div_nonneg by lia.
      destruct (L (100 * (measured - goal)) Hp) as ([L1 L2] & L3 & L4).
      specialize (L3 ltac:(lia)).
      generalize dependent (100 * (measured - goal) / goal). intros q.
      intros. split; [lia | split; intros; lia].
    - replace (100 * (measured - goal)) with (- (100 * (goal - measured)))
        by lia.
      rewrite Z.quot_opp_l by lia.
      rewrite Z.quot_div_nonneg by lia.
      destruct (L (100 * (goal - measured)) ltac:(lia)) as ([L1 L2] & L3 & L4).
      specialize (L3 ltac:(lia)).
      generalize dependent (100 * (goal - measured) / goal). intros q.
      intros. split; [lia | split; intros; lia]. }
  destruct Hq as [Hq1 Hq2].
  rewrite within_tolerance_exact by assumption. exact Hq2.
Qed.

Lemma tolerance_is_below_next_percent_witness :
  within_tolerance (percent_error 1035 977) = true /\
  within_tolerance (percent_error 1036 977) = false.
Proof.
  split.
  - apply (tolerance_is_below_next_percent 1035 977); unfold MAX_ERROR; lia.
  - destruct (within_tolerance (percent_error 1036 977)) eqn:E;
      [|reflexivity].
    apply (tolerance_is_below_next_percent 1036 977) in E;
      unfold MAX_ERROR in *; lia.
Defined.

(** ** The error blinker *)

Lemma edges_app g : forall (a b : list (Ports -> Ports)) p,
  rising_edges (g p) (map g (trace_on (a ++ b) p))
  = (rising_edges (g p) (map g (trace_on a p))
     + rising_edges (g (run_on a p)) (map g (trace_on b (run_on a p))))%nat.
Proof.
  induction a as [|f a IH]; intros b p.
  - reflexivity.
  - cbn [app trace_on map rising_edges]. cbv zeta.
    cbn [map rising_edges]. rewrite IH.
    unfold run_on. cbn [fold_left]. lia.
Qed.

Lemma run_on_app {A} (a b : list (A -> A)) p :
  run_on (a ++ b) p = run_on b (run_on a p).
Proof. unfold run_on. apply fold_left_app. Qed.

Lemma red_checked :
  forallb (fun x =>
     negb (Z.testbit x 0) ||
     (Z.testbit (SET_FLAG x LED_RED) 0 &&
      negb (Z.testbit (RESET_FLAG (SET_FLAG x LED_RED) LED_RED) 0)))
    (map Z.of_nat (seq 0 256)) = true.
Proof. vm_compute. reflexivity. Qed.

Lemma red_off_checked :
  forallb (fun x =>
     Z.testbit x 0 ||
     (Z.testbit (SET_FLAG x LED_RED) 0 &&
      (RESET_FLAG (SET_FLAG x LED_RED) LED_RED =? x)))
    (map Z.of_nat (seq 0 256)) = true.
Proof. vm_compute. reflexivity. Qed.

Lemma blink_once p :
  0 <= P1OUT p < 256 -> red_on p = false ->
  let blink := [ (fun p => set_P1OUT (SET_FLAG (P1OUT p) LED_RED) p);
                 longDelay;
                 (fun p => set_P1OUT (RESET_FLAG (P1OUT p) LED_RED) p);
                 longDelay ] in
  rising_edges (red_on p) (map red_on (trace_on blink p)) = 1%nat /\
  P1OUT (run_on blink p) = P1OUT p /\
  elapsed (run_on blink p) = elapsed p + 400000.
Proof.
  intros Hp Hoff. cbv zeta.
  pose proof (below_checked 256 _ red_off_checked (P1OUT p) ltac:(lia)) as C.
  cbv beta in C. unfold red_on in Hoff. rewrite Hoff in C.
  cbn [orb] in C. rewrite andb_true_iff, Z.eqb_eq in C. destruct C as [C1 C2].
  unfold run_on. cbn [trace_on fold_left map]. cbv zeta.
  set (p1 := set_P1OUT (SET_FLAG (P1OUT p) LED_RED) p).
  destruct (longDelay_spec p1) as (He1 & Ho1 & _).
  generalize dependent (longDelay p1). intros p2 He1 Ho1.
  set (p3 := set_P1OUT (RESET_FLAG (P1OUT p2) LED_RED) p2).
  destruct (longDelay_spec p3) as (He2 & Ho2 & _).
  generalize dependent (longDelay p3). intros p4 He2 Ho2.
  assert (R1 : red_on p1 = true) by exact C1.
  assert (R2 : red_on p2 = true)
    by (unfold red_on; rewrite Ho1; exact C1).
  assert (O3 : P1OUT p3 = P1OUT p).
  { subst p3. cbn [P1OUT set_P1OUT]. rewrite Ho1. exact C2. }
  assert (R3 : red_on p3 = false) by (unfold red_on; rewrite O3; exact Hoff).
  assert (R4 : red_on p4 = false)
    by (unfold red_on; rewrite Ho2, O3; exact Hoff).
  cbn [rising_edges]. unfold red_on at 1. rewrite Hoff, R1, R2, R3, R4.
  split; [reflexivity|]. split; [congruence|].
  rewrite He2. subst p3. cbn [elapsed set_P1OUT]. rewrite He1.
  subst p1. cbn [elapsed set_P1OUT]. lia.
Qed.

Lemma blinks_spec : forall n p,
  0 <= P1OUT p < 256 -> red_on p = false ->
  let blinks := concat (repeat
                  [ (fun p => set_P1OUT (SET_FLAG (P1OUT p) LED_RED) p);
                    longDelay;
                    (fun p => set_P1OUT (RESET_FLAG (P1OUT p) LED_RED) p);
                    longDelay ] n) in
  rising_edges (red_on p) (map red_on (trace_on blinks p)) = n /\
  P1OUT (run_on blinks p) = P1OUT p /\
  elapsed (run_on blinks p) = elapsed p + 400000 * Z.of_nat n.
Proof.
  induction n as [|n IH]; intros p Hp Hoff; cbv zeta.
  - cbn [repeat concat trace_on map rising_edges]. unfold run_on.
    cbn [fold_left]. repeat split; lia.
  - cbn [repeat concat].
    destruct (blink_once p Hp Hoff) as (B1 & B2 & B3). cbv zeta in B1, B2, B3.
    rewrite edges_app, run_on_app, B1.
    generalize dependent
      (run_on [ (fun p => set_P1OUT (SET_FLAG (P1OUT p) LED_RED) p);
                longDelay;
                (fun p => set_P1OUT (RESET_FLAG (P1OUT p) LED_RED) p);
                longDelay ] p).
    intros q B2 B3.
    assert (Hq : red_on q = false) by (unfold red_on; rewrite B2; exact Hoff).
    destruct (IH q ltac:(lia) Hq) as (I1 & I2 & I3). cbv zeta in I1, I2, I3.
    rewrite I1, I2, I3. split; [reflexivity|]. split; [exact B2|]. lia.
Qed.

Lemma pause_spec : forall n p,
  rising_edges (red_on p) (map red_on (trace_on (repeat longDelay n) p)) = 0%nat /\
  P1OUT (run_on (repeat longDelay n) p) = P1OUT p /\
  elapsed (run_on (repeat longDelay n) p) = elapsed p + 200000 * Z.of_nat n.
Proof.
  induction n as [|n IH]; intros p.
  - cbn [repeat trace_on map rising_edges]. unfold run_on. cbn [fold_left].
    repeat split; lia.
  - cbn [repeat trace_on map rising_edges]. cbv zeta.
    unfold run_on. cbn [fold_left]. fold (run_on (repeat longDelay n) (longDelay p)).
    destruct (longDelay_spec p) as (He & Ho & _).
    generalize dependent (longDelay p). intros q He Ho.
    destruct (IH q) as (I1 & I2 & I3).
    assert (Hq : red_on q = red_on p) by (unfold red_on; rewrite Ho; reflexivity).
    rewrite I1, I2, I3, Hq. split; [|split; [exact Ho | lia]].
    destruct (red_on p); reflexivity.
Qed.

(** X14: one pass of the loop of [errorLock], entered with the red led
    off: the led goes on exactly [error] times, not at all for an
    [error] that is not positive, the pass takes [2*error+8] long
    delays and leaves P1OUT as it found it, so that every pass shows the
    same number of blinks. *)
Theorem errorLock_pass_blinks error p :
  0 <= P1OUT p < 256 -> red_on p = false ->
  rising_edges (red_on p) (map red_on (trace_on (errorLock_pass error) p))
  = Z.to_nat error /\
  P1OUT (run_on (errorLock_pass error) p) = P1OUT p /\
  elapsed (run_on (errorLock_pass error) p)
  = elapsed p + 200000 * (2 * Z.of_nat (Z.to_nat error) + 8).
Proof.
  intros Hp Hoff. unfold errorLock_pass.
  destruct (blinks_spec (Z.to_nat error) p Hp Hoff) as (B1 & B2 & B3).
  cbv zeta in B1, B2, B3.
  rewrite edges_app, run_on_app, B1.
  generalize dependent
    (run_on (concat (repeat
       [ (fun p => set_P1OUT (SET_FLAG (P1OUT p) LED_RED) p);
         longDelay;
         (fun p => set_P1OUT (RESET_FLAG (P1OUT p) LED_RED) p);
         longDelay ] (Z.to_nat error))) p).
  intros q B2 B3.
  destruct (pause_spec 8 q) as (P1 & P2 & P3).
  rewrite P1, P2, P3, B2, B3. split; [lia|]. split; [reflexivity | lia].
Qed.

Lemma errorLock_pass_blinks_witness :
  rising_edges false
    (map red_on (trace_on (errorLock_pass 5) (set_P1OUT F_OUT ports_reset)))
  = 5%nat /\
  elapsed (run_on (errorLock_pass 5) (set_P1OUT F_OUT ports_reset)) = 3600000.
Proof.
  destruct (errorLock_pass_blinks 5 (set_P1OUT F_OUT ports_reset))
    as (H1 & _ & H3).
  - vm_compute. split; [discriminate | reflexivity].
  - reflexivity.
  - split; [exact H1 | exact H3].
Defined.

(** ** The switch debounce *)

Lemma wait_ncap_counts (hw : Env) limit : forall k s,
  0 <= ncap s -> ncap s + Z.of_nat k = limit -> limit <= 10000 ->
  let s' := wait_ncap hw k limit s in
  ncap s' = limit /\ tick s' = (tick s + k)%nat /\ frame s s'.
Proof.
  induction k as [|k IH]; intros s H0 Hk Hl; cbv zeta.
  - rewrite wait_ncap_done by lia.
    split; [lia | split; [lia | apply frame_refl]].
  - cbn [wait_ncap].
    destruct (Z.ltb_spec (ncap s) limit); [|lia].
    pose proof (CAPTURE0_ISR_ncap hw s) as Hn.
    pose proof (CAPTURE0_ISR_tick hw s) as Ht.
    pose proof (CAPTURE0_ISR_frame hw s) as Hf.
    generalize dependent (CAPTURE0_ISR hw s). intros s1 Hn Ht Hf.
    destruct (Z.ltb_spec (ncap s) 10000); [|lia].
    rewrite to_int16_small in Hn by lia.
    destruct (IH s1 ltac:(lia) ltac:(lia) Hl) as (I1 & I2 & I3).
    split; [exact I1|]. split; [lia|].
    eapply frame_trans; [exact Hf | exact I3].
Qed.

(** X16: the debounce of [loopFrequencies] waits for exactly 200
    captures, whatever [ncap] was, and leaves the oscillator registers,
    the tables and the information memory alone. *)
Theorem debounce_waits (hw : Env) s :
  let s' := debounce hw s in
  ncap s' = 200 /\ tick s' = (tick s + 200)%nat /\ frame s s'.
Proof.
  cbv zeta. unfold debounce. cbv zeta. cbn [ncap set_ncap].
  change (Z.to_nat (200 - 0)) with 200%nat.
  destruct (wait_ncap_counts hw 200 200 (set_ncap 0 s))
    as (H1 & H2 & H3); [cbn; lia | cbn; lia | lia |].
  cbv zeta in H1, H2, H3.
  generalize dependent (wait_ncap hw 200 200 (set_ncap 0 s)).
  intros s' H1 H2 H3.
  split; [exact H1|]. split; [exact H2|].
  eapply frame_trans; [|exact H3]. unfold frame. cbn. tauto.
Qed.

(** * The tables of results *)

Section TablesKept.

Variable hw : Env.

Lemma tables_kept_refl s : tables_kept s s.
Proof. unfold tables_kept. tauto. Qed.

Lemma tables_kept_trans s1 s2 s3 :
  tables_kept s1 s2 -> tables_kept s2 s3 -> tables_kept s1 s3.
Proof. unfold tables_kept. intuition congruence. Qed.

Lemma setDCO_tables_kept r d m s : tables_kept s (setDCO hw r d m s).
Proof.
  pose proof (setDCO_session hw r d m s) as H. cbv zeta in H.
  unfold tables_kept. tauto.
Qed.

Lemma rsel_loop_tables_kept goal : forall fuel prev s,
  tables_kept s (fst (rsel_loop hw fuel goal prev s)).
Proof.
  induction fuel as [|fuel IH]; intros prev s.
  - cbn [rsel_loop]. destruct (rsel s <? 16); apply tables_kept_refl.
  - destruct (Z.ltb_spec (rsel s) 16) as [Hlt | Hge].
    + rewrite rsel_loop_step by exact Hlt.
      pose proof (setDCO_tables_kept (rsel s) 3 0 s) as K.
      generalize dependent (setDCO hw (rsel s) 3 0 s). intros s1 K.
      destruct (goal <? AveragedDifference s1); [exact K|].
      eapply tables_kept_trans; [exact K|].
      apply (IH (AveragedDifference s1) (set_rsel (to_int16 (rsel s1 + 1)) s1)).
    + rewrite rsel_loop_exit by exact Hge. apply tables_kept_refl.
Qed.

Lemma dco_loop_tables_kept goal : forall fuel s,
  tables_kept s (dco_loop hw fuel goal s).
Proof.
  induction fuel as [|fuel IH]; intros s.
  - cbn [dco_loop]. destruct (dco s <? 8); apply tables_kept_refl.
  - destruct (Z.ltb_spec (dco s) 8) as [Hlt | Hge].
    + rewrite dco_loop_step by exact Hlt.
      pose proof (setDCO_tables_kept (rsel s) (dco s) 0 s) as K.
      generalize dependent (setDCO hw (rsel s) (dco s) 0 s). intros s1 K.
      destruct (goal <? AveragedDifference s1); [exact K|].
      eapply tables_kept_trans; [exact K|].
      apply (IH (set_dco (to_int16 (dco s1 + 1)) s1)).
    + rewrite dco_loop_exit by exact Hge. apply tables_kept_refl.
Qed.

Lemma mod_loop_tables_kept goal : forall fuel prev s,
  tables_kept s (fst (mod_loop hw fuel goal prev s)).
Proof.
  induction fuel as [|fuel IH]; intros prev s.
  - cbn [mod_loop]. destruct (mod_ s <? 32); apply tables_kept_refl.
  - destruct (Z.ltb_spec (mod_ s) 32) as [Hlt | Hge].
    + rewrite mod_loop_step by exact Hlt.
      pose proof (setDCO_tables_kept (rsel s) (dco s) (mod_ s) s) as K.
      generalize dependent (setDCO hw (rsel s) (dco s) (mod_ s) s). intros s1 K.
      destruct (goal <? AveragedDifference s1); [exact K|].
      eapply tables_kept_trans; [exact K|].
      apply (IH (AveragedDifference s1) (set_mod (to_int16 (mod_ s1 + 1)) s1)).
    + rewrite mod_loop_exit by exact Hge. apply tables_kept_refl.
Qed.

Lemma rsel_pick_tables_kept goal prev s : tables_kept s (rsel_pick goal prev s).
Proof.
  unfold rsel_pick.
  destruct (rsel s <? 16), (negb (rsel s =? 0)),
    (sub16 goal prev <? sub16 (AveragedDifference s) goal);
    unfold tables_kept; repeat split.
Qed.

Lemma mod_pick_tables_kept goal prev s : tables_kept s (mod_pick goal prev s).
Proof.
  unfold mod_pick.
  destruct (mod_ s <? 32), (negb (mod_ s =? 0)),
    (sub16 goal prev <? sub16 (AveragedDifference s) goal);
    unfold tables_kept; repeat split.
Qed.

Lemma special_case_tables_kept goal m0diff s :
  tables_kept s (special_case goal m0diff s).
Proof.
  unfold special_case.
  destruct (mod_ s =? 31),
    (to_uint16 m0diff <? sub16 (AveragedDifference s) goal);
    unfold tables_kept; repeat split.
Qed.

(** The search never touches the tables of results. *)
Lemma searchGoal_with_tables_kept prev0 goal s :
  tables_kept s (snd (searchGoal_with hw prev0 goal s)).
Proof.
  unfold searchGoal_with, range_scan.
  pose proof (rsel_loop_tables_kept goal 16 prev0 (set_rsel 0 s)) as K1.
  destruct (rsel_loop hw 16 goal prev0 (set_rsel 0 s)) as [s1 prev].
  cbn [fst] in K1.
  pose proof (rsel_pick_tables_kept goal prev s1) as K2.
  generalize dependent (rsel_pick goal prev s1). intros s2 K2.
  unfold step_scan.
  pose proof (dco_loop_tables_kept goal 8 (set_dco 0 s2)) as K3.
  generalize dependent (dco_loop hw 8 goal (set_dco 0 s2)). intros s3 K3.
  assert (K : tables_kept s s3).
  { eapply tables_kept_trans; [exact K1|].
    eapply tables_kept_trans; [exact K2 | exact K3]. }
  destruct (7 <? dco s3); [exact K|].
  destruct (dco s3 =? 0); [exact K|].
  cbn [snd]. unfold mod_scan.
  set (s4 := set_dco (to_int16 (dco s3 - 1)) s3).
  set (m0diff := to_int16 (sub16 (AveragedDifference s3) goal)).
  pose proof (mod_loop_tables_kept goal 32 prev (set_mod 0 s4)) as K4.
  destruct (mod_loop hw 32 goal prev (set_mod 0 s4)) as [s5 prev'].
  cbn [fst] in K4.
  pose proof (mod_pick_tables_kept goal prev' s5) as K5.
  generalize dependent (mod_pick goal prev' s5). intros s6 K5.
  pose proof (special_case_tables_kept goal m0diff s6) as K6.
  generalize dependent (special_case goal m0diff s6). intros s7 K6.
  eapply tables_kept_trans; [exact K|].
  eapply tables_kept_trans; [exact K4|].
  eapply tables_kept_trans; [exact K5|].
  eapply tables_kept_trans; [exact K6|].
  apply setDCO_tables_kept.
Qed.

Lemma searchGoal_tables_kept goal s :
  tables_kept s (snd (searchGoal hw goal s)).
Proof. unfold searchGoal. apply searchGoal_with_tables_kept. Qed.

Lemma array_set_nth v : forall (a : list Z) i,
  (i < length a)%nat ->
  nth i (array_set a i v) 0 = v /\
  length (array_set a i v) = length a /\
  forall j, j <> i -> nth j (array_set a i v) 0 = nth j a 0.
Proof.
  induction a as [|x a IH]; intros i Hi; [cbn in Hi; lia|].
  destruct i as [|i].
  - cbn [array_set nth length]. split; [reflexivity|]. split; [reflexivity|].
    intros [|j] Hj; [lia | reflexivity].
  - cbn [length] in Hi. destruct (IH i ltac:(lia)) as (I1 & I2 & I3).
    cbn [array_set nth length]. split; [exact I1|]. split; [lia|].
    intros [|j] Hj; [reflexivity|]. apply I3. lia.
Qed.

Lemma cycles_loop_over fuel goal j s :
  MAX_CYCLES <= j -> cycles_loop hw fuel goal j s = Returned (j, s).
Proof.
  intros H. destruct fuel; cbn [cycles_loop];
    destruct (Z.ltb_spec j MAX_CYCLES); try reflexivity; lia.
Qed.

(** The attempt that ends the retry loop before its ceiling. *)
Lemma cycles_loop_returned_early goal : forall fuel j s j' s',
  cycles_loop hw fuel goal j s = Returned (j', s') ->
  0 <= j -> MAX_CYCLES <= j + Z.of_nat fuel -> j' < MAX_CYCLES ->
  exists s0,
    tables_kept s s0 /\ fst (searchGoal hw goal s0) = 0 /\
    s' = snd (searchGoal hw goal s0) /\
    within_tolerance (percent_error (AveragedDifference s') goal) = true.
Proof.
  induction fuel as [|fuel IH]; intros j s j' s' E Hj Hf Hj'.
  - cbn [Z.of_nat] in Hf. rewrite cycles_loop_over in E by lia.
    injection E as <- <-. lia.
  - destruct (Z.ltb_spec j MAX_CYCLES) as [Hlt | Hge].
    + rewrite cycles_loop_step in E by exact Hlt.
      pose proof (searchGoal_tables_kept goal s) as K.
      remember (searchGoal hw goal s) as rs eqn:Ers.
      destruct rs as [r s1]. cbn [fst snd] in E, K.
      destruct (Z.eqb_spec r 0) as [H0 | H0];
        cbn [negb] in E; [|discriminate E].
      destruct (within_tolerance (percent_error (AveragedDifference s1) goal))
        eqn:T.
      * injection E as <- <-. exists s.
        split; [apply tables_kept_refl|]. rewrite <- Ers. cbn [fst snd].
        split; [exact H0|]. split; [reflexivity | exact T].
      * unfold MAX_CYCLES in Hlt, Hf.
        rewrite to_int16_small in E by lia.
        destruct (IH _ _ _ _ E ltac:(lia) ltac:(unfold MAX_CYCLES; lia) Hj')
          as (s0 & K0 & R0 & E0 & T0).
        exists s0. split; [|tauto].
        eapply tables_kept_trans; [exact K | exact K0].
    + rewrite cycles_loop_over in E by exact Hge.
      injection E as <- <-. lia.
Qed.

Lemma searchGoal_bounds goal s :
  let r := searchGoal hw goal s in
  (tick s + 55 * 2 <= tick (snd r) <= tick s + 55 * 57)%nat /\
  (fst r = 0 ->
   (tick s + 55 * 5 <= tick (snd r))%nat /\
   0 <= rsel (snd r) <= 15 /\ 0 <= dco (snd r) <= 7 /\
   0 <= mod_ (snd r) <= 31 /\
   BCSCTL1 (snd r) = XT2OFF + rsel (snd r) /\
   DCOCTL (snd r) = dco (snd r) * DCO0 + mod_ (snd r)).
Proof. unfold searchGoal. apply searchGoal_with_bounds. Qed.

(** What [calibrate] returns: the state of an accepted attempt, stored. *)
Lemma calibrate_returned i s s' :
  calibrate hw i s = Returned s' ->
  exists s1,
    s' = store_calibration i s1 /\ tables_kept s s1 /\
    setting (DCOCTL s1) (BCSCTL1 s1) /\
    within_tolerance (percent_error (AveragedDifference s1) (nth i GoalN 0))
    = true.
Proof.
  unfold calibrate.
  destruct (LFXT1OF_at hw (tick s)); [discriminate|].
  destruct (cycles_loop hw 10 (nth i GoalN 0) 0 s) as [[j s1]|o] eqn:E;
    [|discriminate].
  destruct (Z.leb_spec MAX_CYCLES j) as [Hj|Hj]; [discriminate|].
  intros H. injection H as <-.
  destruct (cycles_loop_returned_early _ _ _ _ _ _ E ltac:(lia)
              ltac:(unfold MAX_CYCLES; lia) Hj)
    as (s0 & K0 & R0 & E0 & T0).
  pose proof (searchGoal_bounds (nth i GoalN 0) s0) as B.
  pose proof (searchGoal_tables_kept (nth i GoalN 0) s0) as K1.
  cbv zeta in B.
  destruct B as [_ B]. specialize (B R0).
  rewrite <- E0 in B, K1. clear E0 R0 E.
  destruct B as (_ & Hr & Hd & Hm & HB & HD).
  exists s1. split; [reflexivity|].
  split; [eapply tables_kept_trans; [exact K0 | exact K1]|].
  split; [exists (rsel s1), (dco s1), (mod_ s1); tauto | exact T0].
Qed.

(** X20: what a target that is calibrated leaves behind: entry [i] of
    the two tables holds the registers as they are, which encode the
    setting of an attempt for which [searchGoal] returned 0 and the
    tolerance test passed; no other entry of the tables has changed. *)
Theorem calibrate_stores_accepted_setting i s s' :
  (i < length (CalDCO s))%nat -> (i < length (CalBC1 s))%nat ->
  calibrate hw i s = Returned s' ->
  nth i (CalDCO s') 0 = DCOCTL s' /\ nth i (CalBC1 s') 0 = BCSCTL1 s' /\
  setting (DCOCTL s') (BCSCTL1 s') /\
  within_tolerance (percent_error (AveragedDifference s') (nth i GoalN 0))
  = true /\
  forall j, j <> i ->
    nth j (CalDCO s') 0 = nth j (CalDCO s) 0 /\
    nth j (CalBC1 s') 0 = nth j (CalBC1 s) 0.
Proof.
  intros L1 L2 E.
  destruct (calibrate_returned i s s' E) as (s1 & -> & (C1 & C2) & S1 & T1).
  unfold store_calibration. cbv zeta.
  cbn [CalDCO CalBC1 DCOCTL BCSCTL1 AveragedDifference set_CalDCO set_CalBC1].
  destruct (array_set_nth (DCOCTL s1) (CalDCO s1) i ltac:(rewrite C1; exact L1))
    as (A1 & A2 & A3).
  destruct (array_set_nth (BCSCTL1 s1) (CalBC1 s1) i ltac:(rewrite C2; exact L2))
    as (A4 & A5 & A6).
  split; [exact A1|]. split; [exact A4|]. split; [exact S1|].
  split; [exact T1|].
  intros j' Hj'. rewrite A3, A6, C1, C2 by exact Hj'. split; reflexivity.
Qed.

Lemma frequencies_loop_settings : forall fuel i s s',
  frequencies_loop hw fuel i s = Returned s' ->
  (NFREQ <= i + fuel)%nat ->
  length (CalDCO s) = NFREQ -> length (CalBC1 s) = NFREQ ->
  (forall j, (j < i)%nat ->
     setting (nth j (CalDCO s) 0) (nth j (CalBC1 s) 0)) ->
  forall j, (j < NFREQ)%nat ->
    setting (nth j (CalDCO s') 0) (nth j (CalBC1 s') 0).
Proof.
  induction fuel as [|fuel IH]; intros i s s' E Hf L1 L2 Hi j Hj.
  - cbn [frequencies_loop] in E.
    destruct (Nat.ltb_spec i NFREQ); injection E as <-; apply Hi; lia.
  - cbn [frequencies_loop] in E.
    destruct (Nat.ltb_spec i NFREQ) as [Hlt | Hge].
    + destruct (calibrate hw i s) as [s1|o] eqn:E1; [|discriminate].
      destruct (calibrate_returned i s s1 E1) as (s0 & -> & (C1 & C2) & S1 & _).
      destruct (array_set_nth (DCOCTL s0) (CalDCO s0) i ltac:(rewrite C1; lia))
        as (A1 & A2 & A3).
      destruct (array_set_nth (BCSCTL1 s0) (CalBC1 s0) i ltac:(rewrite C2; lia))
        as (A4 & A5 & A6).
      apply (IH (S i) (store_calibration i s0) s' E); [lia | | | | exact Hj].
      * unfold store_calibration. cbv zeta.
        cbn [CalBC1 CalDCO DCOCTL BCSCTL1 set_CalDCO set_CalBC1].
        rewrite A2, C1. exact L1.
      * unfold store_calibration. cbv zeta.
        cbn [CalBC1 CalDCO DCOCTL BCSCTL1 set_CalDCO set_CalBC1].
        rewrite A5, C2. exact L2.
      * intros k Hk. unfold store_calibration. cbv zeta.
        cbn [CalBC1 CalDCO DCOCTL BCSCTL1 set_CalDCO set_CalBC1].
        destruct (Nat.eq_dec k i) as [-> | Hne].
        -- rewrite A1, A4. exact S1.
        -- rewrite A3, A6, C1, C2 by exact Hne. apply Hi. lia.
    + injection E as <-. apply Hi. lia.
Qed.

(** X21: when the loop of [main] over the targets comes to its end,
    every entry of the two tables encodes a setting of the oscillator:
    XT2OFF and a range for BCSCTL1, a step and a modulation for DCOCTL.
    Each is a byte, so that [flashWrite] stores it whole. *)
Theorem calibration_tables_hold_settings s s' :
  length (CalDCO s) = NFREQ -> length (CalBC1 s) = NFREQ ->
  frequencies_loop hw NFREQ 0 s = Returned s' ->
  forall j, (j < NFREQ)%nat ->
    setting (nth j (CalDCO s') 0) (nth j (CalBC1 s') 0) /\
    to_uint8 (nth j (CalDCO s') 0) = nth j (CalDCO s') 0 /\
    to_uint8 (nth j (CalBC1 s') 0) = nth j (CalBC1 s') 0.
Proof.
  intros L1 L2 E j Hj.
  pose proof (frequencies_loop_settings NFREQ 0 s s' E ltac:(lia) L1 L2
                ltac:(intros k Hk; lia) j Hj) as S.
  split; [exact S|].
  destruct S as (r & d & m & Hr & Hd & Hm & -> & ->).
  unfold to_uint8, XT2OFF, DCO0. rewrite !Z.mod_small by lia.
  split; reflexivity.
Qed.

End TablesKept.

Lemma calibrate_stores_accepted_setting_witness :
  exists s',
    calibrate (bench rates_good) 0 (power_up factory) = Returned s' /\
    nth 0 (CalDCO s') 0 = DCOCTL s' /\ nth 0 (CalBC1 s') 0 = BCSCTL1 s'.
Proof.
  destruct (calibrate (bench rates_good) 0 (power_up factory))
    as [s'|o] eqn:E; [|vm_compute in E; discriminate E].
  exists s'. split; [reflexivity|].
  destruct (calibrate_stores_accepted_setting (bench rates_good) 0
              (power_up factory) s') as (H1 & H2 & _).
  - vm_compute. lia.
  - vm_compute. lia.
  - exact E.
  - split; [exact H1 | exact H2].
Defined.

Lemma calibration_tables_hold_settings_witness :
  exists s',
    frequencies_loop (bench rates_all) NFREQ 0 (power_up factory)
    = Returned s' /\
    setting (nth 8 (CalDCO s') 0) (nth 8 (CalBC1 s') 0).
Proof.
  destruct (frequencies_loop (bench rates_all) NFREQ 0 (power_up factory))
    as [s'|o] eqn:E; [|vm_compute in E; discriminate E].
  exists s'. split; [reflexivity|].
  destruct (calibration_tables_hold_settings (bench rates_all)
              (power_up factory) s' eq_refl eq_refl E 8%nat) as [H _].
  - unfold NFREQ. lia.
  - exact H.
Defined.

(** * Witnesses of the exits, and the capture channel *)

Lemma calibrate_fatal_exits_witness :
  calibrate no_crystal 0 (power_up factory)
  = Halted (errorLock 1 (power_up factory)) /\
  calibrate (bench [2000; 2000]) 0 (power_up factory)
  = Halted (errorLock 2
      (after_attempts (bench [2000; 2000]) (nth 0 GoalN 0) 1
         (power_up factory))).
Proof.
  split.
  - destruct (calibrate_fatal_exits
                no_crystal 0 (power_up factory)) as [H _].
    apply H. reflexivity.
  - destruct (calibrate_fatal_exits (bench [2000; 2000]) 0 (power_up factory))
      as [_ H].
    apply (H eq_refl 0%nat); [lia | intros k' Hk'; lia |].
    vm_compute. discriminate.
Defined.

Lemma main_runs_from_stored_results_witness :
  exists s',
    main (bench rates_all) release 1 (power_up factory) = Looping true s' /\
    frequency_setting true s' 0
    = (to_uint8 (nth 0 (CalDCO s') 0), to_uint8 (nth 0 (CalBC1 s') 0)).
Proof.
  destruct (configureAll (bench rates_all) 1 (power_up factory))
    as [s0|o] eqn:E0; [|vm_compute in E0; discriminate E0].
  destruct (frequencies_loop (bench rates_all) NFREQ 0 (eint s0))
    as [s|o] eqn:E.
  - destruct (main_runs_from_stored_results (bench rates_all) release 1
                factory s0 s) as (s' & M & C1 & C2 & F).
    + reflexivity.
    + right. vm_compute. reflexivity.
    + vm_compute. discriminate.
    + vm_compute. discriminate.
    + exact E0.
    + exact E.
    + exists s'. split; [exact M|]. rewrite C1, C2. apply F. unfold NFREQ. lia.
  - exfalso. vm_compute in E0. injection E0 as <-.
    vm_compute in E. discriminate E.
Defined.

(** ** The capture interrupt and the timer wrap-around *)

Section CaptureFacts.

Variable hw : Env.

(** X22: the capture interrupt measures modulo 65536: when the timer has
    counted [c1 - c0] cycles since the previous capture, less than
    65536, [LastDifference] is that number, whether or not the 16-bit
    timer overflowed in between. *)
Theorem CAPTURE0_ISR_difference_wraps s c0 c1 :
  LastCapture s = to_uint16 c0 -> TACCR0_at hw (tick s) = c1 ->
  0 <= c1 - c0 < 65536 ->
  LastDifference (CAPTURE0_ISR hw s) = c1 - c0 /\
  LastCapture (CAPTURE0_ISR hw s) = to_uint16 c1.
Proof.
  intros H0 H1 Hd.
  assert (E : sub16 (to_uint16 c1) (to_uint16 c0) = c1 - c0).
  { unfold sub16, to_uint16. rewrite <- Zminus_mod. apply Z.mod_small. exact Hd. }
  unfold CAPTURE0_ISR. cbv zeta. rewrite H1.
  repeat (cbn [ncap LastCapture LastDifference tick Mean set_LastDifference
               set_LastCapture set_Mean set_ncap set_tick];
          try match goal with
              | |- context [if ?b then _ else _] => destruct b
              end).
  all: rewrite H0, E; split; reflexivity.
Qed.

Lemma sum_deltas_steady c d : forall n from,
  0 <= d < 65536 -> (1 <= from)%nat ->
  (forall k, (from - 1 <= k < from + n)%nat ->
     TACCR0_at hw k = c + d * Z.of_nat k) ->
  sum_deltas hw from n = d * Z.of_nat n.
Proof.
  induction n as [|n IH]; intros from Hd Hf H.
  - cbn [sum_deltas]. lia.
  - cbn [sum_deltas]. rewrite IH; [|exact Hd | lia | intros k Hk; apply H; lia].
    unfold delta, capture. rewrite (H from), (H (from - 1)%nat) by lia.
    unfold sub16, to_uint16. rewrite <- Zminus_mod.
    replace (Z.of_nat (from - 1)) with (Z.of_nat from - 1) by lia.
    replace (c + d * Z.of_nat from - (c + d * (Z.of_nat from - 1))) with d
      by ring.
    rewrite Z.mod_small by lia.
    replace (Z.of_nat (S n)) with (Z.of_nat n + 1) by lia. ring.
Qed.

(** X23: with a timer that runs free at [d] cycles per capture interval
    from the fifth capture of a session on, [setDCO] leaves exactly [d]
    in [AveragedDifference]: the captures before that are discarded, the
    overflows of the timer do no harm, and the mean of fifty equal
    differences is that difference. *)
Theorem setDCO_steady_reading r dc m s c d :
  0 <= d < 65536 ->
  (forall k, (tick s + 4 <= k < tick s + 55)%nat ->
     TACCR0_at hw k = c + d * Z.of_nat k) ->
  AveragedDifference (setDCO hw r dc m s) = d.
Proof.
  intros Hd H.
  pose proof (setDCO_session hw r dc m s) as K. cbv zeta in K.
  destruct K as (_ & _ & _ & K & _). rewrite K. unfold reading.
  rewrite (sum_deltas_steady c d 50 (tick s + 5) Hd ltac:(lia)).
  - change (Z.of_nat 50) with 50. apply Z.div_mul. lia.
  - intros k Hk. apply H. lia.
Qed.

End CaptureFacts.

Lemma CAPTURE0_ISR_difference_wraps_witness :
  LastDifference
    (CAPTURE0_ISR {| TACCR0_at := fun _ => 65536 + 200;
                     LFXT1OF_at := fun _ => false;
       LFXT1OF_start := fun _ => false |}
       (set_LastCapture 65000 (power_up factory)))
  = 736.
Proof.
  destruct (CAPTURE0_ISR_difference_wraps
              {| TACCR0_at := fun _ => 65536 + 200;
                 LFXT1OF_at := fun _ => false;
       LFXT1OF_start := fun _ => false |}
              (set_LastCapture 65000 (power_up factory)) 65000 (65536 + 200))
    as [H _]; [reflexivity | reflexivity | lia |].
  exact H.
Defined.

Lemma setDCO_steady_reading_witness :
  AveragedDifference
    (setDCO {| TACCR0_at := fun k => 7 + 1953 * Z.of_nat k;
               LFXT1OF_at := fun _ => false;
       LFXT1OF_start := fun _ => false |} 3 3 0 (power_up factory))
  = 1953.
Proof.
  apply (setDCO_steady_reading
           {| TACCR0_at := fun k => 7 + 1953 * Z.of_nat k;
              LFXT1OF_at := fun _ => false;
       LFXT1OF_start := fun _ => false |} 3 3 0 (power_up factory) 7 1953).
  - lia.
  - intros k Hk. reflexivity.
Defined.

(** ** One round of the frequency loop *)

(** X24: one round of the loop of [loopFrequencies] at index [i]: the two
    registers are programmed with the setting of that index, DCOCTL
    first, and hold it through the debounce; the round changes neither
    the tables nor the information memory, so that every index gives
    the same setting on every round. *)
Theorem loopFrequencies_round (hw : Env) fromFlash i s :
  let s' := debounce hw (loopFrequencies_program fromFlash i s) in
  (DCOCTL s', BCSCTL1 s') = frequency_setting fromFlash s i /\
  forall k, frequency_setting fromFlash s' k = frequency_setting fromFlash s k.
Proof.
  cbv zeta.
  set (s1 := loopFrequencies_program fromFlash i s).
  assert (P : DCOCTL s1 = fst (frequency_setting fromFlash s i) /\
              BCSCTL1 s1 = snd (frequency_setting fromFlash s i) /\
              flash s1 = flash s /\ CalDCO s1 = CalDCO s /\
              CalBC1 s1 = CalBC1 s).
  { subst s1. unfold loopFrequencies_program. cbv zeta.
    cbn [DCOCTL BCSCTL1 flash CalDCO CalBC1 set_DCOCTL set_BCSCTL1].
    repeat split. }
  clearbody s1. destruct P as (P1 & P2 & P3 & P4 & P5).
  unfold debounce. cbv zeta. cbn [ncap set_ncap].
  change (Z.to_nat (200 - 0)) with 200%nat.
  destruct (wait_ncap_counts hw 200 200 (set_ncap 0 s1))
    as (_ & _ & F); [cbn; lia | cbn; lia | lia |].
  generalize dependent (wait_ncap hw 200 200 (set_ncap 0 s1)).
  intros s2 F. unfold frame in F.
  cbn [BCSCTL1 DCOCTL FCTL1 FCTL2 FCTL3 GIE flash CalDCO CalBC1
       AveragedDifference rsel dco mod_ set_ncap] in F.
  destruct F as (F1 & F2 & _ & _ & _ & _ & F3 & F4 & F5 & _).
  split.
  - rewrite F1, F2, P1, P2. destruct (frequency_setting fromFlash s i).
    reflexivity.
  - intros k. unfold frequency_setting, peek. rewrite F3, F4, F5, P3, P4, P5.
    reflexivity.
Qed.

(** * Resuming from the calibration store *)

Lemma next_frequency_mod i :
  (i < NFREQ)%nat -> next_frequency i = (S i mod NFREQ)%nat.
Proof.
  unfold NFREQ. intros Hi.
  do 9 (destruct i as [|i]; [reflexivity|]). lia.
Qed.

Lemma loopFrequencies_pass_spec hw fromFlash i s :
  let s' := loopFrequencies_pass hw fromFlash i s in
  (DCOCTL s', BCSCTL1 s') = frequency_setting fromFlash s i /\
  flash s' = flash s /\ CalDCO s' = CalDCO s /\ CalBC1 s' = CalBC1 s /\
  tick s' = (tick s + 200)%nat.
Proof.
  cbv zeta. unfold loopFrequencies_pass.
  set (s1 := loopFrequencies_program fromFlash i s).
  assert (P : DCOCTL s1 = fst (frequency_setting fromFlash s i) /\
              BCSCTL1 s1 = snd (frequency_setting fromFlash s i) /\
              flash s1 = flash s /\ CalDCO s1 = CalDCO s /\
              CalBC1 s1 = CalBC1 s /\ tick s1 = tick s).
  { subst s1. unfold loopFrequencies_program. cbv zeta.
    cbn [DCOCTL BCSCTL1 flash CalDCO CalBC1 tick set_DCOCTL set_BCSCTL1].
    repeat split. }
  clearbody s1. destruct P as (P1 & P2 & P3 & P4 & P5 & P6).
  unfold debounce. cbv zeta. cbn [ncap set_ncap].
  change (Z.to_nat (200 - 0)) with 200%nat.
  destruct (wait_ncap_counts hw 200 200 (set_ncap 0 s1))
    as (_ & T & F); [cbn; lia | cbn; lia | lia |].
  generalize dependent (wait_ncap hw 200 200 (set_ncap 0 s1)).
  intros s2 T F. unfold frame in F.
  cbn [BCSCTL1 DCOCTL FCTL1 FCTL2 FCTL3 GIE flash CalDCO CalBC1
       AveragedDifference rsel dco mod_ tick set_ncap] in F, T.
  destruct F as (F1 & F2 & _ & _ & _ & _ & F3 & F4 & F5 & _).
  rewrite F1, F2, F3, F4, F5, T, P1, P2, P3, P4, P5, P6.
  split; [destruct (frequency_setting fromFlash s i); reflexivity|].
  repeat split.
Qed.

Lemma loopFrequencies_passes_S hw fromFlash n s :
  loopFrequencies_passes hw fromFlash (S n) s
  = (next_frequency (fst (loopFrequencies_passes hw fromFlash n s)),
     loopFrequencies_pass hw fromFlash
       (fst (loopFrequencies_passes hw fromFlash n s))
       (snd (loopFrequencies_passes hw fromFlash n s))).
Proof.
  cbn [loopFrequencies_passes].
  destruct (loopFrequencies_passes hw fromFlash n s). reflexivity.
Qed.

Lemma loopFrequencies_passes_spec hw fromFlash s : forall n,
  let r := loopFrequencies_passes hw fromFlash n s in
  fst r = (n mod NFREQ)%nat /\
  flash (snd r) = flash s /\ CalDCO (snd r) = CalDCO s /\
  CalBC1 (snd r) = CalBC1 s /\ tick (snd r) = (tick s + 200 * n)%nat.
Proof.
  induction n as [|n IH]; cbv zeta.
  - cbn [loopFrequencies_passes fst snd]. repeat split. lia.
  - rewrite loopFrequencies_passes_S. cbv zeta in IH.
    destruct (loopFrequencies_passes hw fromFlash n s) as [i s1].
    cbn [fst snd] in *. destruct IH as (I1 & I2 & I3 & I4 & I5).
    pose proof (loopFrequencies_pass_spec hw fromFlash i s1) as P.
    cbv zeta in P. destruct P as (_ & P1 & P2 & P3 & P4).
    generalize dependent (loopFrequencies_pass hw fromFlash i s1).
    intros s2 P1 P2 P3 P4.
    assert (Hi : (i < NFREQ)%nat).
    { rewrite I1. apply Nat.mod_upper_bound. unfold NFREQ. lia. }
    rewrite P1, P2, P3, P4, I2, I3, I4, I5.
    split; [|repeat split; lia].
    rewrite next_frequency_mod by exact Hi. rewrite I1.
    replace (S (n mod NFREQ)) with (n mod NFREQ + 1)%nat by lia.
    rewrite Nat.Div0.add_mod_idemp_l. f_equal. lia.
Qed.

(** The settings of the run mode entered from the information memory:
    push after push, the bytes of the slots in the order of [CalPos]. *)
Lemma run_setting_from_flash hw s n :
  run_setting hw (Looping true s) n
  = Some (to_uint8 (flash s (nth (n mod NFREQ) CalPos 0)),
          to_uint8 (flash s (nth (n mod NFREQ) CalPos 0 + 1))).
Proof.
  unfold run_setting.
  pose proof (loopFrequencies_passes_spec hw true s n) as I. cbv zeta in I.
  destruct (loopFrequencies_passes hw true n s) as [i s1].
  cbn [fst snd] in I. destruct I as (I1 & I2 & _). subst i.
  pose proof (loopFrequencies_pass_spec hw true (n mod NFREQ) s1) as P.
  cbv zeta in P. destruct P as (P & _).
  generalize dependent (loopFrequencies_pass hw true (n mod NFREQ) s1).
  intros s2 P.
  injection P as -> ->. unfold peek. rewrite I2. reflexivity.
Qed.

(** C7: when some calibration location holds data and neither
    FLASH_OVERRIDE nor TEST_MODE is defined, [main], once [startClk32]
    has found the crystal started, ends in [loopFrequencies(1)] in the
    state the set-up left: no capture event was served, so that no
    measurement was made, nothing was stored in the calibration arrays,
    and the information memory and the flash controller are as at
    power-up.  The setting the loop programs after [n] pushes of the
    switch is the pair of bytes of slot [n mod NFREQ] of the information
    memory, and a later boot from that information memory, on any
    hardware whose crystal starts, ends in the same state and goes
    through the same settings. *)
Theorem C7_resume_from_flash hw build fl fuel k :
  FLASH_OVERRIDE build = false -> TEST_MODE build = false ->
  nonblank fl ->
  (forall j, (j < k)%nat -> LFXT1OF_start hw j = true) ->
  LFXT1OF_start hw k = false -> (k < fuel)%nat ->
  exists s',
    main hw build fuel (power_up fl) = Looping true s' /\
    flash s' = fl /\ tick s' = O /\
    FCTL1 s' = FCTL1 (power_up fl) /\ FCTL3 s' = FCTL3 (power_up fl) /\
    CalDCO s' = CalDCO (power_up fl) /\ CalBC1 s' = CalBC1 (power_up fl) /\
    (forall n,
       run_setting hw (main hw build fuel (power_up fl)) n
       = Some (to_uint8 (fl (nth (n mod NFREQ) CalPos 0)),
               to_uint8 (fl (nth (n mod NFREQ) CalPos 0 + 1)))) /\
    (forall hw' fuel' k',
       (forall j, (j < k')%nat -> LFXT1OF_start hw' j = true) ->
       LFXT1OF_start hw' k' = false -> (k' < fuel')%nat ->
       main hw' build fuel' (power_up (flash s')) = Looping true s' /\
       forall n,
         run_setting hw' (main hw' build fuel' (power_up (flash s'))) n
         = run_setting hw (main hw build fuel (power_up fl)) n).
Proof.
  intros Ho Ht Hnb Hf Hc Hk.
  assert (E : forall hw' fuel' k',
            (forall j, (j < k')%nat -> LFXT1OF_start hw' j = true) ->
            LFXT1OF_start hw' k' = false -> (k' < fuel')%nat ->
            main hw' build fuel' (power_up fl)
            = Looping true
                (eint (set_BCSCTL1
                         (CALBC1_1MHZ (set_DCOCTL (CALDCO_1MHZ (power_up fl))
                                         (power_up fl)))
                         (set_DCOCTL (CALDCO_1MHZ (power_up fl))
                            (power_up fl))))).
  { intros hw' fuel' k' Hf' Hc' Hk'. unfold main.
    rewrite (configureAll_started hw' fuel' (power_up fl) k' Hf' Hc' Hk').
    cbv zeta. rewrite Ho, Ht.
    rewrite testFlashEmpty_nonblank by exact Hnb. reflexivity. }
  eexists. split; [apply (E hw fuel k Hf Hc Hk)|].
  split; [reflexivity|]. split; [reflexivity|]. split; [reflexivity|].
  split; [reflexivity|]. split; [reflexivity|]. split; [reflexivity|].
  split.
  - intros n. rewrite (E hw fuel k Hf Hc Hk).
    rewrite run_setting_from_flash. reflexivity.
  - intros hw' fuel' k' Hf' Hc' Hk'.
    change (flash (eint _)) with fl.
    split; [apply (E hw' fuel' k' Hf' Hc' Hk')|].
    intros n. rewrite (E hw' fuel' k' Hf' Hc' Hk'), (E hw fuel k Hf Hc Hk).
    rewrite !run_setting_from_flash. reflexivity.
Qed.

(** X26: as long as every test of [startClk32] finds the
    oscillator-fault flag set, [main] is still in the set-up, whatever
    the information memory holds: no capture has been served, nothing
    has been measured or stored, and the information memory is as at
    power-up. *)
Theorem main_waits_for_crystal hw build fuel fl :
  (forall j, (j < fuel)%nat -> LFXT1OF_start hw j = true) ->
  exists s,
    main hw build fuel (power_up fl) = Starting s /\
    flash s = fl /\ tick s = O /\ GIE s = false /\
    CalDCO s = CalDCO (power_up fl) /\ CalBC1 s = CalBC1 (power_up fl) /\
    forall n, run_setting hw (main hw build fuel (power_up fl)) n = None.
Proof.
  intros Hf. eexists. unfold main.
  rewrite (configureAll_waiting hw fuel (power_up fl) Hf).
  split; [reflexivity|]. repeat split.
Qed.

(** C7 with the calibration of 1MHz alone in the information memory and
    a crystal that has started at the third test. *)
Lemma C7_resume_from_flash_witness :
  let hw := {| TACCR0_at := bench_TACCR0 rates_good;
               LFXT1OF_at := fun _ => false;
               LFXT1OF_start := fun j => (j <? 2)%nat |} in
  nonblank calibrated /\
  (exists s', main hw release 5 (power_up calibrated) = Looping true s') /\
  run_setting hw (main hw release 5 (power_up calibrated)) 10
  = Some (0xD0, 0x86).
Proof.
  cbv zeta.
  assert (Hnb : nonblank calibrated).
  { exists 1%nat. split; [unfold NFREQ; lia|]. left. vm_compute. discriminate. }
  destruct (C7_resume_from_flash
              {| TACCR0_at := bench_TACCR0 rates_good;
                 LFXT1OF_at := fun _ => false;
                 LFXT1OF_start := fun j => (j <? 2)%nat |}
              release calibrated 5 2 eq_refl eq_refl Hnb)
    as (s' & E & _ & _ & _ & _ & _ & _ & F & _).
  - intros j Hj. apply Nat.ltb_lt. exact Hj.
  - reflexivity.
  - lia.
  - split; [exact Hnb|]. split; [exists s'; exact E|].
    rewrite F. vm_compute. reflexivity.
Defined.

Lemma main_waits_for_crystal_witness :
  exists s, main no_crystal release 1000 (power_up calibrated) = Starting s.
Proof.
  destruct (main_waits_for_crystal no_crystal release 1000 calibrated)
    as (s & E & _).
  - intros j Hj. reflexivity.
  - exists s. exact E.
Defined.
